(** * revid_clone: the script / storyboard / preview pipeline

    A shallow embedding of the Python package [revid_clone]
    (models.py, ai_engines.py, storage.py, project_service.py, cli.py) and
    the
    properties of its project lifecycle.

    Conventions of the embedding.
    - A Python [str] is a [string]; every [ascii] stands for the code point
      of the same number, so the strings covered are those over U+0000..U+00FF.
    - A Python [int] is a [Z]; the one float computation of the package,
      [duration_minutes * 1.5], is modelled with its overflow.
    - An exception is a value of [exn]; a computation that may raise returns
      a [result].
    - A dataclass is a record with the types its annotations name.
    - The home directory of the storage is a finite map from file names to
      file contents; a computation that touches it is an [IO] computation,
      which threads a [Disk]. A write outside the home directory raises at
      the locations the [Disk] lists, and [json.dumps] raises for an int
      of more than 4300 digits.
    - [textwrap] of the standard library is an interface, [TextWrap], that
      the definitions take as a parameter. *)

From Stdlib Require Import ZArith String Ascii List Lia DecimalString.
From stdpp Require Import gmap strings list sorting.

Open Scope string_scope.
Open Scope Z_scope.

(* ===================================================================== *)
(** * Exceptions and results *)
(* ===================================================================== *)

(** The exceptions the modelled code can raise. [OSError] stands for the
    subclasses of it that [Path.write_text] raises at a location it cannot
    write: [FileNotFoundError] for a missing parent directory,
    [NotADirectoryError], [IsADirectoryError], [PermissionError].
    [FileNotFoundError] itself is what reading a missing file raises.
    [Untyped] is not a Python exception: [Project.from_dict] answers it for
    a payload whose values do not have the types the dataclass annotations
    name. Python builds the object all the same (annotations are not
    checked); such objects lie outside the typed records of this
    embedding. *)
Inductive exn : Type :=
| TypeError
| AttributeError
| IndexError
| StopIteration
| OverflowError
| FileNotFoundError
| ValueError
| OSError
| Untyped.

Inductive result (A : Type) : Type :=
| Ok (a : A)
| Raise (e : exn).
Arguments Ok {A} a.
Arguments Raise {A} e.

#[global] Instance result_ret : MRet result := fun _ a => Ok a.

#[global] Instance result_bind : MBind result := fun _ _ k r =>
  match r with
  | Ok a => k a
  | Raise e => Raise e
  end.

(** The body of a [for] loop that may raise, run over the items of [l]
    with the loop's variables in [s]. *)
Fixpoint for_each {S A} (body : S -> A -> result S) (l : list A) (s : S)
  : result S :=
  match l with
  | [] => Ok s
  | x :: l' => s' ← body s x; for_each body l' s'
  end.

(** [range(n)]. *)
Definition range (n : Z) : list Z := map Z.of_nat (seq 0 (Z.to_nat n)).

(* ===================================================================== *)
(** * The string methods the package calls *)
(* ===================================================================== *)

(** [c.isspace()] for a code point below 256: TAB..CR, FS..US, SPACE,
    NEL (U+0085) and NBSP (U+00A0). This is the set [str.strip()] and
    [str.split()] use. *)
Definition isspace (c : ascii) : bool :=
  let n := N_of_ascii c in
  ((9 <=? n) && (n <=? 13) || (28 <=? n) && (n <=? 32)
   || (n =? 133) || (n =? 160))%N.

Fixpoint lstrip (s : string) : string :=
  match s with
  | EmptyString => EmptyString
  | String c s' => if isspace c then lstrip s' else s
  end.

Fixpoint rstrip (s : string) : string :=
  match s with
  | EmptyString => EmptyString
  | String c s' =>
      match rstrip s' with
      | EmptyString => if isspace c then EmptyString else String c EmptyString
      | r => String c r
      end
  end.

(** [s.strip()]. *)
Definition strip (s : string) : string := rstrip (lstrip s).

(** [s.replace(a, b)] for one-character [a] and [b]. *)
Fixpoint replace_char (a b : ascii) (s : string) : string :=
  match s with
  | EmptyString => EmptyString
  | String c s' =>
      String (if Ascii.eqb c a then b else c) (replace_char a b s')
  end.

(** [s.split(sep)] for a one-character separator: empty segments are kept,
    and the empty string splits into one empty segment. *)
Fixpoint split_on (sep : ascii) (s : string) : list string :=
  match s with
  | EmptyString => [EmptyString]
  | String c s' =>
      if Ascii.eqb c sep then EmptyString :: split_on sep s'
      else match split_on sep s' with
           | seg :: rest => String c seg :: rest
           | [] => [String c EmptyString]
           end
  end.

(** [s.split()]: the maximal runs of non-whitespace characters. [word] is
    the run being read. *)
Fixpoint words_from (word : string) (s : string) : list string :=
  match s with
  | EmptyString =>
      match word with EmptyString => [] | _ => [word] end
  | String c s' =>
      if isspace c then
        match word with
        | EmptyString => words_from EmptyString s'
        | _ => word :: words_from EmptyString s'
        end
      else words_from (word ++ String c EmptyString) s'
  end.

Definition split_ws (s : string) : list string := words_from EmptyString s.

(** [s.split(sep, 1)[-1]]: what follows the first [sep], or all of [s]
    when it holds none. *)
Fixpoint after_first (sep : ascii) (s : string) : option string :=
  match s with
  | EmptyString => None
  | String c s' => if Ascii.eqb c sep then Some s' else after_first sep s'
  end.

Definition split1_last (sep : ascii) (s : string) : string :=
  match after_first sep s with
  | Some tail => tail
  | None => s
  end.

(** [sep.join(parts)]. *)
Definition join (sep : string) (parts : list string) : string :=
  String.concat sep parts.

(** [needle in hay]. *)
Fixpoint contains (needle hay : string) : bool :=
  String.prefix needle hay ||
  match hay with
  | EmptyString => false
  | String _ hay' => contains needle hay'
  end.

(** [c.lower()] and [c.upper()] on the letters A..Z and a..z. The package
    calls [lower] and [capitalize] on its own arc templates only, which are
    ASCII; other code points are left as they are. *)
Definition lower_char (c : ascii) : ascii :=
  let n := N_of_ascii c in
  if ((65 <=? n) && (n <=? 90))%N then ascii_of_N (n + 32) else c.

Definition upper_char (c : ascii) : ascii :=
  let n := N_of_ascii c in
  if ((97 <=? n) && (n <=? 122))%N then ascii_of_N (n - 32) else c.

Fixpoint lower (s : string) : string :=
  match s with
  | EmptyString => EmptyString
  | String c s' => String (lower_char c) (lower s')
  end.

(** [s.capitalize()]. *)
Definition capitalize (s : string) : string :=
  match s with
  | EmptyString => EmptyString
  | String c s' => String (upper_char c) (lower s')
  end.

(** [str(n)] for an int. *)
Definition str_of_int (n : Z) : string := NilZero.string_of_int (Z.to_int n).

(** [x or ""] for an optional string. *)
Definition or_empty (x : option string) : string :=
  match x with
  | Some s => s
  | None => EmptyString
  end.

(* ===================================================================== *)
(** * JSON values and keyword arguments *)
(* ===================================================================== *)

Set Warnings "-register-all".

(** The values [to_dict] builds and [json.loads] returns: [None], booleans,
    ints, strings, lists, and dicts with string keys in insertion order.
    (The package writes no floats.) *)
Inductive json : Type :=
| JNull
| JBool (b : bool)
| JInt (n : Z)
| JStr (s : string)
| JList (items : list json)
| JDict (entries : list (string * json)).

(** [d.get(key)]. *)
Fixpoint dict_get (key : string) (entries : list (string * json))
  : option json :=
  match entries with
  | [] => None
  | (k, v) :: rest => if String.eqb k key then Some v else dict_get key rest
  end.

Fixpoint insert_key (k : string) (v : json) (entries : list (string * json))
  : list (string * json) :=
  match entries with
  | [] => [(k, v)]
  | (k', v') :: rest =>
      if String.leb k k' then (k, v) :: entries
      else (k', v') :: insert_key k v rest
  end.

(** [json.loads(json.dumps(payload, indent=2, sort_keys=True))]: what a
    reader finds in a file the package wrote. The text itself is not
    modelled; the keys of every dict come back sorted. *)
Fixpoint dumps_loads (j : json) : json :=
  match j with
  | JList items => JList (map dumps_loads items)
  | JDict entries =>
      JDict (fold_right
               (fun kv acc => insert_key (fst kv) (dumps_loads (snd kv)) acc)
               [] entries)
  | _ => j
  end.

(** The most decimal digits an int is written with. CPython 3.11 and
    later (and the security releases of 3.7 to 3.10) refuse to turn a
    longer int into text; 4300 is [sys.get_int_max_str_digits()] unless the
    interpreter is configured otherwise. *)
Definition max_str_digits : Z := 4300.

(** [10 ^ max_str_digits], the least int that is too long, worked out
    once. *)
Definition digits_bound : Z := Eval vm_compute in 10 ^ 4300.

Definition fits_digits (n : Z) : bool := Z.abs n <? digits_bound.

(** Every int in the value has at most [max_str_digits] digits. *)
Fixpoint encodable (j : json) : bool :=
  match j with
  | JInt n => fits_digits n
  | JList items => forallb encodable items
  | JDict entries => forallb (fun kv => encodable (snd kv)) entries
  | _ => true
  end.

(** [json.dumps(payload, indent=2, sort_keys=True)], as the value a reader
    of the text gets back: the encoder raises [ValueError] at an int of
    too many digits, before any text exists. *)
Definition dumps (payload : json) : result json :=
  if encodable payload then Ok (dumps_loads payload) else Raise ValueError.

(** Calling a dataclass constructor on an unpacked mapping: a keyword that names
    no field, or a field without default that no keyword gives, is a
    [TypeError]. *)
Definition bind_kwargs (fields required : list string)
    (kwargs : list (string * json)) : result unit :=
  if forallb (fun kv => bool_decide (fst kv ∈ fields)) kwargs
     && forallb (fun k => bool_decide (is_Some (dict_get k kwargs))) required
  then Ok tt else Raise TypeError.

(** Reading a bound argument at the type its annotation names. *)
Definition as_int (j : json) : result Z :=
  match j with JInt n => Ok n | _ => Raise Untyped end.

Definition as_str (j : json) : result string :=
  match j with JStr s => Ok s | _ => Raise Untyped end.

Definition as_bool (j : json) : result bool :=
  match j with JBool b => Ok b | _ => Raise Untyped end.

Definition as_opt_str (j : json) : result (option string) :=
  match j with
  | JNull => Ok None
  | JStr s => Ok (Some s)
  | _ => Raise Untyped
  end.

(** The argument [key], or the field's default when no keyword gives it. *)
Definition arg {A} (read : json -> result A) (key : string) (default : A)
    (kwargs : list (string * json)) : result A :=
  match dict_get key kwargs with
  | Some j => read j
  | None => Ok default
  end.

Definition of_opt_str (x : option string) : json :=
  match x with
  | Some s => JStr s
  | None => JNull
  end.

(* ===================================================================== *)
(** * models.py *)
(* ===================================================================== *)

Module Scene.

Record t : Type := mk {
  index : Z;
  title : string;
  summary : string;
  voiceover : option string;
  mood : option string;
  aspect_ratio : string;
  thumbnail_description : option string
}.

Definition fields : list string :=
  ["index"; "title"; "summary"; "voiceover"; "mood"; "aspect_ratio";
   "thumbnail_description"].

Definition required : list string := ["index"; "title"; "summary"].

Definition to_dict (self : t) : json :=
  JDict [("index", JInt (index self));
         ("title", JStr (title self));
         ("summary", JStr (summary self));
         ("voiceover", of_opt_str (voiceover self));
         ("mood", of_opt_str (mood self));
         ("aspect_ratio", JStr (aspect_ratio self));
         ("thumbnail_description", of_opt_str (thumbnail_description self))].

(** The constructor of the dataclass called on the unpacked mapping
    [kwargs], with the defaults of the fields. Once [bind_kwargs] passed,
    the three required arguments are there and their defaults below are
    never read. *)
Definition init (kwargs : list (string * json)) : result t :=
  _ ← bind_kwargs fields required kwargs;
  index ← arg as_int "index" 0 kwargs;
  title ← arg as_str "title" "" kwargs;
  summary ← arg as_str "summary" "" kwargs;
  voiceover ← arg as_opt_str "voiceover" None kwargs;
  mood ← arg as_opt_str "mood" None kwargs;
  aspect_ratio ← arg as_str "aspect_ratio" "16:9" kwargs;
  thumbnail_description ← arg as_opt_str "thumbnail_description" None kwargs;
  Ok (mk index title summary voiceover mood aspect_ratio
         thumbnail_description).

(** The constructor called on an unpacked [scene_dict]: anything but a
    mapping cannot be unpacked. *)
Definition of_json (scene_dict : json) : result t :=
  match scene_dict with
  | JDict kwargs => init kwargs
  | _ => Raise TypeError
  end.

End Scene.

(** A list comprehension whose element expression may raise. *)
Fixpoint comprehension {A B} (f : A -> result B) (l : list A)
  : result (list B) :=
  match l with
  | [] => Ok []
  | x :: l' => y ← f x; ys ← comprehension f l'; Ok (y :: ys)
  end.

Module Project.

Record t : Type := mk {
  project_id : string;
  title : string;
  brief : string;
  tone : string;
  target_audience : string;
  duration_minutes : Z;
  created_at : string;
  script_summary : option string;
  scenes : list Scene.t;
  storyboard_ready : bool;
  preview_ready : bool
}.

Definition fields : list string :=
  ["project_id"; "title"; "brief"; "tone"; "target_audience";
   "duration_minutes"; "created_at"; "script_summary"; "scenes";
   "storyboard_ready"; "preview_ready"].

Definition required : list string :=
  ["project_id"; "title"; "brief"; "tone"; "target_audience";
   "duration_minutes"].

Definition to_dict (self : t) : json :=
  JDict [("project_id", JStr (project_id self));
         ("title", JStr (title self));
         ("brief", JStr (brief self));
         ("tone", JStr (tone self));
         ("target_audience", JStr (target_audience self));
         ("duration_minutes", JInt (duration_minutes self));
         ("created_at", JStr (created_at self));
         ("script_summary", of_opt_str (script_summary self));
         ("scenes", JList (map Scene.to_dict (scenes self)));
         ("storyboard_ready", JBool (storyboard_ready self));
         ("preview_ready", JBool (preview_ready self))].

(** The comprehension that builds one [Scene] from each item of
    [payload.get("scenes", [])]. Iterating a string yields its characters and iterating a dict its
    keys, neither of which unpacks as a mapping; [None], a boolean and an
    int cannot be iterated at all. *)
Definition scenes_of (value : option json) : result (list Scene.t) :=
  match value with
  | None => Ok []
  | Some (JList items) => comprehension Scene.of_json items
  | Some (JStr EmptyString) => Ok []
  | Some (JDict []) => Ok []
  | Some _ => Raise TypeError
  end.

(** [Project.from_dict(payload)]. [now] is what the default factory of
    [created_at] would return at this call; it is read only when the
    payload has no such key. The keyword [scenes] is always passed, so the
    keys checked against the fields are those of the payload; the defaults
    of the six required arguments are never read. *)
Definition from_dict (now : string) (payload : json) : result t :=
  match payload with
  | JDict entries =>
      scenes ← scenes_of (dict_get "scenes" entries);
      _ ← bind_kwargs fields required entries;
      project_id ← arg as_str "project_id" "" entries;
      title ← arg as_str "title" "" entries;
      brief ← arg as_str "brief" "" entries;
      tone ← arg as_str "tone" "" entries;
      target_audience ← arg as_str "target_audience" "" entries;
      duration_minutes ← arg as_int "duration_minutes" 0 entries;
      created_at ← arg as_str "created_at" now entries;
      script_summary ← arg as_opt_str "script_summary" None entries;
      storyboard_ready ← arg as_bool "storyboard_ready" false entries;
      preview_ready ← arg as_bool "preview_ready" false entries;
      Ok (mk project_id title brief tone target_audience duration_minutes
             created_at script_summary scenes storyboard_ready preview_ready)
  | _ => Raise AttributeError
  end.

End Project.

(* ===================================================================== *)
(** * ai_engines.py *)
(* ===================================================================== *)

(** [_normalize_sentences(text)]: the stripped, non-empty segments between
    the periods of [text], at most ten of them; one stock sentence when
    there is none. *)
Definition default_sentence : string :=
  "Introduce the topic in an engaging manner".

Definition stripped_segments (text : string) : list string :=
  flat_map
    (fun segment =>
       match strip segment with
       | EmptyString => []
       | stripped => [stripped]
       end)
    (split_on "." (replace_char "010" " " text)).

Definition _normalize_sentences (text : string) : list string :=
  match stripped_segments text with
  | [] => [default_sentence]
  | sentences => firstn 10 sentences
  end.

Definition arcs : list string :=
  ["Hook the audience with a relatable question";
   "Present the core promise";
   "Deliver the first key insight";
   "Share the second key insight";
   "Explain how to put the advice into practice";
   "Close with a memorable takeaway"].

(** An [itertools.cycle] iterator: the items still to come in this round
    followed by those already given, which come round again. *)
Definition cycle (A : Type) : Type := list A.

Definition next {A} (it : cycle A) : result (A * cycle A) :=
  match it with
  | [] => Raise StopIteration
  | x :: rest => Ok (x, (rest ++ [x])%list)
  end.

Definition _story_arc_templates : cycle string := arcs.

Definition _scene_title (index : Z) (arc : string) : string :=
  let keywords := firstn 3 (split_ws arc) in
  "Scene " ++ str_of_int (index + 1) ++ ": "
  ++ join " " (map capitalize keywords).

Definition _mood_from_arc (arc : string) : string :=
  if contains "hook" (lower arc) then "energetic"
  else if contains "promise" (lower arc) then "confident"
  else if contains "insight" (lower arc) then "informative"
  else if contains "practice" (lower arc) then "encouraging"
  else "uplifting".

Definition _thumbnail_from_arc (arc sentence : string) : string :=
  let keywords := join " " (firstn 6 (split_ws sentence)) in
  strip (lower arc ++ " featuring " ++ keywords).

(** The largest int [n] for which [n * 1.5] is a finite binary64 float.
    Converting an int rounds to nearest, ties to even; the product with 1.5
    is 2^1024 - 2^970 or more, and so rounds to infinity, as soon as the
    converted value reaches 6004799503160661 * 2^971. *)
Definition float_limit : Z := 6004799503160661 * 2 ^ 971 - 2 ^ 970.

(** [max(3, min(6, math.ceil(duration_minutes * 1.5)))]. The product is
    exact while [3 * duration_minutes] fits in 53 bits, and its ceiling is
    then [(3 * n + 1) / 2] (floor division). Beyond that the float is a
    rounding of 1.5 times the int, far above 6 or below 3, so the clamp
    returns what it returns for the exact ceiling. Past [float_limit]
    either the conversion to float or [math.ceil] of an infinity raises
    [OverflowError]. *)
Definition num_scenes_for (duration_minutes : Z) : result Z :=
  if Z.abs duration_minutes <=? float_limit
  then Ok (Z.max 3 (Z.min 6 ((3 * duration_minutes + 1) / 2)))
  else Raise OverflowError.

Record ScriptGenerator : Type := { max_sentences : Z }.

(** [ScriptGenerator()]: the keyword default. *)
Definition ScriptGenerator_default : ScriptGenerator :=
  {| max_sentences := 5 |}.

(** [sentences[i]] for a non-negative [i]. *)
Definition getitem (sentences : list string) (i : Z) : result string :=
  match sentences !! Z.to_nat i with
  | Some s => Ok s
  | None => Raise IndexError
  end.

(** [StoryboardDesigner._shot_suggestion(index)]. *)
Definition shot_options : list string :=
  ["wide establishing"; "medium action"; "close-up reaction";
   "dynamic tracking"; "graphic overlay"].

Definition _shot_suggestion (index : Z) : result string :=
  getitem shot_options (index mod Z.of_nat (length shot_options)).

(** One turn of the loop of [StoryboardDesigner.design]. *)
Definition design_scene (designed : list Scene.t) (scene : Scene.t)
  : result (list Scene.t) :=
  let aspect_ratio :=
    if Scene.index scene mod 2 =? 0 then "16:9" else "9:16" in
  let thumbnail := or_empty (Scene.thumbnail_description scene) in
  suggestion ← _shot_suggestion (Scene.index scene);
  let thumbnail := thumbnail ++ " | Shot suggestion: " ++ suggestion in
  Ok (designed ++
      [Scene.mk (Scene.index scene) (Scene.title scene) (Scene.summary scene)
                (Scene.voiceover scene) (Scene.mood scene) aspect_ratio
                (Some (strip thumbnail))])%list.

(** [StoryboardDesigner.design(scenes)]. *)
Definition design (scenes : list Scene.t) : result (list Scene.t) :=
  for_each design_scene scenes [].

(** [textwrap.fill(text, width)] and [textwrap.wrap(text, width)] of the
    Python standard library. The package does not define them, and nothing
    below depends on how they break lines. *)
Class TextWrap : Type := {
  textwrap_fill : string -> Z -> string;
  textwrap_wrap : string -> Z -> list string
}.

Section ScriptGeneration.
Context {tw : TextWrap}.

Definition _voiceover_from_summary (summary : string) : string :=
  let sentences := textwrap_wrap summary 80 in
  join " " sentences.

(** The [Scene] built in one turn of the loop of [generate]. *)
Definition scene_for (index : Z) (arc sentence : string) : Scene.t :=
  let summary := textwrap_fill (arc ++ ": " ++ sentence) 90 in
  Scene.mk index (_scene_title index arc) summary
           (Some (_voiceover_from_summary summary))
           (Some (_mood_from_arc arc))
           "16:9"
           (Some (_thumbnail_from_arc arc sentence)).

(** [sentences[index % len(sentences)] if sentences else brief]. *)
Definition sentence_at (sentences : list string) (brief : string) (index : Z)
  : result string :=
  match sentences with
  | [] => Ok brief
  | _ => getitem sentences (index mod Z.of_nat (length sentences))
  end.

(** One turn of the loop of [generate]: the loop's variables are the arc
    iterator and the scenes appended so far. *)
Definition generate_scene (sentences : list string) (brief : string)
    (vars : cycle string * list Scene.t) (index : Z)
  : result (cycle string * list Scene.t) :=
  let '(template, scenes) := vars in
  '(arc, template) ← next template;
  sentence ← sentence_at sentences brief index;
  Ok (template, (scenes ++ [scene_for index arc sentence])%list).

(** [ScriptGenerator.generate(brief, duration_minutes=...)]. *)
Definition generate (self : ScriptGenerator) (brief : string)
    (duration_minutes : Z) : result (list Scene.t) :=
  let sentences := _normalize_sentences brief in
  num_scenes ← num_scenes_for duration_minutes;
  let template := _story_arc_templates in
  '(_, scenes) ← for_each (generate_scene sentences brief)
                          (range num_scenes) (template, []);
  Ok scenes.

End ScriptGeneration.

(* ===================================================================== *)
(** * storage.py *)
(* ===================================================================== *)

(** A place a file can be written to: a file directly in the home
    directory of the storage, by name, or any other location. Project ids
    are taken to be plain file-name stems (the service draws twelve hex
    digits), so that [home / (id + ".json")] is a file of the home
    directory. *)
Inductive Path : Type :=
| InHome (name : string)
| Elsewhere (location : string).

(** The files. A file holds the value that [json.loads] reads from its
    text; a text it refuses is no content of a file here. [refused] lists the locations outside the home directory at
    which a write raises: those whose parent is no directory, those that
    are directories, those the process may not write. The package creates
    and removes no directory after the storage has made its home, so the
    same locations are refused after every call. The home directory exists
    once the storage is built, and a file directly in it can be written. *)
Record Disk : Type := {
  home_dir : gmap string json;
  elsewhere : gmap string json;
  refused : gset string
}.

Definition empty_disk : Disk :=
  {| home_dir := ∅; elsewhere := ∅; refused := ∅ |}.

(** The files after [path.write_text(text)] has returned. *)
Definition write_text (path : Path) (content : json) (d : Disk) : Disk :=
  match path with
  | InHome name =>
      {| home_dir := <[name := content]> (home_dir d);
         elsewhere := elsewhere d;
         refused := refused d |}
  | Elsewhere location =>
      {| home_dir := home_dir d;
         elsewhere := <[location := content]> (elsewhere d);
         refused := refused d |}
  end.

(** [path.write_text(text)] raises. *)
Definition refuses (d : Disk) (path : Path) : bool :=
  match path with
  | InHome _ => false
  | Elsewhere location => bool_decide (location ∈ refused d)
  end.

Definition read_text (path : Path) (d : Disk) : option json :=
  match path with
  | InHome name => home_dir d !! name
  | Elsewhere location => elsewhere d !! location
  end.

(** A computation on the files that may raise. What it wrote before it
    raised stays written. *)
Definition IO (A : Type) : Type := Disk -> result A * Disk.

#[global] Instance IO_ret : MRet IO := fun _ a d => (Ok a, d).

#[global] Instance IO_bind : MBind IO := fun _ _ k m d =>
  match m d with
  | (Ok a, d') => k a d'
  | (Raise e, d') => (Raise e, d')
  end.

(** A computation that touches no file. *)
Definition pure {A} (r : result A) : IO A := fun d => (r, d).

(** [base / segment] for POSIX paths, as [os.fspath] prints it. [base] is
    the text of a path, which [pathlib] keeps normalised: no empty and no
    [.] component, no slash at the end, [.] for the path without
    components. An absolute [segment] replaces [base]; exactly two leading
    slashes are kept, as POSIX asks. *)
Definition path_root (segment : string) : string :=
  match segment with
  | String "/" (String "/" (String "/" _)) => "/"
  | String "/" (String "/" _) => "//"
  | String "/" _ => "/"
  | _ => EmptyString
  end.

Definition path_parts (segment : string) : list string :=
  List.filter (fun part => negb (String.eqb part EmptyString)
                           && negb (String.eqb part "."))
              (split_on "/" segment).

Definition joinpath (base segment : string) : string :=
  let parts := path_parts segment in
  match path_root segment with
  | EmptyString =>
      match parts with
      | [] => base
      | _ =>
          if String.eqb base "." then join "/" parts
          else if String.eqb base "/" || String.eqb base "//"
               then base ++ join "/" parts
               else base ++ "/" ++ join "/" parts
      end
  | root => root ++ join "/" parts
  end.

Record ProjectStorage : Type := {
  home : string  (* the home directory, as [os.fspath] prints it *)
}.

Definition path_for (self : ProjectStorage) (project_id : string) : Path :=
  InHome (project_id ++ ".json").

(** [path.write_text(json.dumps(payload, indent=2, sort_keys=True))]: the
    text is made first, then the file is opened and written. *)
Definition write_json (path : Path) (payload : json) : IO unit :=
  fun d =>
    match dumps payload with
    | Ok text =>
        if refuses d path then (Raise OSError, d)
        else (Ok tt, write_text path text d)
    | Raise e => (Raise e, d)
    end.

Definition save (self : ProjectStorage) (project : Project.t) : IO unit :=
  let payload := Project.to_dict project in
  write_json (path_for self (Project.project_id project)) payload.

(** [load(project_id)]; [now] as in [Project.from_dict]. *)
Definition load (self : ProjectStorage) (now : string) (project_id : string)
  : IO Project.t :=
  fun d =>
    match read_text (path_for self project_id) d with
    | Some data => (Project.from_dict now data, d)
    | None => (Raise FileNotFoundError, d)
    end.

(** [name] matches the pattern [*.json]. *)
Definition is_json_name (name : string) : bool :=
  let n := String.length name in
  (5 <=? n)%nat && String.eqb (substring (n - 5) 5 name) ".json".

(** [sorted(self.home.glob("*.json"))], as file names. Paths of one
    directory compare as their names do, code point by code point. *)
Definition sorted_glob (d : Disk) : list string :=
  merge_sort (fun a b => Is_true (String.leb a b))
             (List.filter is_json_name (map fst (map_to_list (home_dir d)))).

(** The generator of [list_projects] run to its end: the projects it
    yields, in order, and the exception that ends it if one does. *)
Fixpoint yield_projects (now : string) (names : list string) (d : Disk)
  : list Project.t * option exn :=
  match names with
  | [] => ([], None)
  | name :: rest =>
      match read_text (InHome name) d with
      | None => ([], Some FileNotFoundError)
      | Some data =>
          match Project.from_dict now data with
          | Ok project =>
              let '(projects, raised) := yield_projects now rest d in
              (project :: projects, raised)
          | Raise e => ([], Some e)
          end
      end
  end.

Definition list_projects (self : ProjectStorage) (now : string) (d : Disk)
  : list Project.t * option exn :=
  yield_projects now (sorted_glob d) d.

(* ===================================================================== *)
(** * project_service.py *)
(* ===================================================================== *)

(** [dataclasses.replace(project, ...)], one keyword at a time. *)
Definition with_scenes (scenes : list Scene.t) (p : Project.t) : Project.t :=
  Project.mk (Project.project_id p) (Project.title p) (Project.brief p)
    (Project.tone p) (Project.target_audience p) (Project.duration_minutes p)
    (Project.created_at p) (Project.script_summary p) scenes
    (Project.storyboard_ready p) (Project.preview_ready p).

Definition with_script_summary (summary : option string) (p : Project.t)
  : Project.t :=
  Project.mk (Project.project_id p) (Project.title p) (Project.brief p)
    (Project.tone p) (Project.target_audience p) (Project.duration_minutes p)
    (Project.created_at p) summary (Project.scenes p)
    (Project.storyboard_ready p) (Project.preview_ready p).

Definition with_storyboard_ready (ready : bool) (p : Project.t) : Project.t :=
  Project.mk (Project.project_id p) (Project.title p) (Project.brief p)
    (Project.tone p) (Project.target_audience p) (Project.duration_minutes p)
    (Project.created_at p) (Project.script_summary p) (Project.scenes p)
    ready (Project.preview_ready p).

Definition with_preview_ready (ready : bool) (p : Project.t) : Project.t :=
  Project.mk (Project.project_id p) (Project.title p) (Project.brief p)
    (Project.tone p) (Project.target_audience p) (Project.duration_minutes p)
    (Project.created_at p) (Project.script_summary p) (Project.scenes p)
    (Project.storyboard_ready p) ready.

Definition _summarize_scenes (scenes : list Scene.t) : string :=
  let key_points :=
    map (fun scene => strip (split1_last ":" (Scene.summary scene))) scenes in
  join " | " key_points.

(** [_build_preview_payload(project, assets_root=...)]. A [Path] is always
    truthy, so the base is the given root; [assets_root] is the text of
    [base / "assets" / project_id]. *)
Definition _build_preview_payload (project : Project.t) (assets_root : string)
  : json :=
  let assets_location :=
    joinpath (joinpath assets_root "assets") (Project.project_id project) in
  JDict [("project_id", JStr (Project.project_id project));
         ("title", JStr (Project.title project));
         ("tone", JStr (Project.tone project));
         ("target_audience", JStr (Project.target_audience project));
         ("script_summary", of_opt_str (Project.script_summary project));
         ("scenes", JList (map Scene.to_dict (Project.scenes project)));
         ("render_metadata",
          JDict [("duration_minutes",
                  JInt (Project.duration_minutes project));
                 ("rendered_with", JStr "revid-clone");
                 ("assets_root", JStr assets_location)])].

Record ProjectService : Type := {
  storage : ProjectStorage;
  script_generator : ScriptGenerator
}.

Section Service.
Context {tw : TextWrap}.

(** [create_project(...)]. [project_id] is what [uuid.uuid4().hex[:12]]
    returns at this call and [now] what the default factory of
    [created_at] returns. *)
Definition create_project (self : ProjectService) (project_id now : string)
    (title brief tone target_audience : string) (duration_minutes : Z)
  : IO Project.t :=
  let project :=
    Project.mk project_id title brief tone target_audience duration_minutes
               now None [] false false in
  _ ← save (storage self) project;
  mret project.

Definition generate_script (self : ProjectService) (project : Project.t)
  : IO Project.t :=
  scenes ← pure (generate (script_generator self) (Project.brief project)
                          (Project.duration_minutes project));
  let summary := _summarize_scenes scenes in
  let project := with_script_summary (Some summary)
                   (with_scenes scenes project) in
  _ ← save (storage self) project;
  mret project.

Definition design_storyboard (self : ProjectService) (project : Project.t)
  : IO Project.t :=
  project ← match Project.scenes project with
            | [] => generate_script self project
            | _ => mret project
            end;
  scenes ← pure (design (Project.scenes project));
  let project := with_storyboard_ready true (with_scenes scenes project) in
  _ ← save (storage self) project;
  mret project.

(** The destination [render_preview] writes when it is given none. *)
Definition default_destination (project : Project.t) : Path :=
  InHome (Project.project_id project ++ "_preview.json").

Definition render_preview (self : ProjectService) (project : Project.t)
    (destination : option Path) : IO Path :=
  project ← (if Project.storyboard_ready project then mret project
             else design_storyboard self project);
  let preview := _build_preview_payload project (home (storage self)) in
  let destination := default (default_destination project) destination in
  _ ← write_json destination preview;
  let project := with_preview_ready true project in
  _ ← save (storage self) project;
  mret destination.

End Service.

(** [ProjectService.load_project] and [ProjectService.list_projects]. *)
Definition load_project (self : ProjectService) (now project_id : string)
  : IO Project.t :=
  load (storage self) now project_id.

Definition service_list_projects (self : ProjectService) (now : string)
    (d : Disk) : list Project.t * option exn :=
  list_projects (storage self) now d.

(* ===================================================================== *)
(** * cli.py *)
(* ===================================================================== *)

(** The namespace [argparse] returns: the sub-command with its arguments,
    [--out] already read as a path when it is given and not empty. Parsing
    itself is the library's. *)
Inductive Args : Type :=
| ArgsInit (title brief tone audience : string) (duration : Z)
| ArgsScript (project_id : string)
| ArgsStoryboard (project_id : string)
| ArgsRender (project_id : string) (out : option Path)
| ArgsList
| ArgsNone.

(** What [main] prints: a line of text, a JSON document (the indented
    dump of a dict, keys in insertion order), a path, or the parser's help.
    The dict [main] dumps is the one [save] has just dumped, so this
    [json.dumps] does not raise. *)
Inductive printed : Type :=
| Text (line : string)
| Document (payload : json)
| Location (path : Path)
| Help.

(** How [main] ends. *)
Inductive ending : Type :=
| Returned
| Exited (code : Z)
| Raised (e : exn).

(** A branch of [main] that calls the service and prints what it got. *)
Definition report {A} (show : A -> printed) (outcome : result A * Disk)
  : list printed * ending * Disk :=
  match outcome with
  | (Ok a, d) => ([show a], Returned, d)
  | (Raise e, d) => ([], Raised e, d)
  end.

(** [f"{project.project_id}\t{project.title}\t{project.created_at}"]. *)
Definition list_line (project : Project.t) : string :=
  Project.project_id project ++ String "009" (Project.title project)
  ++ String "009" (Project.created_at project).

Section Cli.
Context {tw : TextWrap}.

(** [main(argv)] after parsing. [self] is the service [main] builds,
    [uuid] and [now] what a [create_project] of this run draws, [now] also
    the time of its loads. *)
Definition main (self : ProjectService) (uuid now : string) (args : Args)
    (d : Disk) : list printed * ending * Disk :=
  match args with
  | ArgsInit title brief tone audience duration =>
      report (fun project => Text (Project.project_id project))
        (create_project self uuid now title brief tone audience duration d)
  | ArgsScript project_id =>
      report (fun project => Document (Project.to_dict project))
        ((project ← load_project self now project_id;
          generate_script self project) d)
  | ArgsStoryboard project_id =>
      report (fun project => Document (Project.to_dict project))
        ((project ← load_project self now project_id;
          design_storyboard self project) d)
  | ArgsRender project_id out =>
      report Location
        ((project ← load_project self now project_id;
          render_preview self project out) d)
  | ArgsList =>
      let '(projects, raised) := service_list_projects self now d in
      (map (fun project => Text (list_line project)) projects,
       match raised with
       | None => Returned
       | Some e => Raised e
       end,
       d)
  | ArgsNone => ([Help], Exited 1, d)
  end.

End Cli.

(* ===================================================================== *)
(** * The lifecycle as a transition system *)
(* ===================================================================== *)

(** The scene has the aspect ratio the designer assigns to it: 16:9 for
    an even index, 9:16 for an odd one. *)
Definition aspect_assigned (scene : Scene.t) : Prop :=
  Scene.aspect_ratio scene
  = if Z.even (Scene.index scene) then "16:9" else "9:16".

(** The scene has one of the two ratios of the data model. The default of
    the dataclass is one of them, so this holds of scenes no designer has
    seen. *)
Definition aspect_in_enum (scene : Scene.t) : Prop :=
  Scene.aspect_ratio scene = "16:9" \/ Scene.aspect_ratio scene = "9:16".

(** The shape of the invariant of a [Project], over what it asks of the
    scenes of a storyboard. *)
Definition invariant_over (asked : Scene.t -> Prop) (p : Project.t) : Prop :=
  (Project.storyboard_ready p = true ->
   Project.scenes p <> [] /\ Forall asked (Project.scenes p))
  /\ (Project.preview_ready p = true -> Project.storyboard_ready p = true).

(** The invariant the data model states for a [Project]. *)
Definition lifecycle_invariant (p : Project.t) : Prop :=
  invariant_over aspect_assigned p.

(** A project as [create_project] leaves it. *)
Definition fresh (p : Project.t) : Prop :=
  Project.scenes p = [] /\ Project.storyboard_ready p = false
  /\ Project.preview_ready p = false.

(** What a caller of the service has: the files, and the [Project] values
    the calls so far returned to it. *)
Record World : Type := {
  disk : Disk;
  held : list Project.t
}.

Definition initial_world : World := {| disk := empty_disk; held := [] |}.

(** One call of the service. [Create] carries the id and the time stamp the
    call draws; [Load] the time stamp [from_dict] would default to. *)
Inductive command : Type :=
| Create (project_id now title brief tone target_audience : string)
         (duration_minutes : Z)
| Script (project : Project.t)
| Storyboard (project : Project.t)
| Preview (project : Project.t) (destination : option Path)
| Load (now project_id : string).

(** A call passes a project the caller holds. *)
Definition allowed (c : command) (w : World) : Prop :=
  match c with
  | Script p | Storyboard p | Preview p _ => In p (held w)
  | Create _ _ _ _ _ _ _ | Load _ _ => True
  end.

(** A call that leaves storyboards in place: [generate_script] is not
    passed a project that is flagged [storyboard_ready]. *)
Definition keeps_storyboards (c : command) : Prop :=
  match c with
  | Script p => Project.storyboard_ready p = false
  | _ => True
  end.

Definition any_call (c : command) : Prop := True.

(** The world after a call that returned or raised. *)
Definition after {A} (keep : A -> list Project.t) (w : World)
    (outcome : result A * Disk) : World :=
  {| disk := snd outcome;
     held := match fst outcome with
             | Ok a => (keep a ++ held w)%list
             | Raise _ => held w
             end |}.

Section Lifecycle.
Context {tw : TextWrap}.
Variable self : ProjectService.

Definition run (c : command) (w : World) : World :=
  match c with
  | Create project_id now title brief tone target_audience duration_minutes =>
      after (fun p => [p]) w
        (create_project self project_id now title brief tone target_audience
                        duration_minutes (disk w))
  | Script p => after (fun p' => [p']) w (generate_script self p (disk w))
  | Storyboard p =>
      after (fun p' => [p']) w (design_storyboard self p (disk w))
  | Preview p destination =>
      after (fun _ => []) w (render_preview self p destination (disk w))
  | Load now project_id =>
      after (fun p => [p]) w (load (storage self) now project_id (disk w))
  end.

(** The worlds that calls picked from [permitted] reach. At the start
    the home directory is empty and the caller holds nothing; what lies
    outside the home directory, and where writes are refused, is free. *)
Inductive reachable_by (permitted : command -> Prop) : World -> Prop :=
| reachable_initial d :
    home_dir d = ∅ -> reachable_by permitted {| disk := d; held := [] |}
| reachable_run c w :
    reachable_by permitted w -> allowed c w -> permitted c ->
    reachable_by permitted (run c w).

(** Reachable by any sequence of calls, and by one that leaves storyboards
    in place. *)
Definition reachable : World -> Prop := reachable_by any_call.

Definition reachable_in_stages : World -> Prop :=
  reachable_by keeps_storyboards.

(** A project some sequence of calls reaches: one the caller holds, or one
    a file of the home directory loads as. *)
Definition reached (w : World) (p : Project.t) : Prop :=
  In p (held w)
  \/ exists now project_id,
       fst (load (storage self) now project_id (disk w)) = Ok p.

End Lifecycle.

(* ===================================================================== *)
(** * Notions the statements use *)
(* ===================================================================== *)

(** A text whose first character is no whitespace. *)
Definition starts_solid (s : string) : Prop :=
  match s with
  | EmptyString => False
  | String c _ => isspace c = false
  end.

(** The text [design] appends to a thumbnail. *)
Definition shot_suffix (suggestion : string) : string :=
  " | Shot suggestion: " ++ suggestion.

(** The scene [design] makes of [scene] with the suggestion it drew. *)
Definition restyled (scene : Scene.t) (suggestion : string) : Scene.t :=
  Scene.mk (Scene.index scene) (Scene.title scene) (Scene.summary scene)
    (Scene.voiceover scene) (Scene.mood scene)
    (if Z.even (Scene.index scene) then "16:9" else "9:16")
    (Some (strip (or_empty (Scene.thumbnail_description scene)
                  ++ shot_suffix suggestion))).

Definition designs (scene designed : Scene.t) : Prop :=
  exists suggestion,
    shot_options !! Z.to_nat (Scene.index scene mod 5) = Some suggestion
    /\ designed = restyled scene suggestion.

(** The arc iterator after [r] turns of a round. *)
Definition turned (r : nat) : cycle string :=
  (drop r arcs ++ take r arcs)%list.

(** The arc the iterator gives in turn [i]. *)
Definition arc_at (i : nat) : option string := arcs !! (i mod 6)%nat.

(** What [generate] makes of turn [i] when it draws from [sentences]. *)
Definition scripted {tw : TextWrap} (sentences : list string) (i : nat)
    (scene : Scene.t) : Prop :=
  exists arc sentence,
    arc_at i = Some arc
    /\ sentences !! (i mod length sentences)%nat = Some sentence
    /\ scene = scene_for (Z.of_nat i) arc sentence.

(** The value read back from the file [save] writes. *)
Definition stored (p : Project.t) : json :=
  JDict [("brief", JStr (Project.brief p));
         ("created_at", JStr (Project.created_at p));
         ("duration_minutes", JInt (Project.duration_minutes p));
         ("preview_ready", JBool (Project.preview_ready p));
         ("project_id", JStr (Project.project_id p));
         ("scenes",
          JList (map dumps_loads (map Scene.to_dict (Project.scenes p))));
         ("script_summary", of_opt_str (Project.script_summary p));
         ("storyboard_ready", JBool (Project.storyboard_ready p));
         ("target_audience", JStr (Project.target_audience p));
         ("title", JStr (Project.title p));
         ("tone", JStr (Project.tone p))].

(** The value read back from a preview file. *)
Definition stored_preview (p : Project.t) (assets_root : string) : json :=
  JDict [("project_id", JStr (Project.project_id p));
         ("render_metadata",
          JDict [("assets_root",
                  JStr (joinpath (joinpath assets_root "assets")
                                 (Project.project_id p)));
                 ("duration_minutes", JInt (Project.duration_minutes p));
                 ("rendered_with", JStr "revid-clone")]);
         ("scenes",
          JList (map dumps_loads (map Scene.to_dict (Project.scenes p))));
         ("script_summary", of_opt_str (Project.script_summary p));
         ("target_audience", JStr (Project.target_audience p));
         ("title", JStr (Project.title p));
         ("tone", JStr (Project.tone p))].

(** Every file of the home directory is a saved project that meets the
    invariant, or a preview. *)
Definition disk_ok (asked : Scene.t -> Prop) (d : Disk) : Prop :=
  forall name content,
    home_dir d !! name = Some content ->
    (exists p, invariant_over asked p /\ content = stored p)
    \/ (exists p assets_root, content = stored_preview p assets_root).

Definition world_ok (asked : Scene.t -> Prop) (w : World) : Prop :=
  Forall (invariant_over asked) (held w) /\ disk_ok asked (disk w).

(** What a call of [generate_script] needs for the invariant to last: a
    project without storyboard, or scenes that meet what is asked as they
    are generated. *)
Definition script_kept {tw : TextWrap} (asked : Scene.t -> Prop)
    (p : Project.t) : Prop :=
  Project.storyboard_ready p = false
  \/ forall sentences i scene, scripted sentences i scene -> asked scene.

(** [json.dumps] accepts the project: the duration and the index of every
    scene have at most [max_str_digits] digits. *)
Definition storable (p : Project.t) : bool := encodable (Project.to_dict p).

(** The last steps of [render_preview], on the storyboarded project. *)
Definition write_preview (self : ProjectService) (project : Project.t)
    (destination : option Path) : IO Path :=
  let preview := _build_preview_payload project (home (storage self)) in
  let destination := default (default_destination project) destination in
  _ ← write_json destination preview;
  let project := with_preview_ready true project in
  _ ← save (storage self) project;
  mret destination.

(** The project [generate_script] makes of [p] and the scenes generated. *)
Definition scripted_project (p : Project.t) (scenes : list Scene.t)
  : Project.t :=
  with_script_summary (Some (_summarize_scenes scenes)) (with_scenes scenes p).

(** The project [design_storyboard] makes of [p] and the scenes designed. *)
Definition storyboarded (p : Project.t) (designed : list Scene.t)
  : Project.t :=
  with_storyboard_ready true (with_scenes designed p).

(** [write_preview] when it returns: the path written, and the files
    after the preview and the project were written. *)
Definition previewed (self : ProjectService) (p : Project.t)
    (destination : option Path) (d : Disk) : Path * Disk :=
  let path := default (default_destination p) destination in
  (path,
   write_text (path_for (storage self) (Project.project_id p))
     (stored (with_preview_ready true p))
     (write_text path (stored_preview p (home (storage self))) d)).

(** A second run of [design] over a designed scene [s1] gives [s2]. *)
Definition redesigned (s1 s2 : Scene.t) : Prop :=
  Scene.index s2 = Scene.index s1
  /\ Scene.title s2 = Scene.title s1
  /\ Scene.summary s2 = Scene.summary s1
  /\ Scene.voiceover s2 = Scene.voiceover s1
  /\ Scene.mood s2 = Scene.mood s1
  /\ Scene.aspect_ratio s2 = Scene.aspect_ratio s1
  /\ exists thumbnail suggestion,
       shot_options !! Z.to_nat (Scene.index s1 mod 5) = Some suggestion
       /\ Scene.thumbnail_description s1 = Some thumbnail
       /\ Scene.thumbnail_description s2
          = Some (thumbnail ++ " | Shot suggestion: " ++ suggestion).

(** The entries of a dict, none for any other value. *)
Definition entries_of (j : json) : list (string * json) :=
  match j with
  | JDict entries => entries
  | _ => []
  end.

(** [{k: v for k, v in d.items() if k != key}]. *)
Definition without_key (key : string) (entries : list (string * json))
  : list (string * json) :=
  List.filter (fun kv => negb (String.eqb (fst kv) key)) entries.

(** [c] occurs in [s]. *)
Fixpoint occurs (c : ascii) (s : string) : Prop :=
  match s with
  | EmptyString => False
  | String c' s' => c' = c \/ occurs c s'
  end.

(** A sentence as [_normalize_sentences] returns them. *)
Definition clean_sentence (s : string) : Prop :=
  s <> EmptyString /\ strip s = s
  /\ (occurs "." s -> False) /\ (occurs "010" s -> False).

(** The titles and moods of the six turns of the arc templates. *)
Definition arc_titles : list string :=
  ["Scene 1: Hook The Audience"; "Scene 2: Present The Core";
   "Scene 3: Deliver The First"; "Scene 4: Share The Second";
   "Scene 5: Explain How To"; "Scene 6: Close With A"].

Definition arc_moods : list string :=
  ["energetic"; "confident"; "informative"; "informative"; "encouraging";
   "uplifting"].

(* ===================================================================== *)
(** * Sample values *)
(* ===================================================================== *)

(** A wrapper that breaks no line. On a text of single-spaced words that
    fits the width, [textwrap.fill] returns the text as it is, and joining
    the lines of [textwrap.wrap] with spaces gives the text back at any
    width its longest word fits. *)
Definition unbroken : TextWrap :=
  {| textwrap_fill := fun text _ => text;
     textwrap_wrap := fun text _ => [text] |}.

Definition demo_service : ProjectService :=
  {| storage := {| home := "/tmp/revid_home" |};
     script_generator := ScriptGenerator_default |}.

Definition demo_project : Project.t :=
  Project.mk "0123456789ab" "Healthy Snacks"
    "Offer snappy snack ideas for remote workers." "friendly"
    "remote workers" 3 "2024-01-01T00:00:00Z" None [] false false.

(** A fresh project whose duration does not convert to a float. *)
Definition demo_endless : Project.t :=
  Project.mk "ba9876543210" "Endless" "One idea." "calm" "everyone"
    (2 ^ 1024) "2024-01-01T00:00:00Z" None [] false false.

Definition demo_scene : Scene.t :=
  Scene.mk 0 "Scene 1: Hook The Audience" "Hook: snacks" None None "16:9"
           (Some "a bowl of nuts").

Definition demo_scripted : Project.t :=
  with_scenes [demo_scene] demo_project.

(** The project of a call that returned, [demo_project] otherwise. *)
Definition returned (r : result Project.t) : Project.t :=
  match r with
  | Ok p => p
  | Raise _ => demo_project
  end.

(** The calls of the package's round-trip test: create, then render. *)
Definition demo_create : command :=
  Create "0123456789ab" "2024-01-01T00:00:00Z" "Healthy Snacks"
         "Offer snappy snack ideas for remote workers." "friendly"
         "remote workers" 3.

Definition demo_world : World :=
  run (tw := unbroken) demo_service (Preview demo_project None)
      (run (tw := unbroken) demo_service demo_create initial_world).

Definition demo_stored : Project.t :=
  returned (fst (load (storage demo_service) "2024-01-02T00:00:00Z"
                      "0123456789ab" (disk demo_world))).

(** The sample run with a new script after the storyboard: create,
    storyboard, script, render; the projects the calls return, and the
    project stored in the end. *)
Definition demo_created_world : World :=
  run (tw := unbroken) demo_service demo_create initial_world.

Definition demo_designed : Project.t :=
  returned (fst (design_storyboard (tw := unbroken) demo_service demo_project
                   (disk demo_created_world))).

Definition demo_designed_world : World :=
  run (tw := unbroken) demo_service (Storyboard demo_project)
      demo_created_world.

Definition demo_rescripted : Project.t :=
  returned (fst (generate_script (tw := unbroken) demo_service demo_designed
                   (disk demo_designed_world))).

Definition demo_stale_world : World :=
  run (tw := unbroken) demo_service (Preview demo_rescripted None)
      (run (tw := unbroken) demo_service (Script demo_designed)
           demo_designed_world).

Definition demo_stale : Project.t :=
  returned (fst (load (storage demo_service) "2024-01-02T00:00:00Z"
                      "0123456789ab" (disk demo_stale_world))).

(** An empty home directory, and a location in a directory that does not
    exist. *)
Definition demo_locked : Disk :=
  {| home_dir := ∅; elsewhere := ∅;
     refused := {["/nowhere/preview.json"]} |}.

(** The home directory after the sample project was saved. *)
Definition demo_saved : Disk :=
  snd (save (storage demo_service) demo_project empty_disk).

(** A payload with the six required keys and no other, and the project it
    loads as on the second of January. *)
Definition demo_minimal : list (string * json) :=
  [("project_id", JStr "0123456789ab"); ("title", JStr "Healthy Snacks");
   ("brief", JStr "Offer snappy snack ideas for remote workers.");
   ("tone", JStr "friendly"); ("target_audience", JStr "remote workers");
   ("duration_minutes", JInt 3)].

Definition demo_minimal_project : Project.t :=
  Project.mk "0123456789ab" "Healthy Snacks"
    "Offer snappy snack ideas for remote workers." "friendly"
    "remote workers" 3 "2024-01-02T00:00:00Z" None [] false false.

(* ===================================================================== *)
(** * Lemmas *)
(* ===================================================================== *)

Lemma bind_Ok {A B} (a : A) (k : A -> result B) : (Ok a ≫= k) = k a.
Proof. reflexivity. Qed.

(** ** Stripping *)

Lemma lstrip_solid s : starts_solid s -> lstrip s = s.
Proof. destruct s as [|c s]; simpl; [done|]. by intros ->. Qed.

Lemma lstrip_cases s : lstrip s = EmptyString \/ starts_solid (lstrip s).
Proof.
  induction s as [|c s IH]; simpl; [by left|].
  destruct (isspace c) eqn:Hc; [exact IH|]. right. exact Hc.
Qed.

Lemma lstrip_app s t :
  lstrip (s ++ t) =
  match lstrip s with
  | EmptyString => lstrip t
  | _ => lstrip s ++ t
  end.
Proof.
  induction s as [|c s IH]; simpl; [done|].
  destruct (isspace c); [exact IH|done].
Qed.

Lemma rstrip_app_keeps s t :
  rstrip t <> EmptyString -> rstrip (s ++ t) = s ++ rstrip t.
Proof.
  intros Ht. induction s as [|c s IH]; simpl; [done|].
  rewrite IH. destruct (s ++ rstrip t) eqn:E; [|by rewrite <- E].
  destruct s; [contradiction|discriminate].
Qed.

Lemma starts_solid_app s t : starts_solid s -> starts_solid (s ++ t).
Proof. by destruct s. Qed.

Lemma starts_solid_rstrip s : starts_solid s -> starts_solid (rstrip s).
Proof.
  destruct s as [|c s]; simpl; [done|]. intros Hc.
  destruct (rstrip s); [rewrite Hc|]; exact Hc.
Qed.

Lemma rstrip_nonempty_app s t :
  rstrip t <> EmptyString -> rstrip (s ++ t) <> EmptyString.
Proof.
  intros Ht. rewrite rstrip_app_keeps by done.
  destruct s; simpl; [done|discriminate].
Qed.

Lemma shot_suffix_solid_end suggestion :
  In suggestion shot_options ->
  rstrip (shot_suffix suggestion) = shot_suffix suggestion.
Proof.
  unfold shot_options. simpl.
  intros [<-|[<-|[<-|[<-|[<-|[]]]]]]; reflexivity.
Qed.

Lemma shot_suffix_lstrip suggestion :
  In suggestion shot_options ->
  starts_solid (strip (shot_suffix suggestion)).
Proof.
  unfold shot_options. simpl.
  intros [<-|[<-|[<-|[<-|[<-|[]]]]]]; reflexivity.
Qed.

(** Stripping leaves a text that starts and ends solid as it is. *)
Lemma strip_solid_app s t :
  starts_solid s -> rstrip t = t -> t <> EmptyString ->
  strip (s ++ t) = s ++ t.
Proof.
  intros Hs Ht Hne. unfold strip.
  rewrite lstrip_solid by by apply starts_solid_app.
  rewrite rstrip_app_keeps by by rewrite Ht. by rewrite Ht.
Qed.

Lemma strip_thumbnail_solid thumbnail suggestion :
  In suggestion shot_options ->
  starts_solid (strip (thumbnail ++ shot_suffix suggestion)).
Proof.
  intros Hin. unfold strip. rewrite lstrip_app.
  destruct (lstrip_cases thumbnail) as [E|Hsolid].
  - rewrite E. by apply shot_suffix_lstrip.
  - destruct (lstrip thumbnail) as [|c rest] eqn:E; [done|].
    apply starts_solid_rstrip. exact Hsolid.
Qed.

(** Designing a designed thumbnail appends the suggestion once more. *)
Lemma strip_thumbnail_again thumbnail suggestion :
  In suggestion shot_options ->
  strip (strip (thumbnail ++ shot_suffix suggestion)
         ++ shot_suffix suggestion)
  = strip (thumbnail ++ shot_suffix suggestion) ++ shot_suffix suggestion.
Proof.
  intros Hin. apply strip_solid_app.
  - by apply strip_thumbnail_solid.
  - by apply shot_suffix_solid_end.
  - discriminate.
Qed.

(** ** The designer's loop *)

Lemma shot_suggestion_total index :
  exists suggestion,
    _shot_suggestion index = Ok suggestion /\ In suggestion shot_options
    /\ shot_options !! Z.to_nat (index mod 5) = Some suggestion.
Proof.
  unfold _shot_suggestion, getitem.
  change (Z.of_nat (length shot_options)) with 5.
  assert (Hlt : (Z.to_nat (index mod 5) < length shot_options)%nat).
  { change (length shot_options) with 5%nat.
    pose proof (Z.mod_pos_bound index 5). lia. }
  apply lookup_lt_is_Some_2 in Hlt as [suggestion Hs].
  exists suggestion. rewrite Hs. split; [done|]. split; [|done].
  apply list_elem_of_In. by eapply list_elem_of_lookup_2.
Qed.

Lemma even_mod_2 n : (n mod 2 =? 0) = Z.even n.
Proof.
  rewrite Zmod_even. destruct (Z.even n); reflexivity.
Qed.

Lemma design_scene_ok designed scene suggestion :
  _shot_suggestion (Scene.index scene) = Ok suggestion ->
  design_scene designed scene
  = Ok (designed ++ [restyled scene suggestion])%list.
Proof.
  intros Hs. unfold design_scene. rewrite Hs, even_mod_2. reflexivity.
Qed.

Lemma design_loop scenes : forall designed,
  exists out,
    for_each design_scene scenes designed = Ok (designed ++ out)%list
    /\ Forall2 designs scenes out.
Proof.
  induction scenes as [|scene scenes IH]; intros designed.
  - exists []. split; [by rewrite app_nil_r|constructor].
  - destruct (shot_suggestion_total (Scene.index scene))
      as (suggestion & Hs & _ & Hlook).
    cbn [for_each]. rewrite (design_scene_ok _ _ _ Hs).
    destruct (IH (designed ++ [restyled scene suggestion])%list)
      as (out & Hout & Hall).
    exists (restyled scene suggestion :: out). split.
    + cbn. rewrite Hout. by rewrite <- app_assoc.
    + constructor; [|done]. by exists suggestion.
Qed.

Lemma design_total scenes :
  exists designed, design scenes = Ok designed /\ Forall2 designs scenes designed.
Proof. exact (design_loop scenes []). Qed.

(** ** Dictionaries and files *)

Lemma scene_of_dict scene : Scene.of_json (Scene.to_dict scene) = Ok scene.
Proof.
  destruct scene as [i t s [v|] [m|] a [th|]]; reflexivity.
Qed.

Lemma scene_of_file scene :
  Scene.of_json (dumps_loads (Scene.to_dict scene)) = Ok scene.
Proof.
  destruct scene as [i t s [v|] [m|] a [th|]]; reflexivity.
Qed.

Lemma scenes_of_dicts scenes :
  comprehension Scene.of_json (map Scene.to_dict scenes) = Ok scenes.
Proof.
  induction scenes as [|scene scenes IH]; [done|].
  cbn [map comprehension]. rewrite scene_of_dict, bind_Ok, IH. reflexivity.
Qed.

Lemma scenes_of_files scenes :
  comprehension Scene.of_json (map dumps_loads (map Scene.to_dict scenes))
  = Ok scenes.
Proof.
  induction scenes as [|scene scenes IH]; [done|].
  cbn [map comprehension]. rewrite scene_of_file, bind_Ok, IH. reflexivity.
Qed.

Lemma project_of_dict now p : Project.from_dict now (Project.to_dict p) = Ok p.
Proof.
  destruct p as [id t b tn ta d c [ss|] scs sr pr];
    unfold Project.to_dict, Project.from_dict; cbn [dict_get String.eqb Ascii.eqb Bool.eqb];
    cbn [Project.scenes Project.scenes_of];
    rewrite scenes_of_dicts; reflexivity.
Qed.

Lemma dumps_loads_project p : dumps_loads (Project.to_dict p) = stored p.
Proof. destruct p as [id t b tn ta d c [ss|] scs sr pr]; reflexivity. Qed.

Lemma project_of_stored now p : Project.from_dict now (stored p) = Ok p.
Proof.
  destruct p as [id t b tn ta d c [ss|] scs sr pr];
    unfold stored, Project.from_dict;
    cbn [dict_get String.eqb Ascii.eqb Bool.eqb];
    cbn [Project.scenes Project.scenes_of];
    rewrite scenes_of_files; reflexivity.
Qed.

Lemma project_of_file now p :
  Project.from_dict now (dumps_loads (Project.to_dict p)) = Ok p.
Proof. rewrite dumps_loads_project. apply project_of_stored. Qed.

Lemma dumps_loads_preview p assets_root :
  dumps_loads (_build_preview_payload p assets_root)
  = stored_preview p assets_root.
Proof. destruct p as [id t b tn ta d c [ss|] scs sr pr]; reflexivity. Qed.

(** A preview file does not load as a project: [render_metadata] names no
    field of the dataclass. *)
Lemma preview_is_no_project now p assets_root :
  Project.from_dict now (dumps_loads (_build_preview_payload p assets_root))
  = Raise TypeError.
Proof.
  rewrite dumps_loads_preview.
  destruct p as [id t b tn ta d c [ss|] scs sr pr];
    unfold stored_preview, Project.from_dict;
    cbn [dict_get String.eqb Ascii.eqb Bool.eqb];
    cbn [Project.scenes Project.scenes_of];
    rewrite scenes_of_files; reflexivity.
Qed.

(** C5. For every input sequence, [design] returns a sequence of the same
    length in which the scene made of a scene with index [i] has aspect
    ratio 16:9 when [i] is even and 9:16 when it is odd, has the entry
    [i mod 5] of the shot options appended to its thumbnail description
    after " | Shot suggestion: " and stripped, and has the index, title,
    summary, voiceover and mood of the input scene. *)
Theorem design_restyles_each_scene scenes :
  exists designed,
    design scenes = Ok designed
    /\ length designed = length scenes
    /\ forall k scene,
         scenes !! k = Some scene ->
         exists out suggestion,
           designed !! k = Some out
           /\ shot_options !! Z.to_nat (Scene.index scene mod 5)
              = Some suggestion
           /\ (Z.even (Scene.index scene) = true ->
               Scene.aspect_ratio out = "16:9")
           /\ (Z.odd (Scene.index scene) = true ->
               Scene.aspect_ratio out = "9:16")
           /\ Scene.thumbnail_description out
              = Some (strip (or_empty (Scene.thumbnail_description scene)
                             ++ " | Shot suggestion: " ++ suggestion))
           /\ Scene.index out = Scene.index scene
           /\ Scene.title out = Scene.title scene
           /\ Scene.summary out = Scene.summary scene
           /\ Scene.voiceover out = Scene.voiceover scene
           /\ Scene.mood out = Scene.mood scene.
Proof.
  destruct (design_total scenes) as (designed & Hd & Hall).
  exists designed. split; [done|]. split.
  - symmetry. by eapply Forall2_length.
  - intros k scene Hk.
    destruct (Forall2_lookup_l _ _ _ _ _ Hall Hk)
      as (out & Hout & suggestion & Hs & ->).
    exists (restyled scene suggestion), suggestion.
    split; [exact Hout|]. split; [exact Hs|].
    rewrite <- Z.negb_even. unfold restyled, shot_suffix.
    cbn [Scene.index Scene.title Scene.summary Scene.voiceover Scene.mood
         Scene.aspect_ratio Scene.thumbnail_description].
    destruct (Z.even (Scene.index scene)); by repeat split.
Qed.

(** C8. Round trip: for every project, [from_dict] of its [to_dict]
    succeeds, gives the project back, and the [to_dict] of the result is
    the same dictionary, scenes included. *)
Theorem project_dict_round_trip now p :
  exists p',
    Project.from_dict now (Project.to_dict p) = Ok p'
    /\ p' = p
    /\ Project.to_dict p' = Project.to_dict p.
Proof. exists p. by rewrite project_of_dict. Qed.

(** ** Listing the home directory *)

Lemma list_projects_empty storage now :
  list_projects storage now empty_disk = ([], None).
Proof. reflexivity. Qed.

Lemma sorted_glob_spec d name :
  In name (sorted_glob d)
  <-> is_Some (home_dir d !! name) /\ is_json_name name = true.
Proof.
  unfold sorted_glob. rewrite <- list_elem_of_In.
  rewrite merge_sort_Permutation, list_elem_of_In, filter_In.
  rewrite <- list_elem_of_In, list_elem_of_fmap.
  split.
  - intros [([k v] & -> & Hin) Hjson]. split; [|done].
    apply elem_of_map_to_list in Hin. by exists v.
  - intros [[v Hv] Hjson]. split; [|done].
    exists (name, v). split; [done|]. by apply elem_of_map_to_list.
Qed.

Lemma substring_skip c n m s :
  substring (S n) m (String c s) = substring n m s.
Proof. reflexivity. Qed.

Lemma json_name_app prefix name :
  (5 <= String.length name)%nat ->
  is_json_name (prefix ++ name) = is_json_name name.
Proof.
  intros Hlen. unfold is_json_name.
  induction prefix as [|c prefix IH]; [done|].
  assert (Hge : (5 <= String.length (prefix ++ name))%nat).
  { clear IH. induction prefix as [|c' prefix IH']; simpl; [done|]. lia. }
  change (String.length (String c prefix ++ name))
    with (S (String.length (prefix ++ name))).
  replace (S (String.length (prefix ++ name)) - 5)%nat
    with (S (String.length (prefix ++ name) - 5))%nat by lia.
  change (String c prefix ++ name) with (String c (prefix ++ name)).
  rewrite substring_skip, <- IH.
  destruct (String.length (prefix ++ name)) as [|[|[|[|[|n]]]]]; try lia.
  reflexivity.
Qed.

Lemma yield_projects_stops now names d name content e :
  In name names ->
  read_text (InHome name) d = Some content ->
  Project.from_dict now content = Raise e ->
  exists e', snd (yield_projects now names d) = Some e'.
Proof.
  intros Hin Hread Hfail. induction names as [|name' names IH]; [done|].
  cbn [yield_projects].
  destruct (read_text (InHome name') d) as [content'|] eqn:Hread';
    [|by eexists].
  destruct (Project.from_dict now content') as [p|e'] eqn:Hload;
    [|by eexists].
  destruct Hin as [->|Hin]; [congruence|].
  destruct (IH Hin) as [e'' He]. exists e''.
  by destruct (yield_projects now names d).
Qed.

Lemma yield_projects_all now names d :
  (forall name, In name names ->
     exists p, read_text (InHome name) d = Some (stored p)) ->
  snd (yield_projects now names d) = None
  /\ length (fst (yield_projects now names d)) = length names.
Proof.
  intros Hall. induction names as [|name names IH]; [done|].
  destruct (Hall name) as [p Hp]; [by left|].
  destruct IH as [IH1 IH2]; [intros n Hn; apply Hall; by right|].
  cbn [yield_projects]. rewrite Hp, project_of_stored.
  destruct (yield_projects now names d) as [projects raised].
  cbn [fst snd length] in *. by rewrite IH2.
Qed.

(** With project files only, the listing yields one project per file and
    does not raise. *)
Lemma list_projects_of_projects storage now d :
  (forall name content,
     home_dir d !! name = Some content -> exists p, content = stored p) ->
  snd (list_projects storage now d) = None
  /\ length (fst (list_projects storage now d)) = length (sorted_glob d).
Proof.
  intros Hfiles. apply yield_projects_all. intros name Hin.
  apply sorted_glob_spec in Hin as [[content Hc] _].
  destruct (Hfiles _ _ Hc) as [p ->]. by exists p.
Qed.

(** ** What [json.dumps] accepts *)

Lemma float_limit_fits : float_limit < 10 ^ max_str_digits.
Proof. vm_compute. reflexivity. Qed.

Lemma digits_bound_eq : digits_bound = 10 ^ max_str_digits.
Proof. vm_compute. reflexivity. Qed.

Lemma fits_digits_spec n :
  fits_digits n = true <-> Z.abs n < 10 ^ max_str_digits.
Proof. unfold fits_digits. rewrite digits_bound_eq. apply Z.ltb_lt. Qed.

Lemma encodable_scene scene :
  encodable (Scene.to_dict scene) = fits_digits (Scene.index scene).
Proof.
  destruct scene as [i t s [v|] [m|] a [th|]];
    cbn [Scene.to_dict encodable forallb snd of_opt_str Scene.index andb];
    by rewrite andb_true_r.
Qed.

Lemma encodable_scenes scenes :
  forallb encodable (map Scene.to_dict scenes)
  = forallb (fun scene => fits_digits (Scene.index scene)) scenes.
Proof.
  induction scenes as [|scene scenes IH]; [done|].
  cbn [map forallb]. by rewrite encodable_scene, IH.
Qed.

Lemma storable_spec p :
  storable p
  = fits_digits (Project.duration_minutes p)
    && forallb (fun scene => fits_digits (Scene.index scene))
               (Project.scenes p).
Proof.
  destruct p as [id t b tn ta d c [ss|] scs sr pr]; unfold storable;
    cbn [Project.to_dict encodable forallb snd of_opt_str
         Project.duration_minutes Project.scenes andb];
    rewrite encodable_scenes;
    by destruct (fits_digits d), (forallb _ scs).
Qed.

Lemma preview_encodable p assets_root :
  encodable (_build_preview_payload p assets_root) = storable p.
Proof.
  rewrite storable_spec.
  destruct p as [id t b tn ta d c [ss|] scs sr pr];
    cbn [_build_preview_payload encodable forallb snd of_opt_str
         Project.duration_minutes Project.scenes Project.script_summary
         andb];
    rewrite encodable_scenes;
    by destruct (fits_digits d), (forallb _ scs).
Qed.

Lemma refuses_write_text path content d path' :
  refuses (write_text path content d) path' = refuses d path'.
Proof. by destruct path, path'. Qed.

Section Facts.
Context {tw : TextWrap}.
Variable self : ProjectService.

(** ** The generator's loop *)

Lemma next_turned i :
  exists arc,
    arc_at i = Some arc
    /\ next (turned (i mod 6)) = Ok (arc, turned (S i mod 6)).
Proof.
  unfold arc_at.
  replace (S i mod 6)%nat with (S (i mod 6) mod 6)%nat
    by (rewrite <- Nat.add_1_r, Nat.Div0.add_mod_idemp_l; f_equal; lia).
  pose proof (Nat.mod_upper_bound i 6 ltac:(lia)) as Hlt.
  destruct (i mod 6)%nat as [|[|[|[|[|[|r]]]]]] eqn:E; [..|lia];
    eexists; (split; [reflexivity|reflexivity]).
Qed.

Lemma sentence_at_ok sentences brief i :
  sentences <> [] ->
  exists sentence,
    sentences !! (i mod length sentences)%nat = Some sentence
    /\ sentence_at sentences brief (Z.of_nat i) = Ok sentence.
Proof.
  intros Hne.
  assert (Hlen : (length sentences <> 0)%nat) by by destruct sentences.
  destruct (lookup_lt_is_Some_2 sentences (i mod length sentences)%nat)
    as [sentence Hs]; [by apply Nat.mod_upper_bound|].
  exists sentence. split; [done|].
  unfold sentence_at, getitem. destruct sentences as [|s0 rest]; [done|].
  rewrite <- Nat2Z.inj_mod, Nat2Z.id. by rewrite Hs.
Qed.

Lemma generate_scene_ok sentences brief template template' scenes index
    arc sentence :
  next template = Ok (arc, template') ->
  sentence_at sentences brief index = Ok sentence ->
  generate_scene sentences brief (template, scenes) index
  = Ok (template', (scenes ++ [scene_for index arc sentence])%list).
Proof.
  intros Hnext Hat. unfold generate_scene. rewrite Hnext. cbn.
  by rewrite Hat.
Qed.

Lemma generate_loop sentences brief :
  sentences <> [] ->
  forall m k scenes,
  exists out,
    for_each (generate_scene sentences brief) (map Z.of_nat (seq k m))
             (turned (k mod 6), scenes)
    = Ok (turned ((k + m) mod 6), (scenes ++ out)%list)
    /\ Forall2 (scripted sentences) (seq k m) out.
Proof.
  intros Hne. induction m as [|m IH]; intros k scenes.
  - exists []. rewrite Nat.add_0_r, app_nil_r. split; [done|constructor].
  - destruct (next_turned k) as (arc & Harc & Hnext).
    destruct (sentence_at_ok sentences brief k Hne) as (sentence & Hs & Hat).
    destruct (IH (S k) (scenes ++ [scene_for (Z.of_nat k) arc sentence])%list)
      as (out & Hout & Hall).
    exists (scene_for (Z.of_nat k) arc sentence :: out). split.
    + cbn [seq map for_each].
      rewrite (generate_scene_ok _ _ _ _ _ _ _ _ Hnext Hat), bind_Ok.
      rewrite Hout. by rewrite <- app_assoc, Nat.add_succ_r.
    + constructor; [|done]. by exists arc, sentence.
Qed.

Lemma normalize_nonempty brief : _normalize_sentences brief <> [].
Proof.
  unfold _normalize_sentences.
  destruct (stripped_segments brief) as [|s rest]; [done|]. done.
Qed.

Lemma generate_total g brief duration_minutes :
  Z.abs duration_minutes <= float_limit ->
  exists scenes,
    generate g brief duration_minutes = Ok scenes
    /\ Forall2 (scripted (_normalize_sentences brief))
         (seq 0 (Z.to_nat (Z.max 3 (Z.min 6 ((3 * duration_minutes + 1) / 2)))))
         scenes.
Proof.
  intros Hd. unfold generate, num_scenes_for.
  destruct (Z.leb_spec (Z.abs duration_minutes) float_limit); [|lia].
  destruct (generate_loop _ brief (normalize_nonempty brief)
              (Z.to_nat (Z.max 3 (Z.min 6 ((3 * duration_minutes + 1) / 2))))
              0%nat []) as (out & Hout & Hall).
  exists out. split; [|done].
  rewrite bind_Ok. unfold range.
  change _story_arc_templates with (turned (0 mod 6)).
  rewrite Hout. reflexivity.
Qed.

Lemma generate_overflow g brief duration_minutes :
  float_limit < Z.abs duration_minutes ->
  generate g brief duration_minutes = Raise OverflowError.
Proof.
  intros Hd. unfold generate, num_scenes_for.
  destruct (Z.leb_spec (Z.abs duration_minutes) float_limit); [lia|done].
Qed.

(** ** What the generator and the designer return *)

Lemma generate_inv g brief duration_minutes scenes :
  generate g brief duration_minutes = Ok scenes ->
  Z.abs duration_minutes <= float_limit
  /\ Forall2 (scripted (_normalize_sentences brief))
       (seq 0 (Z.to_nat (Z.max 3 (Z.min 6 ((3 * duration_minutes + 1) / 2)))))
       scenes.
Proof.
  intros Hg.
  destruct (Z.le_gt_cases (Z.abs duration_minutes) float_limit) as [Hd|Hd].
  - destruct (generate_total g brief duration_minutes Hd)
      as (scenes' & Hg' & Hall).
    rewrite Hg in Hg'. injection Hg' as <-. done.
  - rewrite generate_overflow in Hg by lia. discriminate.
Qed.

Lemma scripted_index sentences i scene :
  scripted sentences i scene -> Scene.index scene = Z.of_nat i.
Proof. by intros (arc & sentence & _ & _ & ->). Qed.

Lemma scripted_in_enum sentences i scene :
  scripted sentences i scene -> aspect_in_enum scene.
Proof. intros (arc & sentence & _ & _ & ->). by left. Qed.

Lemma generate_nonempty g brief duration_minutes scenes :
  generate g brief duration_minutes = Ok scenes ->
  scenes <> [] /\ Forall aspect_in_enum scenes.
Proof.
  intros Hg. apply generate_inv in Hg as [_ Hall]. split.
  - apply Forall2_length in Hall. rewrite length_seq in Hall.
    destruct scenes; [simpl in Hall; lia|done].
  - eapply Forall2_Forall_r; [exact Hall|].
    apply Forall_forall. intros i _ scene. apply scripted_in_enum.
Qed.

Lemma designs_assigned scene designed :
  designs scene designed -> aspect_assigned designed.
Proof. by intros (suggestion & _ & ->). Qed.

Lemma assigned_in_enum scene : aspect_assigned scene -> aspect_in_enum scene.
Proof.
  unfold aspect_assigned, aspect_in_enum. intros ->.
  destruct (Z.even (Scene.index scene)); [by left|by right].
Qed.

Lemma design_inv scenes designed :
  design scenes = Ok designed ->
  Forall2 designs scenes designed.
Proof.
  intros Hd. destruct (design_total scenes) as (designed' & Hd' & Hall).
  rewrite Hd in Hd'. by injection Hd' as <-.
Qed.

Lemma design_assigned scenes designed :
  design scenes = Ok designed ->
  Forall aspect_assigned designed /\ (scenes <> [] -> designed <> []).
Proof.
  intros Hd. apply design_inv in Hd. split.
  - eapply Forall2_Forall_r; [exact Hd|].
    apply Forall_forall. intros scene _ designed'. apply designs_assigned.
  - apply Forall2_length in Hd. destruct scenes, designed; done.
Qed.

(** What [generate] returns [json.dumps] accepts: the duration is within
    the float range and the indices are below six. *)
Lemma storable_scripted p scenes :
  generate (script_generator self) (Project.brief p)
           (Project.duration_minutes p) = Ok scenes ->
  storable (scripted_project p scenes) = true.
Proof.
  intros Hg. apply generate_inv in Hg as [Hd Hall]. rewrite storable_spec.
  cbn [scripted_project with_script_summary with_scenes
       Project.duration_minutes Project.scenes].
  pose proof float_limit_fits as Hfits.
  assert (H6 : 6 <= float_limit) by (vm_compute; discriminate).
  apply andb_true_intro. split.
  - apply fits_digits_spec. lia.
  - apply forallb_forall. intros scene Hin. apply fits_digits_spec.
    apply list_elem_of_In, list_elem_of_lookup in Hin as [k Hk].
    destruct (Forall2_lookup_r _ _ _ _ _ Hall Hk) as (j & Hj & Hs).
    apply lookup_seq in Hj as [-> Hlt]. apply scripted_index in Hs.
    rewrite Hs. revert Hlt.
    generalize ((3 * Project.duration_minutes p + 1) / 2). lia.
Qed.

Lemma storable_storyboarded p designed :
  design (Project.scenes p) = Ok designed ->
  storable (storyboarded p designed) = storable p.
Proof.
  intros Hd. apply design_inv in Hd. rewrite !storable_spec.
  cbn [storyboarded with_storyboard_ready with_scenes
       Project.duration_minutes Project.scenes].
  f_equal. induction Hd as [|scene out scenes outs (sg & _ & ->) _ IH];
    [done|].
  cbn [forallb restyled Scene.index]. by rewrite IH.
Qed.

Lemma storable_created id now title brief tone audience duration :
  storable (Project.mk id title brief tone audience duration now None []
                       false false)
  = fits_digits duration.
Proof. rewrite storable_spec. apply andb_true_r. Qed.

Lemma storable_preview_ready ready p :
  storable (with_preview_ready ready p) = storable p.
Proof. by rewrite !storable_spec. Qed.

(** ** The steps of the service *)

Lemma save_eq p d :
  storable p = true ->
  save (storage self) p d
  = (Ok tt, write_text (path_for (storage self) (Project.project_id p))
                       (stored p) d).
Proof.
  unfold storable. intros Hs. unfold save, write_json, dumps. rewrite Hs.
  by rewrite dumps_loads_project.
Qed.

Lemma save_unstorable p d :
  storable p = false -> save (storage self) p d = (Raise ValueError, d).
Proof.
  unfold storable. intros Hs. unfold save, write_json, dumps. by rewrite Hs.
Qed.

Lemma generate_script_ok p d scenes :
  generate (script_generator self) (Project.brief p)
           (Project.duration_minutes p) = Ok scenes ->
  generate_script self p d
  = (Ok (scripted_project p scenes),
     write_text (path_for (storage self) (Project.project_id p))
                (stored (scripted_project p scenes)) d).
Proof.
  intros Hg. unfold generate_script, mbind, IO_bind, pure. rewrite Hg.
  fold (scripted_project p scenes).
  by rewrite save_eq by by apply storable_scripted.
Qed.

Lemma generate_script_raise p d e :
  generate (script_generator self) (Project.brief p)
           (Project.duration_minutes p) = Raise e ->
  generate_script self p d = (Raise e, d).
Proof.
  intros Hg. unfold generate_script, mbind, IO_bind, pure. by rewrite Hg.
Qed.

Lemma design_storyboard_scripted p d designed :
  Project.scenes p <> [] ->
  design (Project.scenes p) = Ok designed ->
  storable p = true ->
  design_storyboard self p d
  = (Ok (storyboarded p designed),
     write_text (path_for (storage self) (Project.project_id p))
                (stored (storyboarded p designed)) d).
Proof.
  intros Hne Hd Hs. unfold design_storyboard, mbind, IO_bind, pure.
  destruct (Project.scenes p) as [|scene rest] eqn:E; [done|].
  unfold mret, IO_ret. rewrite E, Hd.
  fold (storyboarded p designed). rewrite save_eq; [done|].
  rewrite storable_storyboarded; [done|by rewrite E].
Qed.

(** With scenes whose ints [json.dumps] refuses, [design_storyboard]
    raises and writes nothing. *)
Lemma design_storyboard_unstorable p d :
  Project.scenes p <> [] ->
  storable p = false ->
  design_storyboard self p d = (Raise ValueError, d).
Proof.
  intros Hne Hs. destruct (design_total (Project.scenes p))
    as (designed & Hd & _).
  unfold design_storyboard, mbind, IO_bind, pure.
  destruct (Project.scenes p) as [|scene rest] eqn:E; [done|].
  unfold mret, IO_ret. rewrite E, Hd.
  fold (storyboarded p designed). rewrite save_unstorable; [done|].
  rewrite storable_storyboarded; [done|by rewrite E].
Qed.

Lemma design_storyboard_unscripted p d scenes designed :
  Project.scenes p = [] ->
  generate (script_generator self) (Project.brief p)
           (Project.duration_minutes p) = Ok scenes ->
  design scenes = Ok designed ->
  design_storyboard self p d
  = (Ok (storyboarded (scripted_project p scenes) designed),
     write_text (path_for (storage self) (Project.project_id p))
       (stored (storyboarded (scripted_project p scenes) designed))
       (write_text (path_for (storage self) (Project.project_id p))
          (stored (scripted_project p scenes)) d)).
Proof.
  intros Hnil Hg Hd. unfold design_storyboard, mbind at 1, IO_bind at 1.
  rewrite Hnil, (generate_script_ok _ _ _ Hg).
  unfold mbind, IO_bind, pure.
  change (Project.scenes (scripted_project p scenes)) with scenes.
  rewrite Hd. fold (storyboarded (scripted_project p scenes) designed).
  rewrite save_eq; [done|].
  rewrite storable_storyboarded by done. by apply storable_scripted.
Qed.

Lemma design_storyboard_raise p d e :
  Project.scenes p = [] ->
  generate (script_generator self) (Project.brief p)
           (Project.duration_minutes p) = Raise e ->
  design_storyboard self p d = (Raise e, d).
Proof.
  intros Hnil Hg. unfold design_storyboard, mbind at 1, IO_bind at 1.
  by rewrite Hnil, (generate_script_raise _ _ _ Hg).
Qed.

Lemma write_preview_ok p destination d :
  storable p = true ->
  refuses d (default (default_destination p) destination) = false ->
  write_preview self p destination d
  = (Ok (fst (previewed self p destination d)),
     snd (previewed self p destination d)).
Proof.
  intros Hs Hw. unfold write_preview, mbind, IO_bind, write_json, dumps.
  rewrite preview_encodable, Hs, Hw, dumps_loads_preview.
  rewrite save_eq by by rewrite storable_preview_ready. reflexivity.
Qed.

Lemma write_preview_unstorable p destination d :
  storable p = false ->
  write_preview self p destination d = (Raise ValueError, d).
Proof.
  intros Hs. unfold write_preview, mbind, IO_bind, write_json, dumps.
  by rewrite preview_encodable, Hs.
Qed.

Lemma write_preview_refused p destination d :
  storable p = true ->
  refuses d (default (default_destination p) destination) = true ->
  write_preview self p destination d = (Raise OSError, d).
Proof.
  intros Hs Hw. unfold write_preview, mbind, IO_bind, write_json, dumps.
  by rewrite preview_encodable, Hs, Hw.
Qed.

Lemma write_preview_inv p destination d path d' :
  write_preview self p destination d = (Ok path, d') ->
  storable p = true
  /\ refuses d (default (default_destination p) destination) = false
  /\ path = fst (previewed self p destination d)
  /\ d' = snd (previewed self p destination d).
Proof.
  destruct (storable p) eqn:Hs; [|by rewrite write_preview_unstorable].
  destruct (refuses d (default (default_destination p) destination)) eqn:Hw;
    [by rewrite write_preview_refused|].
  rewrite write_preview_ok by done. by intros [= <- <-].
Qed.

Lemma render_preview_ready p destination d :
  Project.storyboard_ready p = true ->
  render_preview self p destination d = write_preview self p destination d.
Proof. intros Hr. unfold render_preview. by rewrite Hr. Qed.

Lemma render_preview_cascade p destination d :
  Project.storyboard_ready p = false ->
  render_preview self p destination d
  = match design_storyboard self p d with
    | (Ok p2, d2) => write_preview self p2 destination d2
    | (Raise e, d2) => (Raise e, d2)
    end.
Proof.
  intros Hr. unfold render_preview. rewrite Hr.
  unfold mbind at 1, IO_bind at 1.
  by destruct (design_storyboard self p d) as [[p2|e] d2].
Qed.

(** The ways [design_storyboard] returns: over the scenes of the project,
    or over those it generates for a project without scenes. *)
Lemma design_storyboard_result p d p' d' :
  design_storyboard self p d = (Ok p', d') ->
  exists base designed,
    design (Project.scenes base) = Ok designed
    /\ Project.scenes base <> []
    /\ p' = storyboarded base designed
    /\ ((Project.scenes p <> [] /\ base = p
         /\ d' = write_text (path_for (storage self) (Project.project_id p))
                            (stored p') d)
        \/ (Project.scenes p = []
            /\ exists scenes,
                 generate (script_generator self) (Project.brief p)
                          (Project.duration_minutes p) = Ok scenes
                 /\ base = scripted_project p scenes
                 /\ d' = write_text
                           (path_for (storage self) (Project.project_id p))
                           (stored p')
                           (write_text
                              (path_for (storage self) (Project.project_id p))
                              (stored base) d))).
Proof.
  destruct (Project.scenes p) as [|scene rest] eqn:E.
  - destruct (generate (script_generator self) (Project.brief p)
                (Project.duration_minutes p)) as [scenes|e] eqn:Hg.
    + destruct (design_total scenes) as (designed & Hdes & _).
      rewrite (design_storyboard_unscripted p d scenes designed E Hg Hdes).
      intros [= <- <-]. exists (scripted_project p scenes), designed.
      destruct (generate_nonempty _ _ _ _ Hg) as [Hne _].
      split; [done|]. split; [done|]. split; [done|].
      right. split; [done|]. by exists scenes.
    + by rewrite (design_storyboard_raise p d e E Hg).
  - assert (Hne : Project.scenes p <> []) by by rewrite E.
    destruct (design_total (Project.scenes p)) as (designed & Hdes & _).
    destruct (storable p) eqn:Hs;
      [|by rewrite (design_storyboard_unstorable p d Hne Hs)].
    rewrite (design_storyboard_scripted p d designed Hne Hdes Hs).
    intros [= <- <-]. exists p, designed.
    split; [done|]. split; [done|]. split; [done|]. left. by rewrite ?E.
Qed.

(** What [design_storyboard] returns it could store. *)
Lemma design_storyboard_storable p d p' d' :
  design_storyboard self p d = (Ok p', d') ->
  storable p' = true /\ Project.storyboard_ready p' = true
  /\ Project.project_id p' = Project.project_id p.
Proof.
  destruct (Project.scenes p) as [|scene rest] eqn:E.
  - destruct (generate (script_generator self) (Project.brief p)
                (Project.duration_minutes p)) as [scenes|e] eqn:Hg.
    + destruct (design_total scenes) as (designed & Hdes & _).
      rewrite (design_storyboard_unscripted p d scenes designed E Hg Hdes).
      intros [= <- <-]. split; [|done].
      rewrite storable_storyboarded by done. by apply storable_scripted.
    + by rewrite (design_storyboard_raise p d e E Hg).
  - assert (Hne : Project.scenes p <> []) by by rewrite E.
    destruct (design_total (Project.scenes p)) as (designed & Hdes & _).
    destruct (storable p) eqn:Hs;
      [|by rewrite (design_storyboard_unstorable p d Hne Hs)].
    rewrite (design_storyboard_scripted p d designed Hne Hdes Hs).
    intros [= <- <-]. split; [|done]. by rewrite storable_storyboarded.
Qed.

(** When [render_preview] returns it has written the preview of a
    storyboarded project with the id of its input, and stored it. *)
Lemma render_preview_inv p destination d path d' :
  render_preview self p destination d = (Ok path, d') ->
  exists p2 d2,
    Project.project_id p2 = Project.project_id p
    /\ Project.storyboard_ready p2 = true
    /\ storable p2 = true
    /\ refuses d2 (default (default_destination p) destination) = false
    /\ path = default (default_destination p) destination
    /\ d' = snd (previewed self p2 destination d2)
    /\ (Project.storyboard_ready p = true -> p2 = p /\ d2 = d)
    /\ (Project.storyboard_ready p = false ->
        design_storyboard self p d = (Ok p2, d2)).
Proof.
  intros Hr. destruct (Project.storyboard_ready p) eqn:Hsb.
  - rewrite render_preview_ready in Hr by done.
    apply write_preview_inv in Hr as (Hs & Hw & -> & ->).
    exists p, d. by repeat split.
  - rewrite render_preview_cascade in Hr by done.
    destruct (design_storyboard self p d) as [[p2|e] d2] eqn:Hd; [|done].
    apply write_preview_inv in Hr as (Hs & Hw & -> & ->).
    apply design_storyboard_storable in Hd as (_ & Hready & Hid).
    exists p2, d2. unfold previewed, default_destination in *. cbn [fst].
    rewrite Hid in *. by repeat split.
Qed.

(** ** Files *)

Lemma load_disk now project_id d :
  snd (load (storage self) now project_id d) = d.
Proof.
  unfold load. by destruct (read_text _ d).
Qed.

(** ** Every call keeps the invariant *)

Section Invariance.
Variable asked : Scene.t -> Prop.
Hypothesis asked_of_designed :
  forall scene designed, designs scene designed -> asked designed.

Lemma invariant_created id now title brief tone audience duration :
  invariant_over asked
    (Project.mk id title brief tone audience duration now None [] false false).
Proof. by split. Qed.

Lemma invariant_scripted p scenes :
  invariant_over asked p -> script_kept asked p ->
  generate (script_generator self) (Project.brief p)
           (Project.duration_minutes p) = Ok scenes ->
  invariant_over asked (scripted_project p scenes).
Proof.
  intros [_ Hpre] Hkept Hg. split; [|exact Hpre].
  cbn [scripted_project with_script_summary with_scenes
       Project.storyboard_ready Project.scenes].
  intros Hsb. destruct Hkept as [Hno|Hgen]; [congruence|].
  destruct (generate_nonempty _ _ _ _ Hg) as [Hne _]. split; [done|].
  apply generate_inv in Hg as [_ Hall].
  eapply Forall2_Forall_r; [exact Hall|].
  apply Forall_forall. intros i _ scene. apply Hgen.
Qed.

Lemma invariant_storyboarded p designed :
  Project.scenes p <> [] ->
  design (Project.scenes p) = Ok designed ->
  invariant_over asked (storyboarded p designed).
Proof.
  intros Hne Hd. split; [intros _|done].
  cbn [storyboarded with_storyboard_ready with_scenes Project.scenes].
  pose proof (design_inv _ _ Hd) as Hall. split.
  - apply Forall2_length in Hall. by destruct (Project.scenes p), designed.
  - eapply Forall2_Forall_r; [exact Hall|].
    apply Forall_forall. intros scene _ out. apply asked_of_designed.
Qed.

Lemma invariant_previewed p :
  invariant_over asked p -> Project.storyboard_ready p = true ->
  invariant_over asked (with_preview_ready true p).
Proof. intros [Hsb _] Hr. by split. Qed.

Lemma disk_ok_start d : home_dir d = ∅ -> disk_ok asked d.
Proof. intros Hd name content H. by rewrite Hd, lookup_empty in H. Qed.

Lemma disk_ok_project p path d :
  disk_ok asked d -> invariant_over asked p ->
  disk_ok asked (write_text path (stored p) d).
Proof.
  intros Hd Hp name content. destruct path as [file|location]; simpl.
  - rewrite lookup_insert. case_decide.
    + intros [= <-]. left. by exists p.
    + apply Hd.
  - apply Hd.
Qed.

Lemma disk_ok_preview p assets_root path d :
  disk_ok asked d ->
  disk_ok asked (write_text path (stored_preview p assets_root) d).
Proof.
  intros Hd name content. destruct path as [file|location]; simpl.
  - rewrite lookup_insert. case_decide.
    + intros [= <-]. right. by exists p, assets_root.
    + apply Hd.
  - apply Hd.
Qed.

Lemma load_invariant now project_id d p :
  disk_ok asked d ->
  fst (load (storage self) now project_id d) = Ok p -> invariant_over asked p.
Proof.
  intros Hd. unfold load, path_for. cbn [read_text].
  destruct (home_dir d !! (project_id ++ ".json")) as [content|] eqn:E;
    [|done].
  destruct (Hd _ _ E) as [(p0 & Hp0 & ->)|(p0 & root & ->)]; cbn [fst].
  - rewrite project_of_stored. by intros [= <-].
  - rewrite <- dumps_loads_preview, preview_is_no_project. done.
Qed.

Lemma save_keeps p d :
  invariant_over asked p -> disk_ok asked d ->
  disk_ok asked (snd (save (storage self) p d)).
Proof.
  intros Hp Hd. destruct (storable p) eqn:Hs.
  - rewrite save_eq by done. by apply disk_ok_project.
  - by rewrite save_unstorable.
Qed.

Lemma generate_script_keeps p d :
  invariant_over asked p -> script_kept asked p -> disk_ok asked d ->
  disk_ok asked (snd (generate_script self p d))
  /\ forall p', fst (generate_script self p d) = Ok p' ->
               invariant_over asked p'.
Proof.
  intros Hp Hkept Hd.
  destruct (generate (script_generator self) (Project.brief p)
              (Project.duration_minutes p)) as [scenes|e] eqn:Hg.
  - rewrite (generate_script_ok _ _ _ Hg). cbn [fst snd].
    pose proof (invariant_scripted _ _ Hp Hkept Hg) as Hp'. split.
    + by apply disk_ok_project.
    + by intros p' [= <-].
  - rewrite (generate_script_raise _ _ _ Hg). by split.
Qed.

Lemma design_storyboard_keeps p d :
  invariant_over asked p -> disk_ok asked d ->
  disk_ok asked (snd (design_storyboard self p d))
  /\ forall p', fst (design_storyboard self p d) = Ok p' ->
               invariant_over asked p'
               /\ Project.storyboard_ready p' = true
               /\ storable p' = true.
Proof.
  intros Hp Hd. destruct (Project.scenes p) as [|scene rest] eqn:E.
  - destruct (generate (script_generator self) (Project.brief p)
                (Project.duration_minutes p)) as [scenes|e] eqn:Hg.
    + destruct (design_total scenes) as (designed & Hdes & _).
      rewrite (design_storyboard_unscripted _ _ _ _ E Hg Hdes). cbn [fst snd].
      assert (Hkept : script_kept asked p).
      { left. destruct (Project.storyboard_ready p) eqn:Hsb; [|done].
        destruct Hp as [Hp _]. destruct (Hp Hsb) as [Hne _]. done. }
      pose proof (invariant_scripted _ _ Hp Hkept Hg) as Hp1.
      destruct (generate_nonempty _ _ _ _ Hg) as [Hne _].
      assert (Hp2 : invariant_over asked
                      (storyboarded (scripted_project p scenes) designed))
        by by apply invariant_storyboarded.
      split; [by repeat apply disk_ok_project|]. intros p' [= <-].
      split; [done|]. split; [done|].
      rewrite storable_storyboarded by done. by apply storable_scripted.
    + rewrite (design_storyboard_raise _ _ _ E Hg). by split.
  - destruct (design_total (Project.scenes p)) as (designed & Hdes & _).
    assert (Hne : Project.scenes p <> []) by by rewrite E.
    destruct (storable p) eqn:Hs.
    + rewrite (design_storyboard_scripted _ _ _ Hne Hdes Hs). cbn [fst snd].
      pose proof (invariant_storyboarded _ _ Hne Hdes) as Hp'.
      split; [by apply disk_ok_project|]. intros p' [= <-].
      split; [done|]. split; [done|]. by rewrite storable_storyboarded.
    + rewrite (design_storyboard_unstorable _ _ Hne Hs). by split.
Qed.

Lemma write_preview_keeps p destination d :
  invariant_over asked p -> Project.storyboard_ready p = true ->
  disk_ok asked d ->
  disk_ok asked (snd (write_preview self p destination d)).
Proof.
  intros Hp Hr Hd. destruct (storable p) eqn:Hs;
    [|by rewrite write_preview_unstorable].
  destruct (refuses d (default (default_destination p) destination)) eqn:Hw;
    [by rewrite write_preview_refused|].
  rewrite write_preview_ok by done. unfold previewed. cbn [snd].
  apply disk_ok_project; [by apply disk_ok_preview|].
  by apply invariant_previewed.
Qed.

Lemma render_preview_keeps p destination d :
  invariant_over asked p -> disk_ok asked d ->
  disk_ok asked (snd (render_preview self p destination d)).
Proof.
  intros Hp Hd. destruct (Project.storyboard_ready p) eqn:Hr.
  - rewrite render_preview_ready by done. by apply write_preview_keeps.
  - rewrite render_preview_cascade by done.
    destruct (design_storyboard_keeps p d Hp Hd) as [Hd2 Hp2].
    destruct (design_storyboard self p d) as [[p2|e] d2]; [|done].
    destruct (Hp2 p2 eq_refl) as (Hinv & Hready & _).
    by apply write_preview_keeps.
Qed.

Lemma run_keeps c w :
  world_ok asked w -> allowed c w ->
  match c with Script p => script_kept asked p | _ => True end ->
  world_ok asked (run self c w).
Proof.
  intros [Hheld Hdisk] Hc Hkept.
  destruct c as [id now title brief tone audience duration|p|p|p dest|now id];
    unfold run, after, world_ok; cbn [disk held].
  - unfold create_project, mbind, IO_bind.
    pose proof (invariant_created id now title brief tone audience duration)
      as Hp.
    pose proof (save_keeps _ (disk w) Hp Hdisk) as Hd'.
    destruct (save (storage self) _ (disk w)) as [[[]|e] d']; cbn [fst snd] in *;
      [|done].
    split; [by constructor|done].
  - assert (Hp : invariant_over asked p).
    { eapply Forall_forall in Hheld; [exact Hheld|]. by apply list_elem_of_In. }
    destruct (generate_script_keeps p (disk w) Hp Hkept Hdisk) as [Hd' Hp'].
    split; [|done].
    destruct (fst (generate_script self p (disk w))) as [p'|e]; [|done].
    constructor; [by apply Hp'|done].
  - assert (Hp : invariant_over asked p).
    { eapply Forall_forall in Hheld; [exact Hheld|]. by apply list_elem_of_In. }
    destruct (design_storyboard_keeps p (disk w) Hp Hdisk) as [Hd' Hp'].
    split; [|done].
    destruct (fst (design_storyboard self p (disk w))) as [p'|e]; [|done].
    constructor; [by apply Hp'|done].
  - assert (Hp : invariant_over asked p).
    { eapply Forall_forall in Hheld; [exact Hheld|]. by apply list_elem_of_In. }
    split; [|by apply render_preview_keeps].
    by destruct (fst (render_preview self p dest (disk w))).
  - rewrite load_disk. split; [|done].
    destruct (fst (load (storage self) now id (disk w))) as [p|e] eqn:E;
      [|done].
    constructor; [|done]. by eapply load_invariant.
Qed.

Lemma reachable_by_ok permitted w :
  (forall p, permitted (Script p) -> script_kept asked p) ->
  reachable_by self permitted w -> world_ok asked w.
Proof.
  intros Hscript. induction 1 as [d Hd|c w Hw IH Hc Hp].
  - split; [constructor|by apply disk_ok_start].
  - apply run_keeps; [done|done|]. destruct c; try done. by apply Hscript.
Qed.

Lemma reached_invariant permitted w p :
  (forall p, permitted (Script p) -> script_kept asked p) ->
  reachable_by self permitted w -> reached self w p -> invariant_over asked p.
Proof.
  intros Hscript Hw Hp. apply reachable_by_ok in Hw as [Hheld Hdisk]; [|done].
  destruct Hp as [Hin|(now & id & Hload)].
  - eapply Forall_forall in Hheld; [exact Hheld|]. by apply list_elem_of_In.
  - by eapply load_invariant.
Qed.

End Invariance.

(** C1, as amended. Every project that a sequence of [create_project],
    [generate_script], [design_storyboard] and [render_preview] calls (and
    loads of what they stored) reaches, held by the caller or stored in the
    home directory, satisfies: if [storyboard_ready] then the scenes are
    non-empty and each has one of the ratios 16:9 and 9:16, and if
    [preview_ready] then [storyboard_ready]. When no call of
    [generate_script] was passed a project flagged [storyboard_ready], the
    invariant holds as the data model states it: each scene of a
    storyboard has the ratio the designer assigns to its index. *)
Theorem lifecycle_invariant_reachable w p :
  reachable self w -> reached self w p ->
  invariant_over aspect_in_enum p
  /\ (reachable_in_stages self w -> lifecycle_invariant p).
Proof.
  intros Hw Hp. split.
  - refine (reached_invariant aspect_in_enum _ any_call w p _ Hw Hp).
    + intros scene designed H. by apply assigned_in_enum, (designs_assigned scene).
    + intros p0 _. right. intros sentences i scene. apply scripted_in_enum.
  - intros Hstages.
    refine (reached_invariant aspect_assigned designs_assigned
              keeps_storyboards w p _ Hstages Hp).
    intros p0 Hp0. by left.
Qed.


Lemma normalize_cases brief :
  match stripped_segments brief with
  | [] => _normalize_sentences brief = [default_sentence]
  | segments => _normalize_sentences brief = take 10 segments
  end.
Proof.
  unfold _normalize_sentences. by destruct (stripped_segments brief).
Qed.

(** C4, as amended. For every brief whose split on periods leaves no
    stripped non-empty sentence, [generate] pairs every scene it returns
    with the stock sentence "Introduce the topic in an engaging manner"
    (not with the brief); for every other brief it pairs the scene of turn
    [i] with one of the first ten sentences, the one at [i] modulo their
    number. *)
Theorem generate_sentence_pairing g brief duration_minutes scenes :
  generate g brief duration_minutes = Ok scenes ->
  forall i scene,
    scenes !! i = Some scene ->
    exists arc sentence,
      arc_at i = Some arc
      /\ scene = scene_for (Z.of_nat i) arc sentence
      /\ match stripped_segments brief with
         | [] => sentence = default_sentence
         | segments =>
             take 10 segments !! (i mod length (take 10 segments))%nat
             = Some sentence
         end.
Proof.
  intros Hg i scene Hi. apply generate_inv in Hg as [_ Hall].
  destruct (Forall2_lookup_r _ _ _ _ _ Hall Hi) as (j & Hj & Hs).
  apply lookup_seq in Hj as [-> _]. cbn [Nat.add] in Hs.
  destruct Hs as (arc & sentence & Harc & Hsent & ->).
  exists arc, sentence. split; [done|]. split; [done|].
  pose proof (normalize_cases brief) as Hn.
  destruct (stripped_segments brief) as [|s0 rest].
  - rewrite Hn in Hsent. cbn [length] in Hsent.
    rewrite Nat.mod_1_r in Hsent. by injection Hsent as <-.
  - by rewrite Hn in Hsent.
Qed.

(** C10. The configured [max_sentences] has no effect: two generators
    return the same for every brief and duration, whatever their caps;
    the scenes draw their sentences from [_normalize_sentences brief],
    which holds the first ten stripped segments of the brief. *)
Theorem max_sentences_has_no_effect g1 g2 brief duration_minutes :
  generate g1 brief duration_minutes = generate g2 brief duration_minutes
  /\ (forall scenes,
        generate g1 brief duration_minutes = Ok scenes ->
        Forall2 (scripted (_normalize_sentences brief))
                (seq 0 (length scenes)) scenes)
  /\ (stripped_segments brief <> [] ->
      _normalize_sentences brief = take 10 (stripped_segments brief)).
Proof.
  split; [reflexivity|]. split.
  - intros scenes Hg. apply generate_inv in Hg as [_ Hall].
    pose proof (Forall2_length _ _ _ Hall) as Hlen.
    rewrite length_seq in Hlen. by rewrite <- Hlen.
  - intros Hne. pose proof (normalize_cases brief) as Hn.
    by destruct (stripped_segments brief).
Qed.

(** C7. Frame property of [generate_script]: the project it returns has
    the id, title, brief, tone, audience, duration, creation time and both
    readiness flags of its input; the scenes are those generated and the
    summary is the one made of them. *)
Theorem generate_script_frame p d p' d' :
  generate_script self p d = (Ok p', d') ->
  Project.project_id p' = Project.project_id p
  /\ Project.title p' = Project.title p
  /\ Project.brief p' = Project.brief p
  /\ Project.tone p' = Project.tone p
  /\ Project.target_audience p' = Project.target_audience p
  /\ Project.duration_minutes p' = Project.duration_minutes p
  /\ Project.created_at p' = Project.created_at p
  /\ Project.storyboard_ready p' = Project.storyboard_ready p
  /\ Project.preview_ready p' = Project.preview_ready p
  /\ generate (script_generator self) (Project.brief p)
              (Project.duration_minutes p) = Ok (Project.scenes p')
  /\ Project.script_summary p'
     = Some (_summarize_scenes (Project.scenes p')).
Proof.
  destruct (generate (script_generator self) (Project.brief p)
              (Project.duration_minutes p)) as [scenes|e] eqn:Hg.
  - rewrite (generate_script_ok _ _ _ Hg). intros [= <- _].
    by repeat split.
  - by rewrite (generate_script_raise _ _ _ Hg).
Qed.

(** [generate_script] returns for every project whose duration multiplies
    to a finite float. *)
Lemma generate_script_returns p d :
  Z.abs (Project.duration_minutes p) <= float_limit ->
  exists p' d', generate_script self p d = (Ok p', d').
Proof.
  intros Hd.
  destruct (generate_total (script_generator self) (Project.brief p)
              (Project.duration_minutes p) Hd) as (scenes & Hg & _).
  rewrite (generate_script_ok _ _ _ Hg). eauto.
Qed.

(** A generated and then designed sequence alternates: the scene at
    position [i] is 16:9 exactly when [i] is even. *)
Lemma generated_storyboard_alternates g brief duration_minutes scenes
    designed i scene :
  generate g brief duration_minutes = Ok scenes ->
  design scenes = Ok designed ->
  designed !! i = Some scene ->
  Scene.aspect_ratio scene = "16:9" <-> Nat.even i = true.
Proof.
  intros Hg Hd Hi. apply generate_inv in Hg as [_ Hgen].
  apply design_inv in Hd.
  destruct (Forall2_lookup_r _ _ _ _ _ Hd Hi)
    as (scene0 & H0 & suggestion & _ & ->).
  destruct (Forall2_lookup_r _ _ _ _ _ Hgen H0) as (j & Hj & Hs).
  apply lookup_seq in Hj as [-> _]. apply scripted_index in Hs.
  cbn [restyled Scene.aspect_ratio]. rewrite Hs. cbn [Nat.add].
  rewrite Nat.even_spec.
  destruct (Z.even (Z.of_nat i)) eqn:E.
  - apply Z.even_spec in E. split; [intros _|done].
    destruct E as [k Hk]. exists (Z.to_nat k). lia.
  - split; [done|]. intros [k Hk].
    assert (Z.even (Z.of_nat i) = true); [|congruence].
    apply Z.even_spec. exists (Z.of_nat k). lia.
Qed.

Lemma designs_twice s0 s1 s2 :
  designs s0 s1 -> designs s1 s2 -> redesigned s1 s2.
Proof.
  intros (sg & Hsg & ->) (sg' & Hsg' & ->).
  cbn [restyled Scene.index] in Hsg'. rewrite Hsg in Hsg'.
  injection Hsg' as <-.
  repeat split. exists (strip (or_empty (Scene.thumbnail_description s0)
                               ++ shot_suffix sg)), sg.
  split; [done|]. split; [done|]. cbn. f_equal.
  apply strip_thumbnail_again.
  apply list_elem_of_In. by eapply list_elem_of_lookup_2.
Qed.

Lemma designs_twice_all designed1 designed2 :
  Forall (fun s1 => exists s0, designs s0 s1) designed1 ->
  Forall2 designs designed1 designed2 ->
  Forall2 redesigned designed1 designed2.
Proof.
  intros Hfrom Hall. induction Hall as [|s1 s2 l k H12 Hall IH];
    [constructor|].
  apply Forall_cons in Hfrom as [[s0 H01] Hfrom].
  constructor; [by eapply designs_twice|by apply IH].
Qed.

(** C3, as amended. For every project with scenes, [design_storyboard]
    applied to the result of [design_storyboard] leaves index, title,
    summary, voiceover, mood and aspect ratio of every scene as they
    were, and appends the shot suggestion to every thumbnail description
    once more; the other fields of the project stay. Both applications
    return when [json.dumps] accepts the ints of the project; when it
    does not, the first one raises [ValueError], writes nothing, and there
    is no result to apply the second to. *)
Theorem design_storyboard_twice p d :
  Project.scenes p <> [] ->
  (storable p = true ->
   exists p1 d1 p2 d2,
     design_storyboard self p d = (Ok p1, d1)
     /\ design_storyboard self p1 d1 = (Ok p2, d2)
     /\ Forall2 redesigned (Project.scenes p1) (Project.scenes p2)
     /\ p2 = with_scenes (Project.scenes p2) p1)
  /\ (storable p = false ->
      design_storyboard self p d = (Raise ValueError, d)).
Proof.
  intros Hne. split; [|by apply design_storyboard_unstorable].
  intros Hs.
  destruct (design_total (Project.scenes p)) as (designed1 & Hd1 & Hall1).
  assert (Hne1 : designed1 <> []).
  { apply Forall2_length in Hall1. destruct (Project.scenes p), designed1;
      done. }
  destruct (design_total designed1) as (designed2 & Hd2 & Hall2).
  eexists (storyboarded p designed1), _,
          (storyboarded (storyboarded p designed1) designed2), _.
  split; [by apply design_storyboard_scripted|].
  split.
  { apply design_storyboard_scripted; [done|done|].
    by rewrite storable_storyboarded. }
  split; [|done]. cbn [storyboarded with_storyboard_ready with_scenes
                       Project.scenes].
  apply designs_twice_all; [|done].
  eapply Forall2_Forall_r; [exact Hall1|].
  apply Forall_forall. intros s0 _ s1 H01. by exists s0.
Qed.

Lemma default_destination_fresh_name p :
  default_destination p <> path_for (storage self) (Project.project_id p).
Proof.
  unfold default_destination, path_for. intros [= H].
  induction (Project.project_id p) as [|c id IH]; [discriminate|].
  injection H as H. by apply IH.
Qed.

(** On a fresh project whose duration is out of the float range,
    [render_preview] raises before it writes. *)
Lemma render_preview_raises p destination d :
  fresh p ->
  float_limit < Z.abs (Project.duration_minutes p) ->
  render_preview self p destination d = (Raise OverflowError, d).
Proof.
  intros (Hnil & Hsb & _) Hd.
  rewrite render_preview_cascade by done.
  by rewrite (design_storyboard_raise p d OverflowError Hnil
                (generate_overflow _ _ _ Hd)).
Qed.

(** C6, as amended. For every fresh project whose duration multiplies by
    1.5 to a finite float, and every destination at which a write is not
    refused (the default one never is), [render_preview] first runs
    [generate_script], then designs the storyboard of its result, and then
    writes the preview of the storyboarded project and stores that project
    with [preview_ready] set; the stored project has both flags true, and
    the path returned is the destination, which holds the preview unless
    it is the project's own file. *)
Theorem render_preview_fresh now p destination d :
  fresh p ->
  Z.abs (Project.duration_minutes p) <= float_limit ->
  refuses d (default (default_destination p) destination) = false ->
  exists p1 d1 p2 d2 d3 stored_project,
    generate_script self p d = (Ok p1, d1)
    /\ design_storyboard self p1 d1 = (Ok p2, d2)
    /\ design_storyboard self p d = (Ok p2, d2)
    /\ render_preview self p destination d
       = (Ok (default (default_destination p) destination), d3)
    /\ d3 = write_text (path_for (storage self) (Project.project_id p))
              (dumps_loads (Project.to_dict (with_preview_ready true p2)))
              (write_text (default (default_destination p) destination)
                 (dumps_loads
                    (_build_preview_payload p2 (home (storage self))))
                 d2)
    /\ fst (load (storage self) now (Project.project_id p) d3)
       = Ok stored_project
    /\ Project.preview_ready stored_project = true
    /\ Project.storyboard_ready stored_project = true
    /\ (default (default_destination p) destination
        <> path_for (storage self) (Project.project_id p) ->
        read_text (default (default_destination p) destination) d3
        = Some (dumps_loads
                  (_build_preview_payload p2 (home (storage self))))).
Proof.
  intros (Hnil & Hsb & Hpre) Hd Hw.
  destruct (generate_total (script_generator self) (Project.brief p)
              (Project.duration_minutes p) Hd) as (scenes & Hg & _).
  destruct (generate_nonempty _ _ _ _ Hg) as [Hne _].
  destruct (design_total scenes) as (designed & Hdes & _).
  set (p1 := scripted_project p scenes).
  set (p2 := storyboarded p1 designed).
  assert (Hs1 : storable p1 = true) by by apply storable_scripted.
  assert (Hs2 : storable p2 = true) by by unfold p2; rewrite storable_storyboarded.
  pose proof (generate_script_ok p d scenes Hg) as H1. fold p1 in H1.
  pose proof (design_storyboard_unscripted p d scenes designed
                Hnil Hg Hdes) as H2. fold p1 p2 in H2.
  pose proof (design_storyboard_scripted p1
                (write_text (path_for (storage self) (Project.project_id p))
                            (stored p1) d) designed Hne Hdes Hs1) as H3.
  fold p2 in H3.
  pose proof (render_preview_cascade p destination d Hsb) as H4.
  rewrite H2 in H4.
  rewrite write_preview_ok in H4
    by (by rewrite ?refuses_write_text).
  unfold previewed in H4. cbn [fst snd] in H4.
  change (Project.project_id p2) with (Project.project_id p) in H4.
  change (default_destination p2) with (default_destination p) in H4.
  rewrite <- dumps_loads_preview, <- dumps_loads_project in H4.
  eexists p1, _, p2, _, _, (with_preview_ready true p2).
  split; [exact H1|]. split; [exact H3|]. split; [exact H2|].
  split; [exact H4|]. split; [reflexivity|].
  split; [|split; [done|split; [done|]]].
  - unfold load, path_for. cbn [read_text write_text home_dir].
    rewrite lookup_insert_eq. cbn [fst]. apply project_of_file.
  - intros Hother.
    destruct (default (default_destination p) destination)
      as [name|location] eqn:Edest; cbn [read_text write_text home_dir
                                          elsewhere path_for].
    + rewrite lookup_insert_ne; [by rewrite lookup_insert_eq|].
      intros Heq. apply Hother. unfold path_for. by rewrite Heq.
    + unfold path_for. cbn. by rewrite lookup_insert_eq.
Qed.

Lemma previewed_default_file p d :
  home_dir (snd (previewed self p None d))
    !! (Project.project_id p ++ "_preview.json")
  = Some (stored_preview p (home (storage self))).
Proof.
  unfold previewed. cbn [snd default default_destination write_text
                         home_dir path_for].
  rewrite lookup_insert_ne; [by rewrite lookup_insert_eq|].
  intros Heq. by apply (default_destination_fresh_name p);
    unfold default_destination, path_for; rewrite Heq.
Qed.

(** Once [render_preview] has written its default preview file, the
    listing of the home directory raises. *)
Lemma list_projects_raises_after_preview now p d path d' :
  render_preview self p None d = (Ok path, d') ->
  exists e, snd (list_projects (storage self) now d') = Some e.
Proof.
  intros Hr.
  apply render_preview_inv in Hr as (p2 & d2 & _ & _ & _ & _ & _ & -> & _).
  pose proof (previewed_default_file p2 d2) as Hfile.
  eapply (yield_projects_stops now _ _
            (Project.project_id p2 ++ "_preview.json")).
  - apply sorted_glob_spec. split; [by eexists|].
    rewrite json_name_app by (cbn; lia). reflexivity.
  - exact Hfile.
  - rewrite <- dumps_loads_preview. apply preview_is_no_project.
Qed.

End Facts.

(* ===================================================================== *)
(** * The storage, the dictionaries and the sentences *)
(* ===================================================================== *)

(** ** Saving and loading *)

Lemma length_append s t :
  String.length (s ++ t) = (String.length s + String.length t)%nat.
Proof.
  induction s as [|c s IH]; [done|].
  change (S (String.length (s ++ t))
          = S (String.length s + String.length t)%nat).
  by rewrite IH.
Qed.

Lemma append_inj_l s1 s2 t : s1 ++ t = s2 ++ t -> s1 = s2.
Proof.
  revert s2. induction s1 as [|c s1 IH]; intros [|c2 s2] H.
  - done.
  - apply (f_equal String.length) in H. rewrite !length_append in H.
    cbn [String.length] in H. lia.
  - apply (f_equal String.length) in H. rewrite !length_append in H.
    cbn [String.length] in H. lia.
  - injection H as -> H. f_equal. by apply IH.
Qed.

Lemma load_stored storage now p d :
  fst (load storage now (Project.project_id p)
         (write_text (path_for storage (Project.project_id p)) (stored p) d))
  = Ok p.
Proof.
  unfold load, path_for. cbn [read_text write_text home_dir].
  by rewrite lookup_insert_eq, project_of_stored.
Qed.

Lemma load_other_stored storage now p project_id d :
  project_id <> Project.project_id p ->
  fst (load storage now project_id
         (write_text (path_for storage (Project.project_id p)) (stored p) d))
  = fst (load storage now project_id d).
Proof.
  intros Hne. unfold load. cbn [path_for read_text write_text home_dir].
  rewrite lookup_insert_ne.
  - by destruct (home_dir d !! (project_id ++ ".json")).
  - intros H. apply Hne. symmetry. by apply append_inj_l in H.
Qed.

Lemma save_written storage p d :
  storable p = true ->
  save storage p d
  = (Ok tt, write_text (path_for storage (Project.project_id p)) (stored p) d).
Proof.
  unfold storable. intros Hs. unfold save, write_json, dumps. rewrite Hs.
  by rewrite dumps_loads_project.
Qed.

Lemma save_refused storage p d :
  storable p = false -> save storage p d = (Raise ValueError, d).
Proof.
  unfold storable. intros Hs. unfold save, write_json, dumps. by rewrite Hs.
Qed.

Lemma load_pair storage now project_id d :
  load storage now project_id d = (fst (load storage now project_id d), d).
Proof. unfold load. by destruct (read_text _ d). Qed.

(** X1. Round trip through the storage. [save] returns for a project
    whose ints [json.dumps] accepts, and [load] of its id then returns
    the project, whatever was in the home directory and whatever the time
    of the load, and leaves the files as [save] left them. For any other
    project [save] raises [ValueError] and writes nothing. *)
Theorem load_after_save self now p d :
  (storable p = true ->
   exists d',
     save self p d = (Ok tt, d')
     /\ load self now (Project.project_id p) d' = (Ok p, d'))
  /\ (storable p = false -> save self p d = (Raise ValueError, d)).
Proof.
  split; [|apply save_refused]. intros Hs. eexists. split.
  - by apply save_written.
  - rewrite load_pair. f_equal. apply load_stored.
Qed.

(** X2. [save] of one project leaves what every other id loads as: the
    file name determines the id. *)
Theorem save_keeps_other_projects self now p project_id d :
  project_id <> Project.project_id p ->
  fst (load self now project_id (snd (save self p d)))
  = fst (load self now project_id d).
Proof.
  intros Hne. destruct (storable p) eqn:Hs.
  - rewrite save_written by done. by apply load_other_stored.
  - by rewrite save_refused.
Qed.

(** X3. [save] overwrites: after two saves under one id, the second of a
    project whose ints [json.dumps] accepts, the files are those the
    second save alone leaves, and the id loads as the second project. *)
Theorem save_last_writer_wins self now p1 p2 d :
  Project.project_id p1 = Project.project_id p2 ->
  storable p2 = true ->
  snd (save self p2 (snd (save self p1 d))) = snd (save self p2 d)
  /\ fst (load self now (Project.project_id p1)
               (snd (save self p2 (snd (save self p1 d))))) = Ok p2.
Proof.
  intros Hid Hs2. rewrite !(save_written self p2) by done. cbn [snd]. split.
  - destruct (storable p1) eqn:Hs1; [|by rewrite save_refused].
    rewrite save_written by done.
    cbn [snd path_for write_text home_dir elsewhere refused].
    rewrite Hid. by rewrite insert_insert_eq.
  - rewrite Hid. apply load_stored.
Qed.

(** ** Keyword arguments *)

Lemma bind_kwargs_ok fields required kwargs :
  bind_kwargs fields required kwargs = Ok tt ->
  (forall k v, In (k, v) kwargs -> In k fields)
  /\ (forall k, In k required -> is_Some (dict_get k kwargs)).
Proof.
  unfold bind_kwargs.
  destruct (forallb _ kwargs) eqn:Hk; [|done].
  destruct (forallb _ required) eqn:Hr; [|done]. intros _. split.
  - intros k v Hin. rewrite forallb_forall in Hk.
    apply Hk in Hin. apply bool_decide_eq_true in Hin.
    by apply list_elem_of_In.
  - intros k Hin. rewrite forallb_forall in Hr.
    apply Hr in Hin. by apply bool_decide_eq_true in Hin.
Qed.

Lemma bind_kwargs_unknown fields required kwargs k v :
  In (k, v) kwargs -> ~ In k fields ->
  bind_kwargs fields required kwargs = Raise TypeError.
Proof.
  intros Hin Hk. unfold bind_kwargs.
  destruct (forallb _ kwargs) eqn:E; [|done].
  rewrite forallb_forall in E. apply E in Hin.
  apply bool_decide_eq_true in Hin. apply list_elem_of_In in Hin. done.
Qed.

Lemma bind_kwargs_missing fields required kwargs k :
  In k required -> dict_get k kwargs = None ->
  bind_kwargs fields required kwargs = Raise TypeError.
Proof.
  intros Hin Hk. unfold bind_kwargs.
  destruct (forallb (fun k => bool_decide (is_Some (dict_get k kwargs)))
              required) eqn:E; [|by rewrite andb_false_r].
  rewrite forallb_forall in E. apply E in Hin.
  apply bool_decide_eq_true in Hin. rewrite Hk in Hin. by destruct Hin.
Qed.

Ltac step_binds H :=
  repeat match type of H with
         | mbind _ ?r = Ok _ =>
             let E := fresh "E" in
             destruct r eqn:E; [rewrite bind_Ok in H|discriminate H]
         end.

(** X5. [Project.from_dict] returns a project only for a dict whose keys
    all name fields of the dataclass and which holds the six fields that
    have no default. *)
Theorem from_dict_accepts_only now payload p :
  Project.from_dict now payload = Ok p ->
  exists entries,
    payload = JDict entries
    /\ (forall k v, In (k, v) entries -> In k Project.fields)
    /\ (forall k, In k Project.required -> is_Some (dict_get k entries)).
Proof.
  destruct payload as [| | | | |entries]; try done.
  unfold Project.from_dict. intros H. exists entries. split; [done|].
  destruct (Project.scenes_of _) as [scenes|]; [|done].
  rewrite bind_Ok in H.
  destruct (bind_kwargs _ _ entries) as [[]|] eqn:Hb; [|done].
  by apply bind_kwargs_ok.
Qed.

(** X6. The defaults of [Project.from_dict]: a payload without
    [created_at] is stamped with the time of the call, and one without
    [scenes], [script_summary] or a readiness flag loads with no scenes, no
    summary and the flag false; a key that is there gives the field. *)
Theorem from_dict_defaults now entries p :
  Project.from_dict now (JDict entries) = Ok p ->
  (dict_get "created_at" entries = None -> Project.created_at p = now)
  /\ (forall s, dict_get "created_at" entries = Some (JStr s) ->
        Project.created_at p = s)
  /\ (dict_get "scenes" entries = None -> Project.scenes p = [])
  /\ (dict_get "script_summary" entries = None ->
      Project.script_summary p = None)
  /\ (dict_get "storyboard_ready" entries = None ->
      Project.storyboard_ready p = false)
  /\ (dict_get "preview_ready" entries = None ->
      Project.preview_ready p = false).
Proof.
  unfold Project.from_dict. intros H. step_binds H.
  injection H as <-. cbn [Project.created_at Project.scenes
    Project.script_summary Project.storyboard_ready Project.preview_ready].
  unfold arg in *.
  repeat split.
  - intros Hn. rewrite Hn in *. congruence.
  - intros s Hs. rewrite Hs in *. cbn in *. congruence.
  - intros Hn. rewrite Hn in *. cbn in *. congruence.
  - intros Hn. rewrite Hn in *. congruence.
  - intros Hn. rewrite Hn in *. congruence.
  - intros Hn. rewrite Hn in *. congruence.
Qed.

Lemma to_dict_scenes p :
  dict_get "scenes" (entries_of (Project.to_dict p))
  = Some (JList (map Scene.to_dict (Project.scenes p))).
Proof. reflexivity. Qed.

Lemma dict_get_app_l key entries more v :
  dict_get key entries = Some v -> dict_get key (entries ++ more)%list = Some v.
Proof.
  induction entries as [|[k w] entries IH]; [done|]. cbn.
  destruct (String.eqb k key); [done|]. exact IH.
Qed.

Lemma dict_get_without_other key other entries :
  key <> other ->
  dict_get key (without_key other entries) = dict_get key entries.
Proof.
  intros Hne. induction entries as [|[k w] entries IH]; [done|].
  cbn. destruct (String.eqb_spec k other) as [->|Hk]; cbn.
  - destruct (String.eqb_spec other key) as [->|_]; [done|exact IH].
  - destruct (String.eqb k key); [done|exact IH].
Qed.

Lemma dict_get_without_same key entries :
  dict_get key (without_key key entries) = None.
Proof.
  induction entries as [|[k w] entries IH]; [done|].
  cbn. destruct (String.eqb_spec k key) as [->|Hk]; cbn; [exact IH|].
  destruct (String.eqb_spec k key); [done|exact IH].
Qed.

(** X7. A stored payload with one key too many, or with one of the six
    required keys taken out, does not load: [Project.from_dict] raises
    [TypeError]. *)
Theorem from_dict_rejects now p key value :
  (~ In key Project.fields ->
   Project.from_dict now
     (JDict (entries_of (Project.to_dict p) ++ [(key, value)])%list)
   = Raise TypeError)
  /\ (In key Project.required ->
      Project.from_dict now
        (JDict (without_key key (entries_of (Project.to_dict p))))
      = Raise TypeError).
Proof.
  split.
  - intros Hkey. unfold Project.from_dict.
    rewrite (dict_get_app_l _ _ _ _ (to_dict_scenes p)).
    cbn [Project.scenes_of]. rewrite scenes_of_dicts, bind_Ok.
    rewrite (bind_kwargs_unknown _ _ _ key value); [done| |done].
    apply in_or_app. right. by left.
  - intros Hkey. unfold Project.from_dict.
    assert (Hne : "scenes" <> key).
    { intros <-. cbn in Hkey. intuition discriminate. }
    rewrite (dict_get_without_other _ _ _ Hne), to_dict_scenes.
    cbn [Project.scenes_of]. rewrite scenes_of_dicts, bind_Ok.
    by rewrite (bind_kwargs_missing _ _ _ key Hkey
                  (dict_get_without_same key _)).
Qed.

(** X28. [Scene] is built only from a dict whose keys all name fields of
    the dataclass and which holds [index], [title] and [summary]. *)
Theorem scene_accepts_only scene_dict scene :
  Scene.of_json scene_dict = Ok scene ->
  exists kwargs,
    scene_dict = JDict kwargs
    /\ (forall k v, In (k, v) kwargs -> In k Scene.fields)
    /\ (forall k, In k Scene.required -> is_Some (dict_get k kwargs)).
Proof.
  destruct scene_dict as [| | | | |kwargs]; try done.
  unfold Scene.of_json, Scene.init. intros H. exists kwargs. split; [done|].
  destruct (bind_kwargs _ _ kwargs) as [[]|] eqn:Hb; [|done].
  by apply bind_kwargs_ok.
Qed.

(** ** Sentences *)

Lemma rstrip_cons c s :
  rstrip (String c s)
  = match rstrip s with
    | EmptyString => if isspace c then EmptyString else String c EmptyString
    | r => String c r
    end.
Proof. reflexivity. Qed.

Lemma rstrip_idem s : rstrip (rstrip s) = rstrip s.
Proof.
  induction s as [|c s IH]; [done|]. rewrite rstrip_cons.
  destruct (rstrip s) as [|c' r] eqn:E.
  - destruct (isspace c) eqn:Hc; [done|]. rewrite rstrip_cons. cbn [rstrip].
    by rewrite Hc.
  - rewrite rstrip_cons. by rewrite IH.
Qed.

Lemma strip_idem s : strip (strip s) = strip s.
Proof.
  unfold strip. destruct (lstrip_cases s) as [E|Hsolid].
  - by rewrite E.
  - rewrite (lstrip_solid (rstrip (lstrip s))).
    + apply rstrip_idem.
    + by apply starts_solid_rstrip.
Qed.

Lemma occurs_lstrip c s : occurs c (lstrip s) -> occurs c s.
Proof.
  induction s as [|c' s IH]; [done|]. cbn [lstrip].
  destruct (isspace c'); [|done]. intros H. right. by apply IH.
Qed.

Lemma occurs_rstrip c s : occurs c (rstrip s) -> occurs c s.
Proof.
  induction s as [|c' s IH]; [done|]. cbn [rstrip].
  destruct (rstrip s) as [|c'' r].
  - destruct (isspace c'); [done|]. intros [H|[]]. by left.
  - intros [H|H]; [by left|]. right. by apply IH.
Qed.

Lemma occurs_strip c s : occurs c (strip s) -> occurs c s.
Proof. intros H. by apply occurs_lstrip, occurs_rstrip. Qed.

Lemma split_on_nonempty sep s : split_on sep s <> [].
Proof.
  induction s as [|c s IH]; [done|]. cbn [split_on].
  destruct (Ascii.eqb c sep); [done|]. by destruct (split_on sep s).
Qed.

Lemma split_on_segments sep s :
  Forall (fun segment => occurs sep segment -> False) (split_on sep s)
  /\ forall c, (occurs c s -> False) ->
       Forall (fun segment => occurs c segment -> False) (split_on sep s).
Proof.
  induction s as [|c s [IH1 IH2]]; cbn [split_on].
  - split; [by repeat constructor|]. intros c' _. by repeat constructor.
  - destruct (Ascii.eqb_spec c sep) as [Heq|Hne]; [subst c|].
    + split; [by constructor|]. intros c' Hc'. constructor; [done|].
      apply IH2. intros H. apply Hc'. by right.
    + pose proof (split_on_nonempty sep s) as Hnil.
      destruct (split_on sep s) as [|segment rest]; [done|].
      apply Forall_cons in IH1 as [Hseg Hrest]. split.
      * constructor; [|done]. intros [H|H]; [done|by apply Hseg].
      * intros c' Hc'.
        assert (Hs : occurs c' s -> False) by (intros H; apply Hc'; by right).
        specialize (IH2 c' Hs). apply Forall_cons in IH2 as [Hseg' Hrest'].
        constructor; [|done]. intros [H|H]; [|by apply Hseg'].
        apply Hc'. by left.
Qed.

Lemma replace_char_gone a b s :
  a <> b -> occurs a (replace_char a b s) -> False.
Proof.
  intros Hne. induction s as [|c s IH]; [done|]. cbn [replace_char occurs].
  destruct (Ascii.eqb_spec c a) as [Heq|Hc]; intros [H|H]; auto.
Qed.

Lemma stripped_segments_clean text :
  Forall clean_sentence (stripped_segments text).
Proof.
  unfold stripped_segments.
  destruct (split_on_segments "." (replace_char "010" " " text))
    as [Hdot Hnl].
  assert (Hgone : occurs "010" (replace_char "010" " " text) -> False)
    by (apply replace_char_gone; discriminate).
  specialize (Hnl "010"%char Hgone). clear Hgone.
  induction (split_on "." (replace_char "010" " " text))
    as [|segment segments IH]; [constructor|].
  apply Forall_cons in Hdot as [Hd Hdot]. apply Forall_cons in Hnl as [Hn Hnl].
  cbn [flat_map]. apply Forall_app. split; [|by apply IH].
  destruct (strip segment) as [|c r] eqn:E; [constructor|].
  constructor; [|constructor]. rewrite <- E. repeat split.
  - by rewrite E.
  - apply strip_idem.
  - intros H. by apply Hd, occurs_strip.
  - intros H. by apply Hn, occurs_strip.
Qed.

(** X8. [_normalize_sentences] returns between one and ten sentences, each
    non-empty, without whitespace at either end, and without a period or a
    newline in it. *)
Theorem normalize_sentences_clean text :
  (1 <= length (_normalize_sentences text) <= 10)%nat
  /\ Forall clean_sentence (_normalize_sentences text).
Proof.
  unfold _normalize_sentences.
  pose proof (stripped_segments_clean text) as Hclean.
  destruct (stripped_segments text) as [|s rest] eqn:E.
  - split; [cbn; lia|]. constructor; [|constructor].
    repeat split; try done; cbn; intuition discriminate.
  - split.
    + rewrite length_take. cbn [length]. lia.
    + by apply Forall_take.
Qed.

(** ** Thumbnails *)

(** X12. What [design] makes of a thumbnail: whitespace in front of it is
    dropped and whitespace behind it is kept before the separator; a scene
    without thumbnail, or with a blank one, gets the suggestion alone,
    without the space before the bar. *)
Theorem design_thumbnail scenes designed k scene out :
  design scenes = Ok designed ->
  scenes !! k = Some scene ->
  designed !! k = Some out ->
  exists suggestion,
    shot_options !! Z.to_nat (Scene.index scene mod 5) = Some suggestion
    /\ Scene.thumbnail_description out
       = Some
           match lstrip (or_empty (Scene.thumbnail_description scene)) with
           | EmptyString => "| Shot suggestion: " ++ suggestion
           | solid => solid ++ " | Shot suggestion: " ++ suggestion
           end.
Proof.
  intros Hd Hk Hout. apply design_inv in Hd.
  destruct (Forall2_lookup_l _ _ _ _ _ Hd Hk)
    as (out' & Hout' & suggestion & Hs & ->).
  rewrite Hout in Hout'. injection Hout' as ->.
  exists suggestion. split; [done|]. cbn [restyled Scene.thumbnail_description].
  f_equal.
  assert (Hin : In suggestion shot_options).
  { apply list_elem_of_In. by eapply list_elem_of_lookup_2. }
  unfold strip. rewrite lstrip_app.
  destruct (lstrip (or_empty (Scene.thumbnail_description scene)))
    as [|c rest] eqn:E.
  - clear -Hin. unfold shot_options in Hin. cbn in Hin.
    destruct Hin as [<-|[<-|[<-|[<-|[<-|[]]]]]]; reflexivity.
  - rewrite rstrip_app_keeps; rewrite shot_suffix_solid_end by done;
      [done|discriminate].
Qed.

(** ** Files written twice *)

Lemma write_text_twice path1 v1 path2 v2 d :
  write_text path2 v2 (write_text path1 v1
    (write_text path2 v2 (write_text path1 v1 d)))
  = write_text path2 v2 (write_text path1 v1 d).
Proof.
  destruct path1 as [n1|l1], path2 as [n2|l2];
    cbn [write_text home_dir elsewhere]; f_equal.
  - destruct (decide (n1 = n2)) as [->|Hne].
    + by rewrite !insert_insert_eq.
    + rewrite (insert_insert_ne _ n1 n2) by done.
      by rewrite !insert_insert_eq.
  - by rewrite insert_insert_eq.
  - by rewrite insert_insert_eq.
  - by rewrite insert_insert_eq.
  - by rewrite insert_insert_eq.
  - destruct (decide (l1 = l2)) as [->|Hne].
    + by rewrite !insert_insert_eq.
    + rewrite (insert_insert_ne _ l1 l2) by done.
      by rewrite !insert_insert_eq.
Qed.

(** ** The listing in order *)

Lemma sorted_glob_sorted d :
  StronglySorted (fun a b => Is_true (String.leb a b)) (sorted_glob d).
Proof.
  unfold sorted_glob. apply (StronglySorted_merge_sort String.le); apply _.
Qed.

Lemma sorted_glob_NoDup d : NoDup (sorted_glob d).
Proof.
  unfold sorted_glob. rewrite merge_sort_Permutation.
  apply NoDup_ListNoDup, List.NoDup_filter, NoDup_ListNoDup.
  apply NoDup_fst_map_to_list.
Qed.

Lemma yield_projects_exact now names d :
  (forall name, In name names ->
     exists p, read_text (InHome name) d = Some (stored p)) ->
  exists projects,
    yield_projects now names d = (projects, None)
    /\ Forall2 (fun name p => home_dir d !! name = Some (stored p))
               names projects.
Proof.
  intros Hall. induction names as [|name names IH].
  - exists []. split; [done|constructor].
  - destruct (Hall name) as [p Hp]; [by left|].
    destruct IH as (projects & Hy & HF); [intros n Hn; apply Hall; by right|].
    exists (p :: projects). cbn [yield_projects].
    rewrite Hp, project_of_stored, Hy. split; [done|]. by constructor.
Qed.

Lemma list_projects_exact storage now d :
  (forall name data,
     home_dir d !! name = Some data -> is_json_name name = true ->
     exists p, data = dumps_loads (Project.to_dict p)) ->
  exists projects,
    list_projects storage now d = (projects, None)
    /\ Forall2 (fun name p =>
                  home_dir d !! name
                  = Some (dumps_loads (Project.to_dict p)))
               (sorted_glob d) projects.
Proof.
  intros Hfiles.
  destruct (yield_projects_exact now (sorted_glob d) d)
    as (projects & Hy & HF).
  { intros name Hin. apply sorted_glob_spec in Hin as [[data Hd] Hj].
    destruct (Hfiles _ _ Hd Hj) as [p ->]. exists p.
    by rewrite <- dumps_loads_project. }
  exists projects. split; [done|].
  eapply Forall2_impl; [exact HF|]. intros name p H. cbn beta in H.
  by rewrite dumps_loads_project.
Qed.

(** X20. In a home directory whose [.json] files are all saved projects,
    [list_projects] raises nothing and yields exactly one project per
    such file, the project saved in it, in ascending order of the file
    names; files with other names are passed over. *)
Theorem list_projects_in_name_order storage now d :
  (forall name data,
     home_dir d !! name = Some data -> is_json_name name = true ->
     exists p, data = dumps_loads (Project.to_dict p)) ->
  exists projects,
    list_projects storage now d = (projects, None)
    /\ Forall2 (fun name p =>
                  home_dir d !! name
                  = Some (dumps_loads (Project.to_dict p)))
               (sorted_glob d) projects
    /\ StronglySorted (fun a b => Is_true (String.leb a b)) (sorted_glob d)
    /\ NoDup (sorted_glob d)
    /\ forall name,
         In name (sorted_glob d)
         <-> is_Some (home_dir d !! name) /\ is_json_name name = true.
Proof.
  intros Hfiles.
  destruct (list_projects_exact storage now d Hfiles) as (projects & H1 & H2).
  exists projects. split; [done|]. split; [done|].
  split; [apply sorted_glob_sorted|]. split; [apply sorted_glob_NoDup|].
  apply sorted_glob_spec.
Qed.

(** ** Key points *)

Lemma after_first_app_r sep prefix rest :
  (occurs sep prefix -> False) ->
  after_first sep (prefix ++ String sep rest) = Some rest.
Proof.
  intros Hno. induction prefix as [|c prefix IH].
  - change (after_first sep (String sep rest) = Some rest).
    cbn [after_first]. by rewrite Ascii.eqb_refl.
  - change (String c prefix ++ String sep rest)
      with (String c (prefix ++ String sep rest)).
    cbn [after_first]. destruct (Ascii.eqb_spec c sep) as [Heq|Hne].
    + exfalso. apply Hno. by left.
    + apply IH. intros H. apply Hno. by right.
Qed.

Lemma arcs_no_colon arc : In arc arcs -> occurs ":" arc -> False.
Proof.
  unfold arcs. cbn [In].
  intros [<-|[<-|[<-|[<-|[<-|[<-|[]]]]]]]; cbn; intuition discriminate.
Qed.

Lemma concat_two_nonempty sep a b rest :
  sep <> EmptyString -> String.concat sep (a :: b :: rest) <> EmptyString.
Proof.
  intros Hsep. cbn [String.concat].
  destruct a as [|c a]; [|discriminate].
  destruct sep as [|c sep]; [done|discriminate].
Qed.

(* ===================================================================== *)
(** * The generator, the service and the command line *)
(* ===================================================================== *)

Section Pipeline.
Context {tw : TextWrap}.
Variable self : ProjectService.

(** ** Scenes by duration *)

(** X9. The number of scenes at the ends of the range: three for every
    duration up to two minutes, zero and negative durations included, five
    for three minutes, six from four minutes on. *)
Theorem generate_scene_count_edges g brief duration_minutes scenes :
  generate g brief duration_minutes = Ok scenes ->
  (duration_minutes <= 2 -> length scenes = 3%nat)
  /\ (duration_minutes = 3 -> length scenes = 5%nat)
  /\ (4 <= duration_minutes -> length scenes = 6%nat).
Proof.
  intros Hg. apply generate_inv in Hg as [_ Hall].
  apply Forall2_length in Hall. rewrite length_seq in Hall. rewrite <- Hall.
  pose proof (Z.div_mod (3 * duration_minutes + 1) 2 ltac:(lia)).
  pose proof (Z.mod_pos_bound (3 * duration_minutes + 1) 2 ltac:(lia)).
  repeat split; intros; lia.
Qed.

(** X10. [generate] raises nothing but [OverflowError], and raises it
    exactly when the duration is beyond the largest int whose product with
    1.5 is a finite float. *)
Theorem generate_raises_iff g brief duration_minutes :
  (generate g brief duration_minutes = Raise OverflowError
   <-> float_limit < Z.abs duration_minutes)
  /\ (forall e, generate g brief duration_minutes = Raise e ->
        e = OverflowError).
Proof.
  destruct (Z.le_gt_cases (Z.abs duration_minutes) float_limit) as [Hd|Hd].
  - destruct (generate_total g brief duration_minutes Hd)
      as (scenes & Hg & _).
    rewrite Hg. split; [split; [done|lia]|done].
  - rewrite generate_overflow by lia. split; [split; [lia|done]|].
    by intros e [= <-].
Qed.

(** X11. Titles, moods and aspect ratios do not depend on the brief: the
    scene at position [i] carries the title and the mood of turn [i] of the
    arc templates, every voiceover, mood and thumbnail is set, and every
    aspect ratio is the default 16:9. *)
Theorem generate_titles_and_moods g brief duration_minutes scenes i scene :
  generate g brief duration_minutes = Ok scenes ->
  scenes !! i = Some scene ->
  arc_titles !! i = Some (Scene.title scene)
  /\ (Some <$> arc_moods) !! i = Some (Scene.mood scene)
  /\ Scene.aspect_ratio scene = "16:9"
  /\ is_Some (Scene.voiceover scene)
  /\ is_Some (Scene.thumbnail_description scene).
Proof.
  intros Hg Hi. apply generate_inv in Hg as [_ Hall].
  pose proof (Forall2_length _ _ _ Hall) as Hlen.
  rewrite length_seq in Hlen.
  pose proof (lookup_lt_Some _ _ _ Hi) as Hlt.
  destruct (Forall2_lookup_r _ _ _ _ _ Hall Hi) as (j & Hj & Hs).
  apply lookup_seq in Hj as [-> _]. cbn [Nat.add] in Hs.
  destruct Hs as (arc & sentence & Harc & _ & ->).
  assert (Hi6 : (i < 6)%nat) by lia.
  destruct i as [|[|[|[|[|[|i]]]]]]; [..|lia];
    injection Harc as <-; repeat split; try reflexivity; by eexists.
Qed.

(** ** What the service stores *)

(** X13. For a duration of at most 4300 digits [create_project] returns
    a fresh project with the given fields, the id and the time stamp
    drawn, and stores it: the id loads as that project afterwards,
    whatever it loaded as before, and every other id loads as before. For
    a longer duration it raises [ValueError] out of [json.dumps] and
    stores nothing. *)
Theorem create_project_stores project_id now title brief tone target_audience
    duration_minutes d later :
  (Z.abs duration_minutes < 10 ^ max_str_digits ->
   exists p d',
     create_project self project_id now title brief tone target_audience
                    duration_minutes d = (Ok p, d')
     /\ p = Project.mk project_id title brief tone target_audience
                       duration_minutes now None [] false false
     /\ fresh p
     /\ fst (load (storage self) later project_id d') = Ok p
     /\ forall other,
          other <> project_id ->
          fst (load (storage self) later other d')
          = fst (load (storage self) later other d))
  /\ (10 ^ max_str_digits <= Z.abs duration_minutes ->
      create_project self project_id now title brief tone target_audience
                     duration_minutes d = (Raise ValueError, d)).
Proof.
  set (p := Project.mk project_id title brief tone target_audience
                       duration_minutes now None [] false false).
  pose proof (storable_created project_id now title brief tone
                target_audience duration_minutes) as Hs. fold p in Hs.
  split.
  - intros Hd. apply fits_digits_spec in Hd. rewrite Hd in Hs.
    eexists p, _. split.
    { unfold create_project, mbind, IO_bind. fold p.
      rewrite save_eq by done. reflexivity. }
    split; [reflexivity|]. split; [by repeat split|]. split.
    + apply (load_stored (storage self) later p).
    + intros other Hne.
      by apply (load_other_stored (storage self) later p).
  - intros Hd. assert (Hno : fits_digits duration_minutes = false).
    { destruct (fits_digits duration_minutes) eqn:E; [|done].
      apply fits_digits_spec in E. lia. }
    rewrite Hno in Hs. unfold create_project, mbind, IO_bind. fold p.
    by rewrite save_unstorable.
Qed.

(** X14. What [generate_script] returns it has stored: the id loads as the
    returned project afterwards, and every other id loads as before. *)
Theorem generate_script_persists now p d p' d' :
  generate_script self p d = (Ok p', d') ->
  fst (load (storage self) now (Project.project_id p) d') = Ok p'
  /\ forall other,
       other <> Project.project_id p ->
       fst (load (storage self) now other d')
       = fst (load (storage self) now other d).
Proof.
  destruct (generate (script_generator self) (Project.brief p)
              (Project.duration_minutes p)) as [scenes|e] eqn:Hg.
  - rewrite (generate_script_ok self p d scenes Hg). intros [= <- <-]. split.
    + apply (load_stored (storage self) now (scripted_project p scenes)).
    + intros other Hne.
      by apply (load_other_stored (storage self) now (scripted_project p scenes)).
  - by rewrite (generate_script_raise self p d e Hg).
Qed.

(** X15. [design_storyboard]: the project it returns is flagged
    [storyboard_ready] and stored; it has the id, title, brief, tone,
    audience, duration, creation time and [preview_ready] of its input.
    For a project with scenes the scenes are the designed ones and the
    summary stays; for one without, they are the designed generated ones
    and the summary is that of the generated scenes. *)
Theorem design_storyboard_contract now p d p' d' :
  design_storyboard self p d = (Ok p', d') ->
  Project.storyboard_ready p' = true
  /\ fst (load (storage self) now (Project.project_id p) d') = Ok p'
  /\ Project.project_id p' = Project.project_id p
  /\ Project.title p' = Project.title p
  /\ Project.brief p' = Project.brief p
  /\ Project.tone p' = Project.tone p
  /\ Project.target_audience p' = Project.target_audience p
  /\ Project.duration_minutes p' = Project.duration_minutes p
  /\ Project.created_at p' = Project.created_at p
  /\ Project.preview_ready p' = Project.preview_ready p
  /\ (Project.scenes p <> [] ->
      design (Project.scenes p) = Ok (Project.scenes p')
      /\ length (Project.scenes p') = length (Project.scenes p)
      /\ Project.script_summary p' = Project.script_summary p)
  /\ (Project.scenes p = [] ->
      exists generated,
        generate (script_generator self) (Project.brief p)
                 (Project.duration_minutes p) = Ok generated
        /\ design generated = Ok (Project.scenes p')
        /\ Project.script_summary p' = Some (_summarize_scenes generated)).
Proof.
  intros H. apply design_storyboard_result in H
    as (base & designed & Hdes & Hne & -> & Hcase).
  destruct Hcase as [(Hp & -> & ->)|(Hnil & scenes & Hg & -> & ->)].
  - split; [done|]. split; [apply (load_stored (storage self) now (storyboarded p designed))|].
    repeat split; try done.
    apply design_inv, Forall2_length in Hdes. by rewrite Hdes.
  - split; [done|].
    split; [apply (load_stored (storage self) now
                     (storyboarded (scripted_project p scenes) designed))|].
    repeat split; try done; try (intros Hp; by rewrite Hnil in Hp).
    intros _. by exists scenes.
Qed.

(** ** Previews *)

(** X16. On a project flagged [storyboard_ready] whose ints [json.dumps]
    accepts, and with a destination at which a write is not refused,
    [render_preview] neither generates nor designs: it writes the preview
    of the project as it is, scenes or none, and stores the project with
    [preview_ready] set and nothing else changed. *)
Theorem render_preview_ready_as_is now p destination d :
  Project.storyboard_ready p = true ->
  storable p = true ->
  refuses d (default (default_destination p) destination) = false ->
  exists d',
    render_preview self p destination d
    = (Ok (default (default_destination p) destination), d')
    /\ d' = write_text (path_for (storage self) (Project.project_id p))
              (dumps_loads (Project.to_dict (with_preview_ready true p)))
              (write_text (default (default_destination p) destination)
                 (dumps_loads
                    (_build_preview_payload p (home (storage self)))) d)
    /\ fst (load (storage self) now (Project.project_id p) d')
       = Ok (with_preview_ready true p).
Proof.
  intros Hr Hs Hw. eexists. split; [|split; [reflexivity|]].
  - rewrite (render_preview_ready self p destination d Hr).
    rewrite write_preview_ok by done.
    unfold previewed. cbn [fst snd].
    by rewrite <- dumps_loads_preview, <- dumps_loads_project.
  - rewrite dumps_loads_project.
    apply (load_stored (storage self) now (with_preview_ready true p)).
Qed.

(** X17. Rendering a storyboarded project again changes nothing: a second
    [render_preview] with the same destination leaves the files the first
    one left and returns the same path, or raises as the first one did. *)
Theorem render_preview_again p destination d :
  Project.storyboard_ready p = true ->
  render_preview self p destination
    (snd (render_preview self p destination d))
  = render_preview self p destination d.
Proof.
  intros Hr. rewrite !(render_preview_ready self p destination _ Hr).
  destruct (storable p) eqn:Hs; [|by rewrite !write_preview_unstorable].
  destruct (refuses d (default (default_destination p) destination)) eqn:Hw.
  { rewrite (write_preview_refused self p destination d Hs Hw). cbn [snd].
    by rewrite (write_preview_refused self p destination d Hs Hw). }
  rewrite (write_preview_ok self p destination d) by done.
  rewrite write_preview_ok;
    [|done|by unfold previewed; cbn [snd]; rewrite !refuses_write_text].
  unfold previewed. cbn [fst snd]. f_equal. apply write_text_twice.
Qed.

(** X18. Stale flags: [generate_script] on a storyboarded project returns
    a project still flagged [storyboard_ready] whose scenes all have the
    default ratio 16:9, and [render_preview] on it designs nothing: the
    project stored with [preview_ready] set has those scenes. *)
Theorem regenerated_script_is_rendered_undesigned now p d p1 d1 :
  Project.storyboard_ready p = true ->
  generate_script self p d = (Ok p1, d1) ->
  Project.storyboard_ready p1 = true
  /\ (3 <= length (Project.scenes p1) <= 6)%nat
  /\ Forall (fun scene => Scene.aspect_ratio scene = "16:9")
            (Project.scenes p1)
  /\ exists path d2,
       render_preview self p1 None d1 = (Ok path, d2)
       /\ fst (load (storage self) now (Project.project_id p) d2)
          = Ok (with_preview_ready true p1).
Proof.
  intros Hr.
  destruct (generate (script_generator self) (Project.brief p)
              (Project.duration_minutes p)) as [scenes|e] eqn:Hg.
  - rewrite (generate_script_ok self p d scenes Hg). intros [= <- <-].
    pose proof Hg as Hinv. apply generate_inv in Hinv as [_ Hall].
    split; [done|]. split; [|split].
    + apply Forall2_length in Hall. rewrite length_seq in Hall.
      cbn [scripted_project with_script_summary with_scenes Project.scenes].
      lia.
    + cbn [scripted_project with_script_summary with_scenes Project.scenes].
      eapply Forall2_Forall_r; [exact Hall|].
      apply Forall_forall. by intros i _ scene (arc & sentence & _ & _ & ->).
    + eexists _, _. split.
      * rewrite (render_preview_ready self (scripted_project p scenes) None)
          by exact Hr.
        apply write_preview_ok; [by apply (storable_scripted self)|done].
      * unfold previewed. cbn [snd].
        apply (load_stored (storage self) now
                 (with_preview_ready true (scripted_project p scenes))).
  - by rewrite (generate_script_raise self p d e Hg).
Qed.

(** X19. The preview file is no project file: after [render_preview] wrote
    to its default destination, loading the id followed by [_preview]
    raises [TypeError]. *)
Theorem load_of_preview_raises now p d path d' :
  render_preview self p None d = (Ok path, d') ->
  path = InHome (Project.project_id p ++ "_preview.json")
  /\ fst (load (storage self) now (Project.project_id p ++ "_preview") d')
     = Raise TypeError.
Proof.
  intros Hr.
  apply render_preview_inv in Hr as (p2 & d2 & Hid & _ & _ & _ & -> & -> & _).
  split; [reflexivity|].
  - pose proof (previewed_default_file self p2 d2) as Hfile.
    rewrite Hid in Hfile. unfold load, path_for. cbn [read_text].
    replace ((Project.project_id p ++ "_preview") ++ ".json")
      with (Project.project_id p ++ "_preview.json").
    + rewrite Hfile. cbn [fst]. rewrite <- dumps_loads_preview.
      apply preview_is_no_project.
    + clear. induction (Project.project_id p) as [|c s IH]; [done|].
      change (String c (s ++ "_preview.json")
              = String c ((s ++ "_preview") ++ ".json")). by rewrite IH.
Qed.

Lemma design_storyboard_outcome p d :
  (exists p2 d2,
     design_storyboard self p d = (Ok p2, d2)
     /\ storable p2 = true
     /\ Project.project_id p2 = Project.project_id p
     /\ refused d2 = refused d)
  \/ (design_storyboard self p d = (Raise ValueError, d)
      \/ design_storyboard self p d = (Raise OverflowError, d)).
Proof.
  destruct (design_storyboard self p d) as [[p2|e] d2] eqn:Hd.
  - left. exists p2, d2. split; [done|].
    destruct (design_storyboard_storable self p d p2 d2 Hd) as (Hs & _ & Hid).
    split; [done|]. split; [done|].
    apply design_storyboard_result in Hd
      as (base & designed & _ & _ & _ & Hcase).
    destruct Hcase as [(_ & _ & ->)|(_ & scenes & _ & _ & ->)];
      reflexivity.
  - right. destruct (Project.scenes p) as [|scene rest] eqn:E.
    + destruct (Z.le_gt_cases (Z.abs (Project.duration_minutes p))
                  float_limit) as [Hle|Hgt].
      * destruct (generate_total (script_generator self) (Project.brief p)
                    (Project.duration_minutes p) Hle) as (scenes & Hg & _).
        destruct (design_total scenes) as (designed & Hdes & _).
        by rewrite (design_storyboard_unscripted self p d scenes designed
                      E Hg Hdes) in Hd.
      * right. rewrite <- Hd.
        apply design_storyboard_raise; [done|].
        by apply generate_overflow.
    + assert (Hne : Project.scenes p <> []) by by rewrite E.
      destruct (storable p) eqn:Hs.
      * destruct (design_total (Project.scenes p)) as (designed & Hdes & _).
        by rewrite (design_storyboard_scripted self p d designed Hne Hdes Hs)
          in Hd.
      * left. rewrite <- Hd. by apply design_storyboard_unstorable.
Qed.

(** X29. A destination at which the write is refused: [render_preview]
    never returns and never stores the project with [preview_ready] set.
    On a project flagged [storyboard_ready] it writes nothing; on any
    other it raises after [design_storyboard] has stored what it stores.
    The exception is the [OSError] of the write, unless [generate] or
    [json.dumps] raised before it. *)
Theorem render_preview_refused p destination d :
  refuses d (default (default_destination p) destination) = true ->
  exists e,
    render_preview self p destination d
    = (Raise e,
       if Project.storyboard_ready p then d
       else snd (design_storyboard self p d))
    /\ (e = OSError \/ e = ValueError \/ e = OverflowError)
    /\ (e = OSError
        <-> if Project.storyboard_ready p then storable p = true
            else exists p2 d2, design_storyboard self p d = (Ok p2, d2)).
Proof.
  intros Hw. destruct (Project.storyboard_ready p) eqn:Hsb.
  - rewrite render_preview_ready by done. destruct (storable p) eqn:Hs.
    + exists OSError. rewrite write_preview_refused by done.
      split; [done|]. split; [by left|done].
    + exists ValueError. rewrite write_preview_unstorable by done.
      split; [done|]. split; [by right; left|done].
  - rewrite render_preview_cascade by done.
    destruct (design_storyboard_outcome p d)
      as [(p2 & d2 & Hd & Hs & Hid & Hsame)|[Hd|Hd]]; rewrite Hd; cbn [snd].
    + exists OSError. rewrite write_preview_refused; [|done|].
      * split; [done|]. split; [by left|]. split; [by eexists _, _|done].
      * unfold default_destination in *. rewrite Hid.
        destruct destination as [[name|location]|]; cbn in *; [done| |done].
        by rewrite Hsame.
    + exists ValueError. split; [done|]. split; [by right; left|].
      split; [done|]. by intros (p2 & d2 & [=]).
    + exists OverflowError. split; [done|]. split; [by right; right|].
      split; [done|]. by intros (p2 & d2 & [=]).
Qed.

(** ** The command line *)

Lemma load_then {A} now project_id (k : Project.t -> IO A) d p :
  fst (load (storage self) now project_id d) = Ok p ->
  (project ← load_project self now project_id; k project) d = k p d.
Proof.
  intros H. unfold mbind, IO_bind, load_project.
  by rewrite load_pair, H.
Qed.

Lemma load_then_raise {A} now project_id (k : Project.t -> IO A) d e :
  fst (load (storage self) now project_id d) = Raise e ->
  (project ← load_project self now project_id; k project) d = (Raise e, d).
Proof.
  intros H. unfold mbind, IO_bind, load_project.
  by rewrite load_pair, H.
Qed.

(** X21. [script], [storyboard] and [render] on an id that has no file
    print nothing, write nothing and end in [FileNotFoundError]. *)
Theorem main_unknown_id uuid now project_id out d :
  read_text (path_for (storage self) project_id) d = None ->
  main self uuid now (ArgsScript project_id) d
  = ([], Raised FileNotFoundError, d)
  /\ main self uuid now (ArgsStoryboard project_id) d
     = ([], Raised FileNotFoundError, d)
  /\ main self uuid now (ArgsRender project_id out) d
     = ([], Raised FileNotFoundError, d).
Proof.
  intros Hnone.
  assert (Hload : fst (load (storage self) now project_id d)
                  = Raise FileNotFoundError).
  { unfold load. by rewrite Hnone. }
  unfold main. by rewrite !(load_then_raise _ _ _ _ _ Hload).
Qed.

(** X22. With a duration [argparse] can hand over (its [int] accepts at
    most 4300 digits), [init] prints the id it drew and stores a fresh
    project; [script] on that id then prints the project with three to six
    scenes and stores it, both flags still unset, or ends in
    [OverflowError] with nothing written when the duration is out of the
    float range. *)
Theorem main_init_then_script uuid now uuid' later title brief tone audience
    duration d :
  Z.abs duration < 10 ^ max_str_digits ->
  exists d1,
    main self uuid now (ArgsInit title brief tone audience duration) d
    = ([Text uuid], Returned, d1)
    /\ (Z.abs duration <= float_limit ->
        exists p d2,
          main self uuid' later (ArgsScript uuid) d1
          = ([Document (Project.to_dict p)], Returned, d2)
          /\ Project.project_id p = uuid
          /\ Project.title p = title
          /\ Project.brief p = brief
          /\ Project.created_at p = now
          /\ (3 <= length (Project.scenes p) <= 6)%nat
          /\ Project.storyboard_ready p = false
          /\ Project.preview_ready p = false
          /\ fst (load (storage self) later uuid d2) = Ok p)
    /\ (float_limit < Z.abs duration ->
        main self uuid' later (ArgsScript uuid) d1
        = ([], Raised OverflowError, d1)).
Proof.
  intros Hfits.
  set (p0 := Project.mk uuid title brief tone audience duration now None []
                        false false).
  assert (Hs : storable p0 = true).
  { unfold p0. rewrite storable_created. by apply fits_digits_spec. }
  exists (write_text (path_for (storage self) uuid) (stored p0) d).
  assert (Hload : forall t,
            fst (load (storage self) t uuid
                   (write_text (path_for (storage self) uuid) (stored p0) d))
            = Ok p0) by (intros t; apply (load_stored (storage self) t p0)).
  split; [|split].
  - unfold main, report, create_project, mbind, IO_bind. fold p0.
    by rewrite save_eq.
  - intros Hd.
    destruct (generate_total (script_generator self) brief duration Hd)
      as (scenes & Hg & Hall).
    apply Forall2_length in Hall. rewrite length_seq in Hall.
    eexists (scripted_project p0 scenes), _. split.
    + unfold main. rewrite (load_then _ _ _ _ _ (Hload later)).
      by rewrite (generate_script_ok self p0 _ scenes Hg).
    + repeat split; try done.
      * cbn. lia.
      * cbn. lia.
      * apply (load_stored (storage self) later (scripted_project p0 scenes)).
  - intros Hd. unfold main. rewrite (load_then _ _ _ _ _ (Hload later)).
    by rewrite (generate_script_raise self p0 _ OverflowError
                  (generate_overflow _ _ _ Hd)).
Qed.

(** X23. After [render] without [--out] has returned, [list] ends in an
    exception: the preview file lies in the home directory and matches the
    pattern. *)
Theorem main_list_after_render uuid now project_id d shown d' uuid' later :
  main self uuid now (ArgsRender project_id None) d = (shown, Returned, d') ->
  exists lines e,
    main self uuid' later ArgsList d' = (lines, Raised e, d').
Proof.
  unfold main at 1.
  destruct (fst (load (storage self) now project_id d)) as [p|e] eqn:Hl.
  - rewrite (load_then _ _ _ _ _ Hl).
    destruct (render_preview self p None d) as [[path|e] d2] eqn:Hr; [|done].
    intros [= _ <-].
    destruct (list_projects_raises_after_preview self later p d path d2 Hr)
      as [e He].
    unfold main, service_list_projects.
    destruct (list_projects (storage self) later d2) as [projects raised].
    cbn [snd] in He. subst raised. by eexists _, _.
  - by rewrite (load_then_raise _ _ _ _ _ Hl).
Qed.

(** X24. In a home directory whose [.json] files are all saved projects,
    [list] returns after printing one line per file, in ascending order of
    the file names: the id, the title and the creation time of the project
    saved in it, separated by tabs. *)
Theorem main_list_lines uuid now d :
  (forall name data,
     home_dir d !! name = Some data -> is_json_name name = true ->
     exists p, data = dumps_loads (Project.to_dict p)) ->
  exists projects,
    main self uuid now ArgsList d
    = (map (fun p => Text (Project.project_id p ++ String "009"
                             (Project.title p ++ String "009"
                                (Project.created_at p)))) projects,
       Returned, d)
    /\ Forall2 (fun name p =>
                  home_dir d !! name
                  = Some (dumps_loads (Project.to_dict p)))
               (sorted_glob d) projects.
Proof.
  intros Hfiles.
  destruct (list_projects_exact (storage self) now d Hfiles)
    as (projects & H1 & H2).
  exists projects. split; [|done].
  unfold main, service_list_projects. rewrite H1. reflexivity.
Qed.

(** ** Summaries and ratios *)

(** X25. When the line of a scene fits the width, so that [textwrap.fill]
    returns it as it is, the key point [_summarize_scenes] takes from the
    scene is the sentence the scene was made of: the summary is cut after
    the first colon, the one behind the arc. *)
Theorem key_point_is_sentence index arc sentence :
  In arc arcs ->
  strip sentence = sentence ->
  textwrap_fill (arc ++ ": " ++ sentence) 90 = arc ++ ": " ++ sentence ->
  _summarize_scenes [scene_for index arc sentence] = sentence.
Proof.
  intros Harc Hclean Hfits.
  unfold _summarize_scenes, scene_for. cbn [map Scene.summary join String.concat].
  rewrite Hfits. unfold split1_last.
  change (arc ++ ": " ++ sentence) with (arc ++ String ":" (" " ++ sentence)).
  rewrite after_first_app_r by (apply arcs_no_colon, Harc).
  unfold strip. change (lstrip (" " ++ sentence)) with (lstrip sentence).
  exact Hclean.
Qed.

(** X26. The summary [generate_script] stores is never empty: it joins at
    least three key points with bars. *)
Theorem script_summary_nonempty p d p' d' :
  generate_script self p d = (Ok p', d') ->
  exists summary,
    Project.script_summary p' = Some summary /\ summary <> EmptyString.
Proof.
  destruct (generate (script_generator self) (Project.brief p)
              (Project.duration_minutes p)) as [scenes|e] eqn:Hg.
  - rewrite (generate_script_ok self p d scenes Hg). intros [= <- _].
    eexists. split; [reflexivity|].
    apply generate_inv in Hg as [_ Hall].
    apply Forall2_length in Hall. rewrite length_seq in Hall.
    destruct scenes as [|s1 [|s2 rest]]; cbn [length] in Hall; try lia.
    unfold _summarize_scenes, join. cbn [map].
    by apply concat_two_nonempty.
  - by rewrite (generate_script_raise self p d e Hg).
Qed.

(** X27. The storyboard of a project without scenes alternates: the
    scene at position [i] has index [i], and its aspect ratio is 16:9 when
    [i] is even and 9:16 when it is odd, so both ratios occur. *)
Theorem storyboard_alternates p d p' d' i scene :
  Project.scenes p = [] ->
  design_storyboard self p d = (Ok p', d') ->
  Project.scenes p' !! i = Some scene ->
  Scene.index scene = Z.of_nat i
  /\ (Nat.even i = true -> Scene.aspect_ratio scene = "16:9")
  /\ (Nat.even i = false -> Scene.aspect_ratio scene = "9:16")
  /\ exists first second,
       Project.scenes p' !! 0%nat = Some first
       /\ Project.scenes p' !! 1%nat = Some second
       /\ Scene.aspect_ratio first = "16:9"
       /\ Scene.aspect_ratio second = "9:16".
Proof.
  intros Hnil Hd Hi.
  apply design_storyboard_result in Hd
    as (base & designed & Hdes & _ & -> & Hcase).
  destruct Hcase as [(Hne & _)|(_ & scenes & Hg & -> & _)]; [done|].
  cbn [storyboarded with_storyboard_ready with_scenes Project.scenes
       scripted_project with_script_summary] in *.
  assert (Hpos : forall j s, designed !! j = Some s ->
            Scene.index s = Z.of_nat j
            /\ Scene.aspect_ratio s
               = if Nat.even j then "16:9" else "9:16").
  { intros j s Hj.
    pose proof (generated_storyboard_alternates _ _ _ _ _ _ _ Hg Hdes Hj)
      as Halt.
    pose proof (design_inv _ _ Hdes) as HF.
    destruct (Forall2_lookup_r _ _ _ _ _ HF Hj)
      as (s0 & H0 & suggestion & _ & ->).
    pose proof Hg as Hinv. apply generate_inv in Hinv as [_ Hgen].
    destruct (Forall2_lookup_r _ _ _ _ _ Hgen H0) as (k & Hk & Hs).
    apply lookup_seq in Hk as [-> _]. apply scripted_index in Hs.
    cbn [restyled Scene.index Scene.aspect_ratio] in *. split; [done|].
    destruct (Nat.even j) eqn:E.
    - by apply Halt.
    - destruct (Z.even (Scene.index s0)) eqn:Ez; [|done].
      destruct Halt as [Halt _]. by specialize (Halt eq_refl). }
  destruct (Hpos i scene Hi) as [Hidx Hratio].
  split; [done|]. split; [by intros E; rewrite E in Hratio|].
  split; [by intros E; rewrite E in Hratio|].
  assert (Hlen : (3 <= length designed)%nat).
  { apply design_inv, Forall2_length in Hdes.
    apply generate_inv in Hg as [_ Hgen].
    apply Forall2_length in Hgen. rewrite length_seq in Hgen. lia. }
  destruct designed as [|first [|second rest]]; cbn [length] in Hlen;
    try lia.
  exists first, second. split; [done|]. split; [done|].
  split; [by apply (Hpos 0%nat first)|by apply (Hpos 1%nat second)].
Qed.

End Pipeline.

(* ===================================================================== *)
(** * The sample run: witnesses and counterexamples *)
(* ===================================================================== *)

(** C9, at the failing input. In a home directory that holds one project
    and the preview [render_preview] wrote to its default destination,
    the pattern matches both files; [list_projects] yields the project and
    then raises [TypeError] on the preview file. *)
Theorem list_projects_after_default_preview :
  held (run (tw := unbroken) demo_service demo_create initial_world)
  = [demo_project]
  /\ sorted_glob (disk demo_world)
     = ["0123456789ab.json"; "0123456789ab_preview.json"]
  /\ list_projects (storage demo_service) "2024-01-02T00:00:00Z"
                   (disk demo_world)
     = ([demo_stored], Some TypeError)
  /\ Project.project_id demo_stored = "0123456789ab".
Proof. repeat split; vm_compute; reflexivity. Qed.

(** C1, witness: the project stored after creating the sample project and
    rendering its preview. *)
Lemma lifecycle_invariant_reachable_witness :
  Project.preview_ready demo_stored = true
  /\ lifecycle_invariant demo_stored.
Proof.
  split; [vm_compute; reflexivity|].
  assert (Hin : forall permitted,
            permitted (Preview demo_project None) -> permitted demo_create ->
            reachable_by (tw := unbroken) demo_service permitted demo_world).
  { intros permitted Hpreview Hcreate. unfold demo_world.
    apply reachable_run; [|left; reflexivity|exact Hpreview].
    apply reachable_run; [|exact I|exact Hcreate].
    by apply (reachable_initial demo_service permitted empty_disk). }
  apply (lifecycle_invariant_reachable (tw := unbroken) demo_service
           demo_world demo_stored).
  - by apply Hin.
  - right. exists "2024-01-02T00:00:00Z", "0123456789ab".
    vm_compute. reflexivity.
  - by apply Hin.
Defined.

(** C1, counterexample. Create, storyboard, script, render: the script
    generated for the storyboarded project keeps the flag, and the
    project stored in the end has both flags set and five scenes that are
    all 16:9, those with an odd index too. *)
Lemma lifecycle_invariant_lost_by_new_script :
  reachable (tw := unbroken) demo_service demo_stale_world
  /\ reached demo_service demo_stale_world demo_stale
  /\ Project.storyboard_ready demo_stale = true
  /\ Project.preview_ready demo_stale = true
  /\ map (fun scene => (Scene.index scene, Scene.aspect_ratio scene))
         (Project.scenes demo_stale)
     = [(0, "16:9"); (1, "16:9"); (2, "16:9"); (3, "16:9"); (4, "16:9")]
  /\ ~ lifecycle_invariant demo_stale.
Proof.
  split.
  { unfold demo_stale_world, demo_designed_world, demo_created_world.
    apply reachable_run; [|vm_compute; left; reflexivity|exact I].
    apply reachable_run; [|vm_compute; left; reflexivity|exact I].
    apply reachable_run; [|vm_compute; left; reflexivity|exact I].
    apply reachable_run; [|exact I|exact I].
    by apply (reachable_initial demo_service any_call empty_disk). }
  split.
  { right. exists "2024-01-02T00:00:00Z", "0123456789ab".
    vm_compute. reflexivity. }
  split; [vm_compute; reflexivity|]. split; [vm_compute; reflexivity|].
  split; [vm_compute; reflexivity|].
  intros [Hsb _]. destruct (Hsb ltac:(vm_compute; reflexivity)) as [_ Hall].
  apply (Forall_lookup_1 _ _ 1%nat
           (nth 1 (Project.scenes demo_stale) demo_scene)) in Hall;
    [|vm_compute; reflexivity].
  vm_compute in Hall. discriminate Hall.
Qed.


(** C3, witness: the sample project with one scene. *)
Lemma design_storyboard_twice_witness :
  Project.scenes demo_scripted <> []
  /\ exists p1 d1 p2 d2,
       design_storyboard (tw := unbroken) demo_service demo_scripted
                         empty_disk = (Ok p1, d1)
       /\ design_storyboard (tw := unbroken) demo_service p1 d1 = (Ok p2, d2)
       /\ Forall2 redesigned (Project.scenes p1) (Project.scenes p2)
       /\ p2 = with_scenes (Project.scenes p2) p1.
Proof.
  assert (Hne : Project.scenes demo_scripted <> []) by discriminate.
  split; [exact Hne|].
  destruct (design_storyboard_twice (tw := unbroken) demo_service
              demo_scripted empty_disk Hne) as [Hfits _].
  apply Hfits. reflexivity.
Defined.

(** C3, counterexample. The second application appends the suggestion to
    the thumbnail again, so the scenes are not those of the first. *)
Lemma design_storyboard_twice_differs :
  exists p1 d1 p2 d2,
    design_storyboard (tw := unbroken) demo_service demo_scripted empty_disk
    = (Ok p1, d1)
    /\ design_storyboard (tw := unbroken) demo_service p1 d1 = (Ok p2, d2)
    /\ map Scene.thumbnail_description (Project.scenes p1)
       = [Some "a bowl of nuts | Shot suggestion: wide establishing"]
    /\ map Scene.thumbnail_description (Project.scenes p2)
       = [Some ("a bowl of nuts | Shot suggestion: wide establishing"
                ++ " | Shot suggestion: wide establishing")]
    /\ Project.scenes p2 <> Project.scenes p1.
Proof.
  eexists _, _, _, _.
  split; [vm_compute; reflexivity|].
  split; [vm_compute; reflexivity|].
  split; [vm_compute; reflexivity|].
  split; [vm_compute; reflexivity|].
  vm_compute. discriminate.
Qed.

(** C4, witness: the empty brief, two minutes. *)
Lemma generate_sentence_pairing_witness :
  exists scenes,
    generate (tw := unbroken) ScriptGenerator_default "" 2 = Ok scenes
    /\ forall i scene,
         scenes !! i = Some scene ->
         exists arc sentence,
           arc_at i = Some arc
           /\ scene = scene_for (tw := unbroken) (Z.of_nat i) arc sentence
           /\ sentence = default_sentence.
Proof.
  destruct (generate (tw := unbroken) ScriptGenerator_default "" 2)
    as [scenes|e] eqn:E; [|vm_compute in E; discriminate E].
  exists scenes. split; [reflexivity|].
  exact (generate_sentence_pairing (tw := unbroken) ScriptGenerator_default
           "" 2 scenes E).
Defined.

(** C4, counterexample. The empty brief has no sentence, and the first
    scene is made of the stock sentence, not of the brief. *)
Lemma empty_brief_is_not_the_fallback :
  stripped_segments "" = []
  /\ exists scene rest,
       generate (tw := unbroken) ScriptGenerator_default "" 2
       = Ok (scene :: rest)
       /\ scene = scene_for (tw := unbroken) 0
                    "Hook the audience with a relatable question"
                    default_sentence
       /\ Scene.thumbnail_description scene
          = Some ("hook the audience with a relatable question featuring "
                  ++ "Introduce the topic in an engaging")
       /\ Scene.thumbnail_description
            (scene_for (tw := unbroken) 0
               "Hook the audience with a relatable question" "")
          = Some "hook the audience with a relatable question featuring"
       /\ scene <> scene_for (tw := unbroken) 0
                     "Hook the audience with a relatable question" "".
Proof.
  split; [reflexivity|]. eexists _, _.
  split; [vm_compute; reflexivity|].
  split; [vm_compute; reflexivity|].
  split; [vm_compute; reflexivity|].
  split; [vm_compute; reflexivity|].
  vm_compute. discriminate.
Qed.

(** C6, counterexample. A project created with a duration of 2^1024
    minutes is fresh; [render_preview] on it raises [OverflowError] out of
    [generate] and writes nothing, so the stored project stays as created,
    with [preview_ready] false. And with a destination in a directory that
    does not exist, [render_preview] on the fresh sample project raises
    after it has stored the storyboard: the stored project has
    [preview_ready] false. *)
Lemma render_preview_overflows :
  (exists d1,
     create_project demo_service "ba9876543210" "2024-01-01T00:00:00Z"
       "Endless" "One idea." "calm" "everyone" (2 ^ 1024) empty_disk
     = (Ok demo_endless, d1)
     /\ fresh demo_endless
     /\ render_preview (tw := unbroken) demo_service demo_endless None d1
        = (Raise OverflowError, d1)
     /\ fst (load (storage demo_service) "2024-01-02T00:00:00Z"
                  "ba9876543210" d1) = Ok demo_endless
     /\ Project.preview_ready demo_endless = false)
  /\ (exists d2 kept,
        fresh demo_project
        /\ refuses demo_locked (Elsewhere "/nowhere/preview.json") = true
        /\ render_preview (tw := unbroken) demo_service demo_project
             (Some (Elsewhere "/nowhere/preview.json")) demo_locked
           = (Raise OSError, d2)
        /\ fst (load (storage demo_service) "2024-01-02T00:00:00Z"
                     "0123456789ab" d2) = Ok kept
        /\ Project.storyboard_ready kept = true
        /\ Project.preview_ready kept = false).
Proof.
  split.
  - eexists. split; [vm_compute; reflexivity|].
    split; [by repeat split|].
    split; [vm_compute; reflexivity|].
    split; vm_compute; reflexivity.
  - eexists _, _. split; [by repeat split|].
    split; [vm_compute; reflexivity|].
    split; [vm_compute; reflexivity|].
    split; [vm_compute; reflexivity|].
    split; vm_compute; reflexivity.
Qed.

(** C6, witness: the sample project, no destination given. *)
Lemma render_preview_fresh_witness :
  fresh demo_project
  /\ exists d3 stored_project,
       render_preview (tw := unbroken) demo_service demo_project None
                      empty_disk
       = (Ok (InHome "0123456789ab_preview.json"), d3)
       /\ fst (load (storage demo_service) "2024-01-02T00:00:00Z"
                    "0123456789ab" d3) = Ok stored_project
       /\ Project.preview_ready stored_project = true
       /\ Project.storyboard_ready stored_project = true.
Proof.
  assert (Hfresh : fresh demo_project) by (repeat split).
  assert (Hd : Z.abs (Project.duration_minutes demo_project) <= float_limit)
    by (vm_compute; discriminate).
  split; [exact Hfresh|].
  destruct (render_preview_fresh (tw := unbroken) demo_service
              "2024-01-02T00:00:00Z" demo_project None empty_disk Hfresh Hd
              eq_refl)
    as (p1 & d1 & p2 & d2 & d3 & sp & _ & _ & _ & Hr & _ & Hl & Hp & Hs & _).
  exists d3, sp. repeat split; assumption.
Defined.

(** C7, witness: the sample project. *)
Lemma generate_script_frame_witness :
  exists p' d',
    generate_script (tw := unbroken) demo_service demo_project empty_disk
    = (Ok p', d')
    /\ Project.project_id p' = "0123456789ab"
    /\ Project.storyboard_ready p' = false
    /\ Project.preview_ready p' = false.
Proof.
  destruct (generate_script (tw := unbroken) demo_service demo_project
              empty_disk) as [[p'|e] d'] eqn:E;
    [|vm_compute in E; discriminate E].
  exists p', d'. split; [reflexivity|].
  destruct (generate_script_frame (tw := unbroken) demo_service demo_project
              empty_disk p' d' E)
    as (Hid & _ & _ & _ & _ & _ & _ & Hsb & Hpre & _).
  repeat split; assumption.
Defined.

(** The files of [demo_saved]. *)
Lemma demo_saved_files name data :
  home_dir demo_saved !! name = Some data ->
  is_json_name name = true ->
  exists p, data = dumps_loads (Project.to_dict p).
Proof.
  unfold demo_saved. rewrite save_written by reflexivity.
  cbn [snd path_for write_text home_dir empty_disk].
  intros [[_ <-]|[_ H]]%lookup_insert_Some _.
  - exists demo_project. by rewrite dumps_loads_project.
  - by rewrite lookup_empty in H.
Qed.

(** X1, witness: the sample project on an empty home directory. *)
Lemma load_after_save_witness :
  storable demo_project = true
  /\ exists d',
       save (storage demo_service) demo_project empty_disk = (Ok tt, d')
       /\ load (storage demo_service) "2024-01-02T00:00:00Z" "0123456789ab"
               d' = (Ok demo_project, d').
Proof.
  split; [reflexivity|].
  destruct (load_after_save (storage demo_service) "2024-01-02T00:00:00Z"
              demo_project empty_disk) as [Hfits _].
  apply Hfits. reflexivity.
Defined.

(** X2, witness: saving the sample project beside the endless one. *)
Lemma save_keeps_other_projects_witness :
  "ba9876543210" <> Project.project_id demo_project
  /\ fst (load (storage demo_service) "2024-01-02T00:00:00Z" "ba9876543210"
            (snd (save (storage demo_service) demo_project
                    (snd (save (storage demo_service) demo_endless
                            empty_disk)))))
     = fst (load (storage demo_service) "2024-01-02T00:00:00Z" "ba9876543210"
              (snd (save (storage demo_service) demo_endless empty_disk))).
Proof.
  assert (Hne : "ba9876543210" <> Project.project_id demo_project)
    by (vm_compute; discriminate).
  split; [exact Hne|].
  exact (save_keeps_other_projects (storage demo_service)
           "2024-01-02T00:00:00Z" demo_project "ba9876543210" _ Hne).
Defined.

(** X3, witness: the sample project, saved fresh and then with a scene. *)
Lemma save_last_writer_wins_witness :
  Project.project_id demo_project = Project.project_id demo_scripted
  /\ storable demo_scripted = true
  /\ snd (save (storage demo_service) demo_scripted
            (snd (save (storage demo_service) demo_project empty_disk)))
     = snd (save (storage demo_service) demo_scripted empty_disk)
  /\ fst (load (storage demo_service) "2024-01-02T00:00:00Z"
            (Project.project_id demo_project)
            (snd (save (storage demo_service) demo_scripted
                    (snd (save (storage demo_service) demo_project
                            empty_disk)))))
     = Ok demo_scripted.
Proof.
  split; [reflexivity|]. split; [reflexivity|].
  exact (save_last_writer_wins (storage demo_service) "2024-01-02T00:00:00Z"
           demo_project demo_scripted empty_disk eq_refl eq_refl).
Defined.

(** X5, witness: a payload with the six required keys. *)
Lemma from_dict_accepts_only_witness :
  Project.from_dict "2024-01-02T00:00:00Z" (JDict demo_minimal)
  = Ok demo_minimal_project
  /\ exists entries,
       JDict demo_minimal = JDict entries
       /\ (forall k v, In (k, v) entries -> In k Project.fields)
       /\ (forall k, In k Project.required -> is_Some (dict_get k entries)).
Proof.
  split; [reflexivity|].
  exact (from_dict_accepts_only "2024-01-02T00:00:00Z" (JDict demo_minimal)
           demo_minimal_project eq_refl).
Defined.

(** X6, witness: the same payload; it has no time stamp, and the project
    is stamped with the time of the call. *)
Lemma from_dict_defaults_witness :
  Project.from_dict "2024-01-02T00:00:00Z" (JDict demo_minimal)
  = Ok demo_minimal_project
  /\ dict_get "created_at" demo_minimal = None
  /\ Project.created_at demo_minimal_project = "2024-01-02T00:00:00Z"
  /\ Project.scenes demo_minimal_project = [].
Proof.
  split; [reflexivity|]. split; [reflexivity|].
  destruct (from_dict_defaults "2024-01-02T00:00:00Z" demo_minimal
              demo_minimal_project eq_refl) as (Hstamp & _ & Hscenes & _).
  split; [apply Hstamp|apply Hscenes]; reflexivity.
Defined.

(** X9, witness: no minutes at all give three scenes. *)
Lemma generate_scene_count_edges_witness :
  exists scenes,
    generate (tw := unbroken) ScriptGenerator_default "One idea." 0
    = Ok scenes
    /\ length scenes = 3%nat.
Proof.
  destruct (generate (tw := unbroken) ScriptGenerator_default "One idea." 0)
    as [scenes|e] eqn:E; [|vm_compute in E; discriminate E].
  exists scenes. split; [reflexivity|].
  destruct (generate_scene_count_edges (tw := unbroken)
              ScriptGenerator_default "One idea." 0 scenes E) as [Hlow _].
  apply Hlow. lia.
Defined.

(** X11, witness: the first scene of the pipeline test's brief. *)
Lemma generate_titles_and_moods_witness :
  exists scene rest,
    generate (tw := unbroken) ScriptGenerator_default
      "Share three actionable tips. Focus on energising the viewer." 2
    = Ok (scene :: rest)
    /\ Some "Scene 1: Hook The Audience" = Some (Scene.title scene)
    /\ Some (Some "energetic") = Some (Scene.mood scene).
Proof.
  destruct (generate (tw := unbroken) ScriptGenerator_default
              "Share three actionable tips. Focus on energising the viewer."
              2)
    as [[|scene rest]|e] eqn:E; try (vm_compute in E; discriminate E).
  exists scene, rest. split; [reflexivity|].
  destruct (generate_titles_and_moods (tw := unbroken)
              ScriptGenerator_default _ 2 (scene :: rest) 0%nat scene E
              eq_refl) as (Htitle & Hmood & _).
  split; [exact Htitle|exact Hmood].
Defined.

(** X12, witness: the sample scene. *)
Lemma design_thumbnail_witness :
  exists out suggestion,
    design [demo_scene] = Ok [out]
    /\ shot_options !! 0%nat = Some suggestion
    /\ Scene.thumbnail_description out
       = Some ("a bowl of nuts" ++ " | Shot suggestion: " ++ suggestion).
Proof.
  destruct (design [demo_scene]) as [[|out [|]]|e] eqn:E;
    try (vm_compute in E; discriminate E).
  destruct (design_thumbnail [demo_scene] [out] 0%nat demo_scene out E
              eq_refl eq_refl) as (suggestion & Hs & Ht).
  exists out, suggestion. split; [reflexivity|]. split; [exact Hs|exact Ht].
Defined.

(** X13, witness: the sample project. *)
Lemma create_project_stores_witness :
  Z.abs 3 < 10 ^ max_str_digits
  /\ exists d',
       create_project demo_service "0123456789ab" "2024-01-01T00:00:00Z"
         "Healthy Snacks" "Offer snappy snack ideas for remote workers."
         "friendly" "remote workers" 3 empty_disk
       = (Ok demo_project, d')
       /\ fst (load (storage demo_service) "2024-01-02T00:00:00Z"
                 "0123456789ab" d') = Ok demo_project.
Proof.
  assert (Hfits : Z.abs 3 < 10 ^ max_str_digits)
    by (vm_compute; reflexivity).
  split; [exact Hfits|].
  destruct (create_project_stores demo_service "0123456789ab"
              "2024-01-01T00:00:00Z" "Healthy Snacks"
              "Offer snappy snack ideas for remote workers." "friendly"
              "remote workers" 3 empty_disk "2024-01-02T00:00:00Z")
    as [Hreturns _].
  destruct (Hreturns Hfits) as (p & d' & Hcreate & -> & _ & Hload & _).
  exists d'. split; [exact Hcreate|exact Hload].
Defined.

(** X14, witness: the sample project. *)
Lemma generate_script_persists_witness :
  exists p' d',
    generate_script (tw := unbroken) demo_service demo_project empty_disk
    = (Ok p', d')
    /\ fst (load (storage demo_service) "2024-01-02T00:00:00Z"
              "0123456789ab" d') = Ok p'.
Proof.
  destruct (generate_script (tw := unbroken) demo_service demo_project
              empty_disk) as [[p'|e] d'] eqn:E;
    [|vm_compute in E; discriminate E].
  exists p', d'. split; [reflexivity|].
  destruct (generate_script_persists (tw := unbroken) demo_service
              "2024-01-02T00:00:00Z" demo_project empty_disk p' d' E)
    as [Hload _].
  exact Hload.
Defined.

(** X15, witness: the sample project, which has no scenes yet. *)
Lemma design_storyboard_contract_witness :
  exists p' d',
    design_storyboard (tw := unbroken) demo_service demo_project empty_disk
    = (Ok p', d')
    /\ Project.storyboard_ready p' = true
    /\ fst (load (storage demo_service) "2024-01-02T00:00:00Z"
              "0123456789ab" d') = Ok p'
    /\ Project.preview_ready p' = false.
Proof.
  destruct (design_storyboard (tw := unbroken) demo_service demo_project
              empty_disk) as [[p'|e] d'] eqn:E;
    [|vm_compute in E; discriminate E].
  exists p', d'. split; [reflexivity|].
  destruct (design_storyboard_contract (tw := unbroken) demo_service
              "2024-01-02T00:00:00Z" demo_project empty_disk p' d' E)
    as (Hready & Hload & _ & _ & _ & _ & _ & _ & _ & Hpre & _).
  split; [exact Hready|]. split; [exact Hload|exact Hpre].
Defined.

(** X16, witness: the project stored by the sample run, rendered again. *)
Lemma render_preview_ready_as_is_witness :
  Project.storyboard_ready demo_stored = true
  /\ storable demo_stored = true
  /\ refuses demo_locked (Elsewhere "/tmp/preview.json") = false
  /\ exists d',
       render_preview (tw := unbroken) demo_service demo_stored
                      (Some (Elsewhere "/tmp/preview.json")) demo_locked
       = (Ok (Elsewhere "/tmp/preview.json"), d')
       /\ fst (load (storage demo_service) "2024-01-03T00:00:00Z"
                 "0123456789ab" d')
          = Ok (with_preview_ready true demo_stored).
Proof.
  assert (Hready : Project.storyboard_ready demo_stored = true)
    by (vm_compute; reflexivity).
  assert (Hfits : storable demo_stored = true) by (vm_compute; reflexivity).
  assert (Hopen : refuses demo_locked (Elsewhere "/tmp/preview.json") = false)
    by (vm_compute; reflexivity).
  split; [exact Hready|]. split; [exact Hfits|]. split; [exact Hopen|].
  destruct (render_preview_ready_as_is (tw := unbroken) demo_service
              "2024-01-03T00:00:00Z" demo_stored
              (Some (Elsewhere "/tmp/preview.json")) demo_locked
              Hready Hfits Hopen) as (d' & Hr & _ & Hload).
  exists d'. split; [exact Hr|exact Hload].
Defined.

(** X17, witness: the same project, on an empty home directory. *)
Lemma render_preview_again_witness :
  Project.storyboard_ready demo_stored = true
  /\ render_preview (tw := unbroken) demo_service demo_stored None
       (snd (render_preview (tw := unbroken) demo_service demo_stored None
               empty_disk))
     = render_preview (tw := unbroken) demo_service demo_stored None
         empty_disk.
Proof.
  assert (Hready : Project.storyboard_ready demo_stored = true)
    by (vm_compute; reflexivity).
  split; [exact Hready|].
  exact (render_preview_again (tw := unbroken) demo_service demo_stored None
           empty_disk Hready).
Defined.

(** X18, witness: a new script for the project stored by the sample run. *)
Lemma regenerated_script_is_rendered_undesigned_witness :
  Project.storyboard_ready demo_stored = true
  /\ exists p1 d1,
       generate_script (tw := unbroken) demo_service demo_stored
                       (disk demo_world) = (Ok p1, d1)
       /\ Project.storyboard_ready p1 = true
       /\ Forall (fun scene => Scene.aspect_ratio scene = "16:9")
                 (Project.scenes p1).
Proof.
  assert (Hready : Project.storyboard_ready demo_stored = true)
    by (vm_compute; reflexivity).
  split; [exact Hready|].
  destruct (generate_script (tw := unbroken) demo_service demo_stored
              (disk demo_world)) as [[p1|e] d1] eqn:E;
    [|vm_compute in E; discriminate E].
  exists p1, d1. split; [reflexivity|].
  destruct (regenerated_script_is_rendered_undesigned (tw := unbroken)
              demo_service "2024-01-03T00:00:00Z" demo_stored
              (disk demo_world) p1 d1 Hready E) as (Hflag & _ & Hall & _).
  split; [exact Hflag|exact Hall].
Defined.

(** X19, witness: the preview of the sample project. *)
Lemma load_of_preview_raises_witness :
  exists path d',
    render_preview (tw := unbroken) demo_service demo_project None empty_disk
    = (Ok path, d')
    /\ path = InHome "0123456789ab_preview.json"
    /\ fst (load (storage demo_service) "2024-01-02T00:00:00Z"
              "0123456789ab_preview" d') = Raise TypeError.
Proof.
  destruct (render_preview (tw := unbroken) demo_service demo_project None
              empty_disk) as [[path|e] d'] eqn:E;
    [|vm_compute in E; discriminate E].
  exists path, d'. split; [reflexivity|].
  exact (load_of_preview_raises (tw := unbroken) demo_service
           "2024-01-02T00:00:00Z" demo_project empty_disk path d' E).
Defined.

(** X29, witness: the fresh sample project and a destination in a
    directory that does not exist. *)
Lemma render_preview_refused_witness :
  refuses demo_locked (Elsewhere "/nowhere/preview.json") = true
  /\ exists d',
       render_preview (tw := unbroken) demo_service demo_project
         (Some (Elsewhere "/nowhere/preview.json")) demo_locked
       = (Raise OSError, d')
       /\ d' = snd (design_storyboard (tw := unbroken) demo_service
                      demo_project demo_locked).
Proof.
  assert (Hw : refuses demo_locked (Elsewhere "/nowhere/preview.json") = true)
    by (vm_compute; reflexivity).
  split; [exact Hw|].
  destruct (render_preview_refused (tw := unbroken) demo_service demo_project
              (Some (Elsewhere "/nowhere/preview.json")) demo_locked Hw)
    as (e & Hr & _ & Hos).
  assert (He : e = OSError).
  { apply Hos. cbn [Project.storyboard_ready demo_project].
    destruct (design_storyboard (tw := unbroken) demo_service demo_project
                demo_locked) as [[p2|e2] d2] eqn:E;
      [by exists p2, d2|vm_compute in E; discriminate E]. }
  subst e. eexists. split; [exact Hr|reflexivity].
Defined.

(** X20, witness: the home directory with the sample project in it. *)
Lemma list_projects_in_name_order_witness :
  sorted_glob demo_saved = ["0123456789ab.json"]
  /\ exists projects,
       list_projects (storage demo_service) "2024-01-02T00:00:00Z" demo_saved
       = (projects, None)
       /\ Forall2 (fun name p =>
                     home_dir demo_saved !! name
                     = Some (dumps_loads (Project.to_dict p)))
                  (sorted_glob demo_saved) projects.
Proof.
  split; [vm_compute; reflexivity|].
  destruct (list_projects_in_name_order (storage demo_service)
              "2024-01-02T00:00:00Z" demo_saved demo_saved_files)
    as (projects & Hlist & Hfiles & _).
  exists projects. split; [exact Hlist|exact Hfiles].
Defined.

(** X21, witness: an empty home directory. *)
Lemma main_unknown_id_witness :
  read_text (path_for (storage demo_service) "0123456789ab") empty_disk = None
  /\ main (tw := unbroken) demo_service "ba9876543210" "2024-01-02T00:00:00Z"
       (ArgsRender "0123456789ab" None) empty_disk
     = ([], Raised FileNotFoundError, empty_disk).
Proof.
  split; [reflexivity|].
  destruct (main_unknown_id (tw := unbroken) demo_service "ba9876543210"
              "2024-01-02T00:00:00Z" "0123456789ab" None empty_disk eq_refl)
    as (_ & _ & Hrender).
  exact Hrender.
Defined.

(** X22, witness: [init] with the fields of the sample project. *)
Lemma main_init_then_script_witness :
  Z.abs 3 < 10 ^ max_str_digits
  /\ exists d1,
       main (tw := unbroken) demo_service "0123456789ab"
         "2024-01-01T00:00:00Z"
         (ArgsInit "Healthy Snacks"
            "Offer snappy snack ideas for remote workers." "friendly"
            "remote workers" 3) empty_disk
       = ([Text "0123456789ab"], Returned, d1)
       /\ exists p d2,
            main (tw := unbroken) demo_service "ba9876543210"
              "2024-01-02T00:00:00Z" (ArgsScript "0123456789ab") d1
            = ([Document (Project.to_dict p)], Returned, d2)
            /\ (3 <= length (Project.scenes p) <= 6)%nat.
Proof.
  assert (Hfits : Z.abs 3 < 10 ^ max_str_digits)
    by (vm_compute; reflexivity).
  split; [exact Hfits|].
  destruct (main_init_then_script (tw := unbroken) demo_service
              "0123456789ab" "2024-01-01T00:00:00Z" "ba9876543210"
              "2024-01-02T00:00:00Z" "Healthy Snacks"
              "Offer snappy snack ideas for remote workers." "friendly"
              "remote workers" 3 empty_disk Hfits)
    as (d1 & Hinit & Hscript & _).
  exists d1. split; [exact Hinit|].
  destruct Hscript as (p & d2 & Hmain & _ & _ & _ & _ & Hlen & _).
  { vm_compute. discriminate. }
  exists p, d2. split; [exact Hmain|exact Hlen].
Defined.

(** X23, witness: [render] and then [list] on the saved sample project. *)
Lemma main_list_after_render_witness :
  exists shown d',
    main (tw := unbroken) demo_service "ba9876543210" "2024-01-02T00:00:00Z"
      (ArgsRender "0123456789ab" None) demo_saved
    = (shown, Returned, d')
    /\ exists lines e,
         main (tw := unbroken) demo_service "ba9876543210"
           "2024-01-03T00:00:00Z" ArgsList d'
         = (lines, Raised e, d').
Proof.
  destruct (main (tw := unbroken) demo_service "ba9876543210"
              "2024-01-02T00:00:00Z" (ArgsRender "0123456789ab" None)
              demo_saved) as [[shown [| |]] d'] eqn:E;
    try (vm_compute in E; discriminate E).
  exists shown, d'. split; [reflexivity|].
  exact (main_list_after_render (tw := unbroken) demo_service "ba9876543210"
           "2024-01-02T00:00:00Z" "0123456789ab" demo_saved shown d'
           "ba9876543210" "2024-01-03T00:00:00Z" E).
Defined.

(** X24, witness: [list] on the saved sample project. *)
Lemma main_list_lines_witness :
  exists projects,
    main (tw := unbroken) demo_service "ba9876543210" "2024-01-02T00:00:00Z"
      ArgsList demo_saved
    = (map (fun p => Text (Project.project_id p ++ String "009"
                             (Project.title p ++ String "009"
                                (Project.created_at p)))) projects,
       Returned, demo_saved)
    /\ Forall2 (fun name p =>
                  home_dir demo_saved !! name
                  = Some (dumps_loads (Project.to_dict p)))
               (sorted_glob demo_saved) projects.
Proof.
  exact (main_list_lines (tw := unbroken) demo_service "ba9876543210"
           "2024-01-02T00:00:00Z" demo_saved demo_saved_files).
Defined.

(** X25, witness: a short sentence behind the second arc. *)
Lemma key_point_is_sentence_witness :
  In "Present the core promise" arcs
  /\ strip "Offer snappy snack ideas" = "Offer snappy snack ideas"
  /\ _summarize_scenes
       [scene_for (tw := unbroken) 1 "Present the core promise"
          "Offer snappy snack ideas"]
     = "Offer snappy snack ideas".
Proof.
  assert (Harc : In "Present the core promise" arcs)
    by (right; left; reflexivity).
  split; [exact Harc|]. split; [reflexivity|].
  exact (key_point_is_sentence (tw := unbroken) 1 "Present the core promise"
           "Offer snappy snack ideas" Harc eq_refl eq_refl).
Defined.

(** X26, witness: the sample project. *)
Lemma script_summary_nonempty_witness :
  exists p' d' summary,
    generate_script (tw := unbroken) demo_service demo_project empty_disk
    = (Ok p', d')
    /\ Project.script_summary p' = Some summary
    /\ summary <> EmptyString.
Proof.
  destruct (generate_script (tw := unbroken) demo_service demo_project
              empty_disk) as [[p'|e] d'] eqn:E;
    [|vm_compute in E; discriminate E].
  destruct (script_summary_nonempty (tw := unbroken) demo_service
              demo_project empty_disk p' d' E) as (summary & Hs & Hne).
  exists p', d', summary. split; [reflexivity|]. split; [exact Hs|exact Hne].
Defined.

(** X27, witness: the second scene of the sample project's storyboard. *)
Lemma storyboard_alternates_witness :
  Project.scenes demo_project = []
  /\ exists p' d' first second rest,
       design_storyboard (tw := unbroken) demo_service demo_project
                         empty_disk = (Ok p', d')
       /\ Project.scenes p' = first :: second :: rest
       /\ Scene.index second = 1
       /\ Scene.aspect_ratio second = "9:16".
Proof.
  split; [reflexivity|].
  destruct (design_storyboard (tw := unbroken) demo_service demo_project
              empty_disk) as [[[id t b tn ta dm c ss scenes sr pr]|e] d']
    eqn:E; [|vm_compute in E; discriminate E].
  destruct scenes as [|first [|second rest]];
    try (vm_compute in E; discriminate E).
  exists (Project.mk id t b tn ta dm c ss (first :: second :: rest) sr pr),
    d', first, second, rest.
  split; [reflexivity|]. split; [reflexivity|].
  destruct (storyboard_alternates (tw := unbroken) demo_service demo_project
              empty_disk _ d' 1%nat second eq_refl E eq_refl)
    as (Hindex & _ & Hodd & _).
  split; [exact Hindex|apply Hodd; reflexivity].
Defined.

(** X28, witness: the dict of the sample scene. *)
Lemma scene_accepts_only_witness :
  Scene.of_json (Scene.to_dict demo_scene) = Ok demo_scene
  /\ exists kwargs,
       Scene.to_dict demo_scene = JDict kwargs
       /\ (forall k v, In (k, v) kwargs -> In k Scene.fields)
       /\ (forall k, In k Scene.required -> is_Some (dict_get k kwargs)).
Proof.
  split; [reflexivity|].
  exact (scene_accepts_only (Scene.to_dict demo_scene) demo_scene eq_refl).
Defined.
